(** * CSV/XML catalog generator (calibre, [library/catalogs/csv_xml.py])

    A shallow embedding of [CSV_XML.run]: the per-field resolution and
    formatting rules of the CSV writer, the element builder of the XML
    writer, and the dispatch on the extension of the destination path,
    followed by the properties of each.

    Conventions of the model.
    - A Python [str] is a Rocq [string]: the sequence of its UTF-8 bytes,
      as [codecs.open(.., 'utf8')] writes them.  Its characters
      ([Str.chars]) are the bytes below 128, each one character, and the
      groups made of a leading byte and its continuation bytes.  The
      character classes [\w] and [\d] and [str.lower] are computed on
      ASCII; outside ASCII they are those of the Unicode character
      database, which the model takes from [Env].
    - Values stored in a record are [pyval]s.  Lists and tuples hold
      strings (authors, tags, formats, multi-valued custom columns).
      Any other object (a datetime, the float of [series_index]) is an
      opaque [PObj] that carries its [str()] text.
    - A call that can raise returns a [res]; [Raise e] aborts the rest of
      the computation as the exception does.
    - What the module imports from the rest of calibre and from lxml
      ([authors_to_string], [isoformat], [html2text], [db.get_field],
      [db.field_metadata], [os.sep], [etree.tostring], lxml's check of
      text and tag names) is gathered in the record [Env].
    - A file is [Closed] with its content, or [LeftOpen]: opened for
      writing by a call that ended without closing it, with the text
      written to the file object, of which the disk holds some prefix
      until the object is flushed. *)

From stdpp Require Import base tactics option list strings gmap pretty.
From Stdlib Require Import Ascii ZArith Lia.

Local Open Scope Z_scope.

(** ** Characters and strings *)

Module Str.

Definition DQ : ascii := "034"%char.
Definition LF : ascii := "010"%char.
Definition CR : ascii := "013"%char.

Definition dq : string := String DQ "".
Definition lf : string := String LF "".
Definition crlf : string := String CR (String LF "").

(** The byte-order mark U+FEFF as its three UTF-8 bytes. *)
Definition BOM : string :=
  String "239"%char (String "187"%char (String "191"%char "")).

Definition ascii_eqb (a b : ascii) : bool := bool_decide (a = b).

Definition code (c : ascii) : Z := Z.of_nat (nat_of_ascii c).

(** The bytes of ASCII, and the continuation bytes of a UTF-8 sequence. *)
Definition is_ascii_char (c : ascii) : bool := code c <? 128.
Definition is_continuation (c : ascii) : bool :=
  (128 <=? code c) && (code c <? 192).

(** [\d] and [\w] on ASCII. *)
Definition is_digit (c : ascii) : bool :=
  (48 <=? code c) && (code c <=? 57).
Definition is_upper (c : ascii) : bool :=
  (65 <=? code c) && (code c <=? 90).
Definition is_lower (c : ascii) : bool :=
  (97 <=? code c) && (code c <=? 122).
Definition is_word (c : ascii) : bool :=
  is_digit c || is_upper c || is_lower c || ascii_eqb c "_"%char.

Definition lower_char (c : ascii) : ascii :=
  if is_upper c then ascii_of_nat (nat_of_ascii c + 32) else c.

(** [s.isascii()] *)
Fixpoint is_ascii (s : string) : bool :=
  match s with
  | EmptyString => true
  | String c s' => is_ascii_char c && is_ascii s'
  end.

(** [s.lower()] for a [str] of ASCII characters. *)
Fixpoint ascii_lower (s : string) : string :=
  match s with
  | EmptyString => EmptyString
  | String c s' => String (lower_char c) (ascii_lower s')
  end.

(** [s.startswith(p)] *)
Fixpoint startswith (s p : string) {struct p} : bool :=
  match p, s with
  | EmptyString, _ => true
  | String a p', String b s' => ascii_eqb a b && startswith s' p'
  | String _ _, EmptyString => false
  end.

(** [s.endswith(p)] *)
Fixpoint endswith (s p : string) : bool :=
  match s with
  | EmptyString => bool_decide (p = EmptyString)
  | String _ s' => bool_decide (s = p) || endswith s' p
  end.

(** [sep.join(l)] *)
Fixpoint join (sep : string) (l : list string) : string :=
  match l with
  | [] => ""
  | [x] => x
  | x :: l' => x +:+ sep +:+ join sep l'
  end.

(** [s.replace(old, new)] for a non-empty [old]: the occurrences of [old]
    are taken left to right and do not overlap.  [skip] counts the
    characters of a matched occurrence still to be dropped. *)
Fixpoint replace_from (old new : string) (skip : nat) (s : string) : string :=
  match s with
  | EmptyString => EmptyString
  | String c s' =>
      match skip with
      | S k => replace_from old new k s'
      | O =>
          if startswith s old
          then new +:+ replace_from old new (String.length old - 1) s'
          else String c (replace_from old new 0 s')
      end
  end.

Definition replace (old new s : string) : string := replace_from old new 0 s.

(** [s.rpartition(sep)] for a one-character separator, as
    [Some (head, tail)] when [sep] occurs in [s] (the split is at its last
    occurrence) and [None] when it does not. *)
Fixpoint rsplit1 (sep : ascii) (s : string) : option (string * string) :=
  match s with
  | EmptyString => None
  | String c s' =>
      match rsplit1 sep s' with
      | Some (h, t) => Some (String c h, t)
      | None => if ascii_eqb c sep then Some (EmptyString, s') else None
      end
  end.

Definition rpartition (sep : ascii) (s : string) : string * string * string :=
  match rsplit1 sep s with
  | Some (h, t) => (h, String sep "", t)
  | None => ("", "", s)
  end.

(** [s.rpartition(sep)[2]] *)
Definition rpartition_2 (sep : ascii) (s : string) : string :=
  (rpartition sep s).2.

(** The characters of [s], each as a [str] of one character (what
    iterating over a [str] yields, and what a regular expression matches
    one at a time).  A byte that is not ASCII goes with the continuation
    bytes that follow it. *)
Fixpoint chars (s : string) : list string :=
  match s with
  | EmptyString => []
  | String b s' =>
      match chars s' with
      | String c0 c :: cs =>
          if negb (is_ascii_char b) && is_continuation c0
          then String b (String c0 c) :: cs
          else String b "" :: String c0 c :: cs
      | cs => String b "" :: cs
      end
  end.

(** [''.join(l)] *)
Definition concat (l : list string) : string := fold_right String.append "" l.

(** Whether every byte of [s] is an ASCII word character. *)
Fixpoint all_word (s : string) : bool :=
  match s with
  | EmptyString => true
  | String c s' => is_word c && all_word s'
  end.

Fixpoint contains_char (c : ascii) (s : string) : bool :=
  match s with
  | EmptyString => false
  | String a s' => ascii_eqb a c || contains_char c s'
  end.

(** [s.count(c)] for a character [c] of one byte. *)
Fixpoint count (c : ascii) (s : string) : nat :=
  match s with
  | EmptyString => O
  | String a s' => ((if ascii_eqb a c then 1 else 0) + count c s')%nat
  end.

End Str.


(** ** Python values, exceptions and results *)

Inductive pyval : Type :=
  | PNone
  | PBool (b : bool)
  | PInt (n : Z)
  | PStr (s : string)
  | PList (l : list string)
  | PTuple (l : list string)
  | PObj (text : string).

#[global] Instance pyval_eq_dec : EqDecision pyval.
Proof. solve_decision. Defined.

(** The exceptions the module can meet.  [FailedToConvert title e] is the
    [Exception('Failed to convert {} to XML with error: {}')] of the XML
    writer, with the title it names and the exception it wraps. *)
Inductive exn : Type :=
  | TypeError
  | KeyError (key : string)
  | AttributeError
  | ValueError
  | OverflowError
  | FailedToConvert (title : string) (error : exn).

Inductive res (A : Type) : Type :=
  | Ok (a : A)
  | Raise (e : exn).
Arguments Ok {A} a.
Arguments Raise {A} e.

#[global] Instance res_ret : MRet res := fun _ a => Ok a.
#[global] Instance res_bind : MBind res := fun _ _ f m =>
  match m with
  | Ok a => f a
  | Raise e => Raise e
  end.
#[global] Instance res_fmap : FMap res := fun _ _ f m =>
  match m with
  | Ok a => Ok (f a)
  | Raise e => Raise e
  end.

(** A [for] loop that builds a list and stops at the first exception. *)
Fixpoint for_each {A B : Type} (f : A -> res B) (l : list A) : res (list B) :=
  match l with
  | [] => Ok []
  | x :: l' => y ← f x; ys ← for_each f l'; Ok (y :: ys)
  end.

Module Py.

(** [bool(v)] *)
Definition truthy (v : pyval) : bool :=
  match v with
  | PNone => false
  | PBool b => b
  | PInt n => negb (n =? 0)
  | PStr s => negb (bool_decide (s = ""))
  | PList l | PTuple l => negb (bool_decide (l = []))
  | PObj _ => true
  end.

(** [isinstance(v, str)] and [isinstance(v, (list, tuple))] *)
Definition is_str (v : pyval) : bool :=
  match v with PStr _ => true | _ => false end.
Definition is_list_or_tuple (v : pyval) : bool :=
  match v with PList _ | PTuple _ => true | _ => false end.

(** [iter(v)]: the items a [for] loop or [str.join] takes from [v]. *)
Definition iter (v : pyval) : res (list string) :=
  match v with
  | PList l | PTuple l => Ok l
  | PStr s => Ok (Str.chars s)
  | _ => Raise TypeError
  end.

(** [sep.join(v)] *)
Definition join (sep : string) (v : pyval) : res string :=
  Str.join sep <$> iter v.

Definition hex_digit (n : Z) : ascii :=
  ascii_of_nat (Z.to_nat (if n <? 10 then 48 + n else 87 + n)).

(** [repr] of one character of a [str] quoted with [q]. *)
Definition repr_char (q : ascii) (c : ascii) : string :=
  if Str.ascii_eqb c q || Str.ascii_eqb c "\"%char then String "\"%char (String c "")
  else if Str.ascii_eqb c "009"%char then "\t"
  else if Str.ascii_eqb c Str.LF then "\n"
  else if Str.ascii_eqb c Str.CR then "\r"
  else if (Str.code c <? 32) || (Str.code c =? 127)
  then "\x" +:+ String (hex_digit (Str.code c / 16)) (String (hex_digit (Str.code c mod 16)) "")
  else String c "".

Fixpoint repr_chars (q : ascii) (s : string) : string :=
  match s with
  | EmptyString => EmptyString
  | String c s' => repr_char q c +:+ repr_chars q s'
  end.

(** [repr(s)] of a [str]: single quotes, unless the text holds a single
    quote and no double quote. *)
Definition repr_str (s : string) : string :=
  let q := if Str.contains_char "'"%char s && negb (Str.contains_char Str.DQ s)
           then Str.DQ else "'"%char in
  String q (repr_chars q s) +:+ String q "".

(** [str(v)] *)
Definition str (v : pyval) : string :=
  match v with
  | PNone => "None"
  | PBool b => if b then "True" else "False"
  | PInt n => pretty n
  | PStr s => s
  | PList l => "[" +:+ Str.join ", " (repr_str <$> l) +:+ "]"
  | PTuple l =>
      match l with
      | [x] => "(" +:+ repr_str x +:+ ",)"
      | _ => "(" +:+ Str.join ", " (repr_str <$> l) +:+ ")"
      end
  | PObj text => text
  end.

(** Round [num / den] to the nearest integer, ties to even ([0 < den]). *)
Definition round_half_even (num den : Z) : Z :=
  let q := num / den in
  let r := num mod den in
  if 2 * r <? den then q
  else if den <? 2 * r then q + 1
  else if Z.even q then q else q + 1.

(** [n / 2] for an [int] [n]: the float nearest to the quotient, given as
    twice its value (a float of magnitude at least 1/2 that is a multiple
    of 1/2 is written [h / 2] with [h] an integer).  Up to 53 bits the
    quotient is exact; beyond, the 53 leading bits are kept, rounded to
    nearest-even.  A quotient past the largest float raises. *)
Definition true_div2 (n : Z) : res Z :=
  let a := Z.abs n in
  let bits := Z.log2 a + 1 in
  if bits <=? 53 then Ok n
  else
    let shift := bits - 53 in
    let h := round_half_even a (2 ^ shift) * 2 ^ shift in
    if 2 ^ 1025 <=? h then Raise OverflowError else Ok (Z.sgn n * h).

Definition digit (d : Z) : string := String (hex_digit d) "".

(** [format(h / 2, '.2g')] for an integer [h]: two significant digits,
    ties to even, trailing zeros and a trailing point removed; exponent
    notation from 100 on.  [x] is the decimal exponent of the value. *)
Definition format_2g_half (h : Z) : string :=
  if h =? 0 then "0" else
  let a := Z.abs h in
  let sign := if h <? 0 then "-" else "" in
  let x0 := if a =? 1 then -1 else Z.of_nat (String.length (pretty (a / 2))) - 1 in
  let m0 := round_half_even (a * 10 ^ Z.max 0 (1 - x0)) (2 * 10 ^ Z.max 0 (x0 - 1)) in
  let '(m, x) := if m0 =? 100 then (10, x0 + 1) else (m0, x0) in
  let d1 := digit (m / 10) in
  let d2 := if m mod 10 =? 0 then "" else digit (m mod 10) in
  let frac := if m mod 10 =? 0 then "" else "." +:+ d2 in
  sign +:+
  (if 2 <=? x then
     d1 +:+ frac +:+ "e+" +:+ (if x <? 10 then "0" else "") +:+ pretty x
   else if x =? 1 then d1 +:+ (if m mod 10 =? 0 then "0" else d2)
   else if x =? 0 then d1 +:+ frac
   else "0." +:+ d1 +:+ d2).

(** [f'{v/2:.2g}'] *)
Definition format_half_2g (v : pyval) : res string :=
  match v with
  | PInt n => format_2g_half <$> true_div2 n
  | PBool b => Ok (format_2g_half (if b then 1 else 0))
  | _ => Raise TypeError
  end.

End Py.

(** ** Records, field metadata, XML elements and the environment *)

(** One entry of [data]: a [dict] from field name to value. *)
Abbreviation record := (gmap string pyval).

(** [entry[key]] *)
Definition getitem (entry : record) (key : string) : res pyval :=
  match entry !! key with
  | Some v => Ok v
  | None => Raise (KeyError key)
  end.

(** A descriptor of [db.field_metadata]: its ['datatype'] entry and the
    truth value of [display['is_names']]. *)
Record FieldMeta : Type := {
  datatype : option string;
  is_names : bool;
}.

(** The empty descriptor [{}] that [.get(x, {})] falls back to. *)
Definition no_meta : FieldMeta := {| datatype := None; is_names := false |}.

(** An lxml element: tag, attributes, text and children. *)
#[warnings="-register-all"]
Inductive xml : Type :=
  | Element (tag : string) (attrib : list (string * string))
            (text : option string) (children : list xml).

Definition xml_tag (e : xml) : string :=
  match e with Element t _ _ _ => t end.
Definition xml_children (e : xml) : list xml :=
  match e with Element _ _ _ cs => cs end.

(** The children of [e] with tag [name] ([e.findall(name)]), and the
    tags of a list of elements. *)
Definition children_named (name : string) (e : xml) : list xml :=
  filter (fun c => xml_tag c = name) (xml_children e).
Definition tags_of (cs : list xml) : list string := xml_tag <$> cs.

(** A list of at most one element, of tag [name]. *)
Definition at_most_one (name : string) (cs : list xml) : Prop :=
  cs = [] ∨ ∃ e, cs = [e] ∧ xml_tag e = name.

(** [parent.append(child)] for each of [cs] in turn. *)
Definition append_all (parent : xml) (cs : list xml) : xml :=
  match parent with
  | Element t a x cs0 => Element t a x (cs0 ++ cs)
  end.

(** What [run] takes from outside this module. *)
Record Env : Type := {
  os_sep : string;
  authors_to_string : pyval -> res string;
  isoformat : pyval -> res string;
  html2text : string -> res string;
  (** [db.get_field(id, field, index_is_id=True)] *)
  get_field : pyval -> string -> res pyval;
  field_metadata : gmap string FieldMeta;
  (** lxml's check that a text or attribute value is XML compatible, and
      that a tag is a valid name *)
  xml_text_ok : string -> bool;
  xml_tag_ok : string -> bool;
  (** [etree.tostring(root, encoding='utf-8', xml_declaration=True,
      pretty_print=True)] *)
  tostring : xml -> string;
  (** The Unicode character database, asked only outside ASCII: whether
      [\w] and [\d] match a character, and [str.lower] of a text that
      is not all ASCII *)
  unicode_word : string -> bool;
  unicode_digit : string -> bool;
  unicode_lower : string -> string;
}.

(** How a call of [run] ends. *)
Inductive outcome : Type :=
  | Returned
  | Raised (e : exn).

(** A file: closed, with its content; or left open by a call that wrote
    [written] to the file object and ended without flushing or closing
    it. *)
Inductive file : Type :=
  | Closed (content : string)
  | LeftOpen (written : string).

Section Writers.
Context (X : Env).

(** [fm = {x: db.field_metadata.get(x, {}) for x in fields}] *)
Definition fm_of (fields : list string) : gmap string FieldMeta :=
  list_to_map ((fun x => (x, default no_meta (field_metadata X !! x))) <$> fields).

(** [fm.get(field, {})] *)
Definition fm_get (fm : gmap string FieldMeta) (field : string) : FieldMeta :=
  default no_meta (fm !! field).

(** *** The CSV writer *)

(** Lines 121-133: the value of [field] for [entry]. *)
Definition csv_item (fm : gmap string FieldMeta) (current_library : pyval)
    (entry : record) (field : string) : res pyval :=
  if Str.startswith field "#" then
    i ← getitem entry "id";
    item ← get_field X i field;
    if Py.is_list_or_tuple item then
      PStr <$> Py.join (if is_names (fm_get fm field) then " & " else ", ") item
    else Ok item
  else if bool_decide (field = "library_name") then Ok current_library
  else if bool_decide (field = "title_sort") then getitem entry "sort"
  else getitem entry field.

(** [\d] and [\w] of [re] on one character of a [str]. *)
Definition re_digit (c : string) : bool :=
  match c with
  | String a "" => if Str.is_ascii_char a then Str.is_digit a else unicode_digit X c
  | _ => unicode_digit X c
  end.
Definition re_word (c : string) : bool :=
  match c with
  | String a "" => if Str.is_ascii_char a then Str.is_word a else unicode_word X c
  | _ => unicode_word X c
  end.

(** [s.lower()] *)
Definition lower (s : string) : string :=
  if Str.is_ascii s then Str.ascii_lower s else unicode_lower X s.

(** The characters [re.sub(r'[^\dX-]', '', item)] keeps. *)
Definition isbn_char (c : string) : bool :=
  re_digit c || bool_decide (c = "X") || bool_decide (c = "-").

(** Lines 138-156: the per-field rules, for an [item] that is not [None]. *)
Definition csv_normalize (fm : gmap string FieldMeta) (field : string)
    (item : pyval) : res pyval :=
  if bool_decide (field = "formats") then
    fmt_list ← Py.iter item;
    Ok (PStr (Str.join ", "
                ((fun format => lower (Str.rpartition_2 "."%char format)) <$> fmt_list)))
  else if bool_decide (field = "authors") then PStr <$> authors_to_string X item
  else if bool_decide (field = "tags") then PStr <$> Py.join ", " item
  else if bool_decide (field = "isbn") then
    match item with
    | PStr s =>
        Ok (PStr (Str.concat (filter (fun c => isbn_char c = true) (Str.chars s))))
    | _ => Raise TypeError
    end
  else if bool_decide (datatype (fm_get fm field) = Some "datetime") then
    PStr <$> isoformat X item
  else if bool_decide (field = "comments") then
    match item with
    | PStr s => Ok (PStr (Str.replace Str.lf " " (Str.replace Str.crlf " " s)))
    | _ => Raise AttributeError
    end
  else if bool_decide (datatype (fm_get fm field) = Some "rating") && Py.truthy item then
    PStr <$> Py.format_half_2g item
  else Ok item.

(** The longest run of word characters at the head of the characters
    [cs], and the rest. *)
Fixpoint word_run (cs : list string) : list string * list string :=
  match cs with
  | [] => ([], [])
  | c :: cs' =>
      if re_word c
      then let '(w, rest) := word_run cs' in (c :: w, rest)
      else ([], cs)
  end.

(** [re.search(r'<(\w+)( |>)', item)] on the characters of [item]: group 1
    of the leftmost match.  At a ['<'] the greedy [\w+] takes the whole
    run of word characters, and a shorter run would be followed by a word
    character, so the pattern matches there exactly when the run is not
    empty and a space or ['>'] follows it. *)
Fixpoint opening_tag (cs : list string) : option (list string) :=
  match cs with
  | [] => None
  | c :: cs' =>
      if bool_decide (c = "<") then
        match word_run cs' with
        | (a :: w, d :: _) =>
            if bool_decide (d = " ") || bool_decide (d = ">")
            then Some (a :: w) else opening_tag cs'
        | _ => opening_tag cs'
        end
      else opening_tag cs'
  end.

(** [re.search(rf'</{name}>$', item)] for a [name] of word characters:
    [$] is the end of the string, or the place before a newline that ends
    the string. *)
Definition closing_tag (name : string) (item : string) : bool :=
  Str.endswith item ("</" +:+ name +:+ ">")
  || Str.endswith item ("</" +:+ name +:+ ">" +:+ Str.lf).

(** Lines 160-163: whether [item] goes through [html2text]. *)
Definition is_html (item : string) : bool :=
  match opening_tag (Str.chars item) with
  | Some name => closing_tag (Str.concat name) item
  | None => false
  end.

(** Lines 159-164. *)
Definition csv_html (item : pyval) : res pyval :=
  match item with
  | PStr s => if is_html s then PStr <$> html2text X s else Ok item
  | _ => Ok item
  end.

(** Line 166: the text between double quotes, each double quote in it
    written twice ([str.replace] of the quote by two quotes). *)
Definition csv_quote (s : string) : string :=
  Str.dq +:+ Str.replace Str.dq (Str.dq +:+ Str.dq) s +:+ Str.dq.

(** Lines 121-166: the cell appended to [outstr] for [field]. *)
Definition csv_cell (fm : gmap string FieldMeta) (current_library : pyval)
    (entry : record) (field : string) : res string :=
  item ← csv_item fm current_library entry field;
  match item with
  | PNone => Ok (Str.dq +:+ Str.dq)
  | _ =>
      item ← csv_normalize fm field item;
      item ← csv_html item;
      Ok (csv_quote (Py.str item))
  end.

(** Lines 119-166: [outstr] for one entry. *)
Definition csv_row (fm : gmap string FieldMeta) (current_library : pyval)
    (fields : list string) (entry : record) : res (list string) :=
  for_each (csv_cell fm current_library entry) fields.

(** Lines 118-168: the loop over [data].  [outfile] is what has been
    written so far; an exception leaves it as it is. *)
Fixpoint csv_entries (fm : gmap string FieldMeta) (current_library : pyval)
    (fields : list string) (data : list record) (outfile : string)
    : string * outcome :=
  match data with
  | [] => (outfile, Returned)
  | entry :: data' =>
      match csv_row fm current_library fields entry with
      | Ok outstr =>
          csv_entries fm current_library fields data'
            (outfile +:+ Str.join "," outstr +:+ Str.lf)
      | Raise e => (outfile, Raised e)
      end
  end.

(** Lines 109-169: everything written to the CSV file. *)
Definition write_csv (fm : gmap string FieldMeta) (current_library : pyval)
    (fields : list string) (data : list record) : string * outcome :=
  csv_entries fm current_library fields data
    (Str.BOM +:+ Str.join "," fields +:+ Str.lf).

End Writers.

(** An opening tag token, in the words of the specification: a ['<'], a
    word [name], then a space or a ['>'].  [token_at X cs pre name] says
    that the characters [cs] hold such a token right after their prefix
    [pre]; [leftmost_token X cs name] that the first token of [cs] has the
    name [name]. *)
Definition token_at (X : Env) (cs pre name : list string) : Prop :=
  ∃ d rest,
    cs = pre ++ "<" :: name ++ d :: rest
    ∧ name ≠ [] ∧ Forall (λ c, re_word X c = true) name
    ∧ (d = " " ∨ d = ">").

Definition leftmost_token (X : Env) (cs name : list string) : Prop :=
  ∃ pre,
    token_at X cs pre name
    ∧ ∀ pre' name', token_at X cs pre' name' → (length pre ≤ length pre')%nat.

Section XmlWriter.
Context (X : Env).

(** *** The XML writer *)

(** lxml accepts a [str] that is XML compatible as text or as the value
    of an attribute, and nothing else. *)
Definition xml_str (v : pyval) : res string :=
  match v with
  | PStr s => if xml_text_ok X s then Ok s else Raise ValueError
  | _ => Raise TypeError
  end.

(** [E.tag(text, key=value, ...)] for one of the fixed tags of the writer:
    the attributes are set first, then the text. *)
Definition E (tag : string) (text : option pyval)
    (attrib : list (string * pyval)) : res xml :=
  a ← for_each (fun kv => v ← xml_str kv.2; Ok (kv.1, v)) attrib;
  t ← match text with
      | None => Ok None
      | Some v => Some <$> xml_str v
      end;
  Ok (Element tag a t []).

(** [getattr(E, tag)(text)] for a tag made from a field name, which lxml
    checks. *)
Definition E_named (tag : string) (text : pyval) : res xml :=
  if xml_tag_ok X tag then E tag (Some text) [] else Raise ValueError.

(** [x in fields] *)
Definition field_in (x : string) (fields : list string) : bool :=
  bool_decide (x ∈ fields).

(** Lines 183-189: one element per custom field, in the order of
    [fields]. *)
Fixpoint xml_custom (fields : list string) (r : record) : res (list xml) :=
  match fields with
  | [] => Ok []
  | field :: fields' =>
      if Str.startswith field "#" then
        i ← getitem r "id";
        val ← get_field X i field;
        item ← E_named (Str.replace "#" "_" field)
                 (if Py.is_str val then val else PStr (Py.str val));
        items ← xml_custom fields' r;
        Ok (item :: items)
      else xml_custom fields' r
  end.

(** The tuple of line 191. *)
Definition scalar_fields : list string :=
  ["id"; "uuid"; "publisher"; "rating"; "size"; "isbn"; "ondevice"; "identifiers"].

(** The tags of the elements that lines 191-245 can append, in the order
    of the statements that append them. *)
Definition fixed_order : list string :=
  scalar_fields ++
  ["title"; "authors"; "timestamp"; "pubdate"; "tags"; "comments"; "series";
   "languages"; "cover"; "formats"; "library_name"].

(** The fields whose element is appended only when the value is truthy:
    the scalar fields (line 195) and those of lines 219-238. *)
Definition truthy_only : list string :=
  scalar_fields ++ ["tags"; "comments"; "series"; "languages"; "cover"; "formats"].

(** Lines 193-203: the element of one fixed scalar field, if any. *)
Definition xml_scalar (fm : gmap string FieldMeta) (fields : list string)
    (r : record) (field : string) : res (list xml) :=
  if field_in field fields then
    val ← getitem r field;
    if negb (Py.truthy val) then Ok []
    else
      val ← (if negb (Py.is_str val) then
               val ← (if bool_decide (datatype (fm_get fm field) = Some "rating")
                         && Py.truthy val
                      then PStr <$> Py.format_half_2g val
                      else Ok val);
               Ok (PStr (Py.str val))
             else Ok val);
      item ← E field (Some val) [];
      Ok [item]
  else Ok [].

(** Lines 191-203. *)
Fixpoint xml_scalars (fm : gmap string FieldMeta) (fields : list string)
    (r : record) (names : list string) : res (list xml) :=
  match names with
  | [] => Ok []
  | field :: names' =>
      items ← xml_scalar fm fields r field;
      rest ← xml_scalars fm fields r names';
      Ok (items ++ rest)
  end.

(** Lines 205-207. *)
Definition xml_title (fields : list string) (r : record) : res (list xml) :=
  if field_in "title" fields then
    t ← getitem r "title";
    s ← getitem r "sort";
    title ← E "title" (Some t) [("sort", s)];
    Ok [title]
  else Ok [].

(** Lines 209-213. *)
Definition xml_authors (fields : list string) (r : record) : res (list xml) :=
  if field_in "authors" fields then
    s ← getitem r "author_sort";
    aus ← E "authors" None [("sort", s)];
    v ← getitem r "authors";
    l ← Py.iter v;
    items ← for_each (fun au => E "author" (Some (PStr au)) []) l;
    Ok [append_all aus items]
  else Ok [].

(** Lines 216-217, for one of [timestamp] and [pubdate]. *)
Definition xml_date (fields : list string) (r : record) (field : string)
    : res (list xml) :=
  if field_in field fields then
    v ← getitem r field;
    s ← isoformat X v;
    item ← E field (Some (PStr s)) [];
    Ok [item]
  else Ok [].

(** Lines 219-223. *)
Definition xml_tags (fields : list string) (r : record) : res (list xml) :=
  if field_in "tags" fields then
    v ← getitem r "tags";
    if Py.truthy v then
      tags ← E "tags" None [];
      l ← Py.iter v;
      items ← for_each (fun tag => E "tag" (Some (PStr tag)) []) l;
      Ok [append_all tags items]
    else Ok []
  else Ok [].

(** Lines 225-226 and 232-233: [comments] and [languages]. *)
Definition xml_text_field (fields : list string) (r : record) (field : string)
    : res (list xml) :=
  if field_in field fields then
    v ← getitem r field;
    if Py.truthy v then
      item ← E field (Some v) [];
      Ok [item]
    else Ok []
  else Ok [].

(** Lines 228-230. *)
Definition xml_series (fields : list string) (r : record) : res (list xml) :=
  if field_in "series" fields then
    v ← getitem r "series";
    if Py.truthy v then
      i ← getitem r "series_index";
      item ← E "series" (Some v) [("index", PStr (Py.str i))];
      Ok [item]
    else Ok []
  else Ok [].

(** [path.replace(os.sep, '/')] of a value of the record. *)
Definition normalize_sep (v : pyval) : res pyval :=
  match v with
  | PStr s => Ok (PStr (Str.replace (os_sep X) "/" s))
  | _ => Raise AttributeError
  end.

(** Lines 235-236. *)
Definition xml_cover (fields : list string) (r : record) : res (list xml) :=
  if field_in "cover" fields then
    v ← getitem r "cover";
    if Py.truthy v then
      p ← normalize_sep v;
      item ← E "cover" (Some p) [];
      Ok [item]
    else Ok []
  else Ok [].

(** Lines 238-242. *)
Definition xml_formats (fields : list string) (r : record) : res (list xml) :=
  if field_in "formats" fields then
    v ← getitem r "formats";
    if Py.truthy v then
      fmt ← E "formats" None [];
      l ← Py.iter v;
      items ← for_each
                (fun f => E "format" (Some (PStr (Str.replace (os_sep X) "/" f))) []) l;
      Ok [append_all fmt items]
    else Ok []
  else Ok [].

(** Lines 244-245. *)
Definition xml_library_name (current_library : pyval) (fields : list string)
    : res (list xml) :=
  if field_in "library_name" fields then
    item ← E "library_name" (Some current_library) [];
    Ok [item]
  else Ok [].

(** Lines 180-245: the body of the [try], which builds one record
    element. *)
Definition xml_record (fm : gmap string FieldMeta) (current_library : pyval)
    (fields : list string) (r : record) : res xml :=
  record ← E "record" None [];
  c1 ← xml_custom fields r;
  c2 ← xml_scalars fm fields r scalar_fields;
  c3 ← xml_title fields r;
  c4 ← xml_authors fields r;
  c5 ← xml_date fields r "timestamp";
  c6 ← xml_date fields r "pubdate";
  c7 ← xml_tags fields r;
  c8 ← xml_text_field fields r "comments";
  c9 ← xml_series fields r;
  c10 ← xml_text_field fields r "languages";
  c11 ← xml_cover fields r;
  c12 ← xml_formats fields r;
  c13 ← xml_library_name current_library fields;
  Ok (append_all record
        (c1 ++ c2 ++ c3 ++ c4 ++ c5 ++ c6 ++ c7 ++ c8 ++ c9 ++ c10 ++ c11 ++ c12 ++ c13)).

(** Lines 179-247: the [try] with its handler, which wraps the exception
    with the title of the record. *)
Definition xml_record_try (fm : gmap string FieldMeta) (current_library : pyval)
    (fields : list string) (r : record) : res xml :=
  match xml_record fm current_library fields r with
  | Ok record => Ok record
  | Raise e =>
      t ← getitem r "title";
      Raise (FailedToConvert (Py.str t) e)
  end.

(** Lines 174-247: the whole tree. *)
Definition xml_tree (fm : gmap string FieldMeta) (current_library : pyval)
    (catalog_title : pyval) (fields : list string) (data : list record)
    : res xml :=
  root ← (if Py.truthy catalog_title
          then E "calibredb" None [("title", catalog_title)]
          else E "calibredb" None []);
  records ← for_each (xml_record_try fm current_library fields) data;
  Ok (append_all root records).

(** *** [run]

    [current_library], [catalog_title], [fields] and [data] are what lines
    64-100 take from the collaborators ([current_library_name],
    [search_sort_db], [get_output_fields], the options), as are the flag
    and the mapping of the connected device. *)

(** Lines 103-104, for one entry: the mapping is a dict from id to dict,
    here a partial function. *)
Definition set_ondevice (mapping : pyval -> option record) (entry : record)
    : res record :=
  i ← getitem entry "id";
  m ← match mapping i with
      | Some m => Ok m
      | None => Raise (KeyError (Py.str i))
      end;
  v ← getitem m "ondevice";
  Ok (<["ondevice" := v]> entry).

(** Lines 101-104: with a device connected and [ondevice] among the
    fields, each entry of [data] gets the [ondevice] value that
    [db.catalog_plugin_on_device_temp_mapping] holds for its id. *)
Definition add_ondevice (is_device_connected : bool)
    (mapping : pyval -> option record) (fields : list string)
    (data : list record) : res (list record) :=
  if is_device_connected && field_in "ondevice" fields
  then for_each (set_ondevice mapping) data
  else Ok data.

(** Lines 106-251: the writers.  The files are a map from path to file.
    The CSV file is opened before the loop and closed after it (line
    169): when the loop raises, the file object is left as it is, not
    closed.  The XML file is opened, written and closed once the tree is
    built. *)
Definition write_catalog (path_to_output : string)
    (current_library catalog_title : pyval)
    (fields : list string) (data : list record) (files : gmap string file)
    : gmap string file * outcome :=
  let fmt := Str.rpartition_2 "."%char path_to_output in
  let fm := fm_of X fields in
  if bool_decide (fmt = "csv") then
    match write_csv X fm current_library fields data with
    | (outfile, Returned) => (<[path_to_output := Closed outfile]> files, Returned)
    | (outfile, Raised e) => (<[path_to_output := LeftOpen outfile]> files, Raised e)
    end
  else if bool_decide (fmt = "xml") then
    match xml_tree fm current_library catalog_title fields data with
    | Ok root => (<[path_to_output := Closed (tostring X root)]> files, Returned)
    | Raise e => (files, Raised e)
    end
  else (files, Returned).

(** [run] from line 101 on: the device column, then the writers. *)
Definition run (path_to_output : string) (current_library catalog_title : pyval)
    (fields : list string) (is_device_connected : bool)
    (mapping : pyval -> option record) (data : list record)
    (files : gmap string file) : gmap string file * outcome :=
  match add_ondevice is_device_connected mapping fields data with
  | Ok data' =>
      write_catalog path_to_output current_library catalog_title fields data' files
  | Raise e => (files, Raised e)
  end.

End XmlWriter.

(** ** Reading a CSV row back

    The inverse parse of the round-trip property, in the words of the
    specification: split the row on unescaped commas (those outside
    double quotes), strip the outer quotes of each cell, undouble the
    quotes.  It is no part of the program; the properties of the CSV
    writer are stated with it. *)

Module CsvParse.

(** [x] put in front of the first of [pieces]. *)
Definition prepend (x : string) (pieces : list string) : list string :=
  match pieces with
  | p :: ps => (x +:+ p) :: ps
  | [] => [x]
  end.

(** The pieces of [s] between the occurrences of [sep] that stand outside
    double quotes; [inq] tells whether the scan is inside quotes. *)
Fixpoint split_unquoted (sep : ascii) (inq : bool) (s : string) : list string :=
  match s with
  | EmptyString => [EmptyString]
  | String c s' =>
      if Str.ascii_eqb c sep && negb inq then EmptyString :: split_unquoted sep inq s'
      else
        prepend (String c EmptyString)
          (split_unquoted sep (if Str.ascii_eqb c Str.DQ then negb inq else inq) s')
  end.

(** [s] without its last character, which must be a double quote. *)
Fixpoint strip_last_quote (s : string) : option string :=
  match s with
  | EmptyString => None
  | String c s' =>
      match s' with
      | EmptyString => if Str.ascii_eqb c Str.DQ then Some EmptyString else None
      | String _ _ => String c <$> strip_last_quote s'
      end
  end.

Definition strip_outer_quotes (cell : string) : option string :=
  match cell with
  | String c s' => if Str.ascii_eqb c Str.DQ then strip_last_quote s' else None
  | EmptyString => None
  end.

Definition undouble (s : string) : string :=
  Str.replace (Str.dq +:+ Str.dq) Str.dq s.

Definition parse_cell (cell : string) : option string :=
  undouble <$> strip_outer_quotes cell.

(** The values of the cells of a row; the empty row has no cell. *)
Definition parse_row (row : string) : option (list string) :=
  if bool_decide (row = "") then Some []
  else mapM parse_cell (split_unquoted ","%char false row).

(** The lines of a text in which every line ends with a newline; a newline
    inside double quotes does not end a line. *)
Definition unquoted_lines (body : string) : option (list string) :=
  match reverse (split_unquoted Str.LF false body) with
  | EmptyString :: l => Some (reverse l)
  | _ => None
  end.

Definition parse_csv (body : string) : option (list (list string)) :=
  unquoted_lines body ≫= mapM parse_row.

(** [s] with each double quote in it written twice. *)
Fixpoint double_quotes (s : string) : string :=
  match s with
  | EmptyString => EmptyString
  | String c s' =>
      if Str.ascii_eqb c Str.DQ
      then String Str.DQ (String Str.DQ (double_quotes s'))
      else String c (double_quotes s')
  end.

(** The line of a row whose cells hold [values], without its newline, and
    the text of several rows, each ended by a newline. *)
Definition row_text (values : list string) : string :=
  Str.join "," (csv_quote <$> values).

Definition body_text (rows : list (list string)) : string :=
  fold_right (fun values rest => row_text values +:+ Str.lf +:+ rest) "" rows.

End CsvParse.

(** ** A sample library

    An environment and a few records on which the statements below are
    run. *)

Module Sample.

(** calibre's [authors_to_string]: the names that are not empty, with
    [&] doubled, joined by [ & ]. *)
Definition authors_string (v : pyval) : res string :=
  match v with
  | PNone => Ok ""
  | _ =>
      l ← Py.iter v;
      Ok (Str.join " & "
            (Str.replace "&" "&&" <$> filter (fun a => a ≠ "") l))
  end.

(** A datetime is carried as a [PObj] whose text is its ISO form. *)
Definition iso_text (v : pyval) : res string :=
  match v with
  | PObj text => Ok text
  | _ => Raise AttributeError
  end.

(** A stand-in for [html2text]: the text with everything between ['<'] and
    ['>'] removed. *)
Fixpoint strip_tags (intag : bool) (s : string) : string :=
  match s with
  | EmptyString => EmptyString
  | String c s' =>
      if Str.ascii_eqb c "<"%char then strip_tags true s'
      else if Str.ascii_eqb c ">"%char then strip_tags false s'
      else if intag then strip_tags intag s'
      else String c (strip_tags intag s')
  end.

Definition custom_columns : gmap (Z * string) pyval :=
  list_to_map
    [ ((1, "#genre"), PTuple ["Fantasy"; "Epic"]);
      ((1, "#coauthors"), PList ["Ann Lee"; "Bo Chen"]);
      ((1, "#note"), PNone);
      ((2, "#genre"), PStr "Essay");
      ((2, "#coauthors"), PList []);
      ((2, "#note"), PStr "") ].

Definition column_value (i : pyval) (field : string) : res pyval :=
  match i with
  | PInt n => Ok (default PNone (custom_columns !! (n, field)))
  | _ => Raise TypeError
  end.

Definition metadata : gmap string FieldMeta :=
  list_to_map
    [ ("rating", {| datatype := Some "rating"; is_names := false |});
      ("timestamp", {| datatype := Some "datetime"; is_names := false |});
      ("pubdate", {| datatype := Some "datetime"; is_names := false |});
      ("title", {| datatype := Some "text"; is_names := false |});
      ("#genre", {| datatype := Some "text"; is_names := false |});
      ("#coauthors", {| datatype := Some "text"; is_names := true |}) ].

(** No control character below the space, except tab, newline and
    return. *)
Fixpoint text_ok (s : string) : bool :=
  match s with
  | EmptyString => true
  | String c s' =>
      ((32 <=? Str.code c) || (Str.code c =? 9) || (Str.code c =? 10)
       || (Str.code c =? 13)) && text_ok s'
  end.

Definition tag_ok (s : string) : bool :=
  negb (bool_decide (s = "")) && Str.all_word s.

(** A stand-in for [etree.tostring]: the tags and texts in document
    order. *)
Fixpoint to_text (e : xml) : string :=
  match e with
  | Element t _ x cs =>
      "<" +:+ t +:+ ">" +:+ default "" x
      +:+ fold_right (fun c acc => to_text c +:+ acc) "" cs
      +:+ "</" +:+ t +:+ ">"
  end.

(** A corner of the Unicode database, each character as its two UTF-8
    bytes: the letters of the Latin-1 supplement, U+00C0 to U+00FF without
    the two signs U+00D7 and U+00F7, with their lower case (U+00C0 to
    U+00DE go to the character 32 places on), and the Arabic-Indic
    digits, U+0660 to U+0669.  Letters and digits are word characters. *)
Definition latin1_letter (c : string) : bool :=
  match c with
  | String a (String b "") =>
      (Str.code a =? 195) && (128 <=? Str.code b) && (Str.code b <? 192)
      && negb (Str.code b =? 151) && negb (Str.code b =? 183)
  | _ => false
  end.

Definition arabic_digit (c : string) : bool :=
  match c with
  | String a (String b "") =>
      (Str.code a =? 217) && (160 <=? Str.code b) && (Str.code b <=? 169)
  | _ => false
  end.

Definition latin1_lower (s : string) : string :=
  Str.concat
    ((fun c =>
        match c with
        | String a (String b "") =>
            if (Str.code a =? 195) && (128 <=? Str.code b) && (Str.code b <? 159)
               && negb (Str.code b =? 151)
            then String a (String (ascii_of_nat (nat_of_ascii b + 32)) "")
            else c
        | _ => Str.ascii_lower c
        end) <$> Str.chars s).

Definition env : Env := {|
  os_sep := "\";
  authors_to_string := authors_string;
  isoformat := iso_text;
  html2text := fun s => Ok (strip_tags false s);
  get_field := column_value;
  field_metadata := metadata;
  xml_text_ok := text_ok;
  xml_tag_ok := tag_ok;
  tostring := to_text;
  unicode_word := fun c => latin1_letter c || arabic_digit c;
  unicode_digit := arabic_digit;
  unicode_lower := latin1_lower;
|}.

Definition book1 : record :=
  list_to_map
    [ ("id", PInt 1); ("uuid", PStr "u-1");
      ("title", PStr "Dune, part one"); ("sort", PStr "Dune, part one");
      ("authors", PList ["Jane Doe"; "John Roe"]);
      ("author_sort", PStr "Doe, Jane & Roe, John");
      ("rating", PInt 10); ("size", PInt 2048);
      ("publisher", PNone); ("isbn", PStr "ISBN:978-0-13-468599-1X");
      ("tags", PList ["sf"; "classic"]);
      ("comments", PStr "<p>Hello <b>world</b></p>");
      ("series", PStr "Dune"); ("series_index", PObj "1.0");
      ("languages", PStr "eng"); ("cover", PStr "C:\lib\cover.jpg");
      ("formats", PList ["C:\lib\book.EPUB"; "C:\lib\book.mobi"]);
      ("timestamp", PObj "2012-01-02T03:04:05+00:00");
      ("pubdate", PObj "2011-05-06T00:00:00+00:00") ].

Definition book2 : record :=
  list_to_map
    [ ("id", PInt 2); ("uuid", PStr "u-2");
      ("title", PStr "a < b"); ("sort", PStr "a < b");
      ("authors", PList []); ("author_sort", PStr "");
      ("rating", PInt 0); ("size", PNone);
      ("publisher", PStr ""); ("isbn", PNone);
      ("tags", PList []); ("comments", PNone);
      ("series", PNone); ("series_index", PObj "1.0");
      ("languages", PStr ""); ("cover", PNone);
      ("formats", PList []);
      ("timestamp", PObj "2013-01-02T03:04:05+00:00");
      ("pubdate", PObj "2013-05-06T00:00:00+00:00") ].

(** A record whose ISBN is a number: [re.sub] rejects it. *)
Definition book3 : record := <["isbn" := PInt 9780134685991]> book1.

Definition library : pyval := PStr "Calibre Library".

End Sample.

(** ** The parts of an element, and further samples *)

Definition xml_text (e : xml) : option string :=
  match e with Element _ _ x _ => x end.
Definition xml_attrib (e : xml) : list (string * string) :=
  match e with Element _ a _ _ => a end.

(** A device that holds the first sample book only. *)
Definition sample_mapping (i : pyval) : option record :=
  match i with
  | PInt 1 => Some {["ondevice" := PStr "Main"]}
  | PInt 2 => Some {["ondevice" := PNone]}
  | _ => None
  end.

(** The sample library with two more custom columns: [#stars], a rating,
    and [#read], a date. *)
Definition typed_columns_env : Env := {|
  os_sep := os_sep Sample.env;
  authors_to_string := authors_to_string Sample.env;
  isoformat := isoformat Sample.env;
  html2text := html2text Sample.env;
  get_field := fun i field =>
    if bool_decide (field = "#stars") then Ok (PInt 7)
    else if bool_decide (field = "#read") then Ok (PObj "2014-02-03T00:00:00+00:00")
    else get_field Sample.env i field;
  field_metadata :=
    <["#stars" := {| datatype := Some "rating"; is_names := false |}]>
      (<["#read" := {| datatype := Some "datetime"; is_names := false |}]>
         (field_metadata Sample.env));
  xml_text_ok := xml_text_ok Sample.env;
  xml_tag_ok := xml_tag_ok Sample.env;
  tostring := tostring Sample.env;
  unicode_word := unicode_word Sample.env;
  unicode_digit := unicode_digit Sample.env;
  unicode_lower := unicode_lower Sample.env;
|}.

(** The fields of lines 191-203 that no rule of the CSV writer names. *)
Definition plain_scalar_fields : list string :=
  ["id"; "uuid"; "publisher"; "size"; "ondevice"; "identifiers"].

(** A string without an ASCII byte. *)
Definition non_ascii (c : string) : Prop :=
  ∀ x, Str.contains_char x c = true → Str.is_ascii_char x = false.

(** * Properties *)

(** ** Strings *)

Lemma sapp_nil_l (s : string) : "" +:+ s = s.
Proof. reflexivity. Qed.

Lemma sapp_cons (c : ascii) (s t : string) : String c s +:+ t = String c (s +:+ t).
Proof. reflexivity. Qed.

Lemma sapp_nil_r (s : string) : s +:+ "" = s.
Proof. induction s as [|c s IH]; [done|]. by rewrite sapp_cons, IH. Qed.

Lemma sapp_assoc (s t u : string) : (s +:+ t) +:+ u = s +:+ t +:+ u.
Proof. induction s as [|c s IH]; [done|]. by rewrite !sapp_cons, IH. Qed.

Lemma ascii_eqb_eq (a b : ascii) : Str.ascii_eqb a b = true ↔ a = b.
Proof. unfold Str.ascii_eqb. by rewrite bool_decide_eq_true. Qed.

Lemma ascii_eqb_refl (a : ascii) : Str.ascii_eqb a a = true.
Proof. by apply ascii_eqb_eq. Qed.

Lemma ascii_eqb_ne (a b : ascii) : a ≠ b → Str.ascii_eqb a b = false.
Proof. unfold Str.ascii_eqb. by rewrite bool_decide_eq_false. Qed.

Lemma ascii_eqb_sym (a b : ascii) : Str.ascii_eqb a b = Str.ascii_eqb b a.
Proof.
  unfold Str.ascii_eqb. apply bool_decide_ext. split; congruence.
Qed.

(** ** The characters of a string *)

Lemma chars_cons (b : ascii) (s : string) :
  Str.chars (String b s)
  = match Str.chars s with
    | String c0 c :: cs =>
        if negb (Str.is_ascii_char b) && Str.is_continuation c0
        then String b (String c0 c) :: cs
        else String b "" :: String c0 c :: cs
    | cs => String b "" :: cs
    end.
Proof. reflexivity. Qed.

Lemma concat_cons (x : string) (l : list string) :
  Str.concat (x :: l) = x +:+ Str.concat l.
Proof. reflexivity. Qed.

Lemma concat_app (l k : list string) :
  Str.concat (l ++ k) = Str.concat l +:+ Str.concat k.
Proof.
  induction l as [|x l IH]; [done|].
  by rewrite <-app_comm_cons, !concat_cons, IH, sapp_assoc.
Qed.

(** The characters of a string, put together again, are the string. *)
Lemma concat_chars (s : string) : Str.concat (Str.chars s) = s.
Proof.
  induction s as [|b s IH]; [done|]. rewrite chars_cons.
  destruct (Str.chars s) as [|[|c0 c] cs].
  - by rewrite <-IH.
  - by rewrite concat_cons, sapp_cons, sapp_nil_l, IH.
  - destruct (negb (Str.is_ascii_char b) && Str.is_continuation c0).
    + by rewrite <-IH, !concat_cons, !sapp_cons.
    + by rewrite concat_cons, sapp_cons, sapp_nil_l, IH.
Qed.

Lemma continuation_not_ascii (c : ascii) :
  Str.is_continuation c = true → Str.is_ascii_char c = false.
Proof.
  unfold Str.is_continuation, Str.is_ascii_char.
  intros [H _]%andb_true_iff. apply Z.leb_le in H. apply Z.ltb_ge. lia.
Qed.

(** A character is one byte, or several bytes none of which is ASCII. *)
Lemma chars_shape (s : string) :
  Forall (λ c, (∃ a, c = String a "") ∨ non_ascii c) (Str.chars s).
Proof.
  induction s as [|b s IH]; [constructor|]. rewrite chars_cons.
  destruct (Str.chars s) as [|[|c0 c] cs].
  - constructor; [by eauto|done].
  - constructor; [by eauto|done].
  - destruct (negb (Str.is_ascii_char b) && Str.is_continuation c0) eqn:Hj.
    + apply andb_true_iff in Hj as [Hb Hc0]. apply negb_true_iff in Hb.
      apply continuation_not_ascii in Hc0.
      inversion IH as [|? ? Hc Hcs]; subst. constructor; [|done].
      right. intros x. cbn. rewrite !orb_true_iff.
      intros [Hx|[Hx|Hx]].
      * apply ascii_eqb_eq in Hx. by subst.
      * apply ascii_eqb_eq in Hx. by subst.
      * destruct Hc as [[a [= -> ->]]|Hc]; [done|].
        apply Hc. cbn. by rewrite Hx, orb_true_r.
    + constructor; [by eauto|done].
Qed.

(** A character of one byte is a byte of the string. *)
Lemma chars_byte (s : string) (a : ascii) :
  String a "" ∈ Str.chars s → Str.contains_char a s = true.
Proof.
  induction s as [|b s IH]; [by intros ?%elem_of_nil|]. rewrite chars_cons. cbn.
  destruct (Str.chars s) as [|[|c0 c] cs].
  - intros [= ->]%list_elem_of_singleton. by rewrite ascii_eqb_refl.
  - intros [[= ->]|H]%elem_of_cons; [by rewrite ascii_eqb_refl|].
    by rewrite IH, orb_true_r.
  - destruct (negb (Str.is_ascii_char b) && Str.is_continuation c0).
    + intros [[=]|H]%elem_of_cons. rewrite IH, orb_true_r; [done|].
      by apply elem_of_cons; right.
    + intros [[= ->]|H]%elem_of_cons; [by rewrite ascii_eqb_refl|].
      by rewrite IH, orb_true_r.
Qed.

(** The characters of an ASCII string are its bytes. *)
Lemma chars_ascii (s : string) :
  Str.is_ascii s = true →
  Forall (λ c, ∃ a, c = String a "" ∧ Str.is_ascii_char a = true) (Str.chars s).
Proof.
  induction s as [|b s IH]; [constructor|]. cbn [Str.is_ascii].
  intros [Hb Hs]%andb_true_iff. specialize (IH Hs). rewrite chars_cons.
  destruct (Str.chars s) as [|[|c0 c] cs].
  - constructor; [by eauto|done].
  - constructor; [by eauto|done].
  - rewrite Hb. cbn [negb andb]. constructor; [by eauto|done].
Qed.

(** ** The quoting of a cell and its inverse *)

Lemma replace_dq_double (s : string) :
  Str.replace Str.dq (Str.dq +:+ Str.dq) s = CsvParse.double_quotes s.
Proof.
  unfold Str.replace. induction s as [|c s IH]; [done|].
  cbn [Str.replace_from CsvParse.double_quotes Str.startswith Str.dq].
  destruct (Str.ascii_eqb c Str.DQ) eqn:Hc.
  - apply ascii_eqb_eq in Hc as ->. rewrite ascii_eqb_refl. cbn.
    unfold Str.dq at 1 2. by rewrite !sapp_cons, !sapp_nil_l, IH.
  - rewrite (ascii_eqb_sym Str.DQ c), Hc. cbn. by rewrite IH.
Qed.

Lemma csv_quote_double (s : string) :
  csv_quote s = Str.dq +:+ CsvParse.double_quotes s +:+ Str.dq.
Proof. unfold csv_quote. by rewrite replace_dq_double. Qed.

Lemma undouble_double (s : string) :
  CsvParse.undouble (CsvParse.double_quotes s) = s.
Proof.
  unfold CsvParse.undouble, Str.replace.
  change (Str.dq +:+ Str.dq) with (String Str.DQ (String Str.DQ "")).
  induction s as [|c s IH]; [done|].
  cbn [CsvParse.double_quotes].
  destruct (Str.ascii_eqb c Str.DQ) eqn:Hc.
  - apply ascii_eqb_eq in Hc as ->.
    cbn [Str.replace_from Str.startswith]. rewrite !ascii_eqb_refl.
    cbn [andb String.length Nat.sub Str.replace_from].
    by rewrite IH.
  - cbn [Str.replace_from Str.startswith].
    rewrite (ascii_eqb_sym Str.DQ c), Hc. cbn [andb]. by rewrite IH.
Qed.

Lemma strip_last_quote_app (s : string) :
  CsvParse.strip_last_quote (s +:+ Str.dq) = Some s.
Proof.
  induction s as [|c s IH]; [done|].
  rewrite sapp_cons. cbn [CsvParse.strip_last_quote].
  destruct (s +:+ Str.dq) eqn:Hs.
  - destruct s; discriminate.
  - by rewrite IH.
Qed.

Lemma parse_cell_quote (s : string) : CsvParse.parse_cell (csv_quote s) = Some s.
Proof.
  unfold CsvParse.parse_cell. rewrite csv_quote_double.
  unfold Str.dq at 1. rewrite sapp_cons, sapp_nil_l.
  cbn [CsvParse.strip_outer_quotes]. rewrite ascii_eqb_refl.
  rewrite strip_last_quote_app. cbn. by rewrite undouble_double.
Qed.

(** ** Splitting rows and lines outside quotes *)

Section Split.
Import CsvParse.

Lemma prepend_prepend (a b : string) (l : list string) :
  prepend a (prepend b l) = prepend (a +:+ b) l.
Proof. destruct l; cbn; by rewrite ?sapp_assoc. Qed.

Lemma split_unquoted_cons (sep : ascii) (inq : bool) (s : string) :
  ∃ p ps, split_unquoted sep inq s = p :: ps.
Proof.
  revert inq. induction s as [|c s IH]; intros inq; cbn; [by eauto|].
  destruct (Str.ascii_eqb c sep && negb inq); [by eauto|].
  destruct (IH (if Str.ascii_eqb c Str.DQ then negb inq else inq)) as (p & ps & ->).
  cbn. eauto.
Qed.

Lemma prepend_nil_split (sep : ascii) (inq : bool) (s : string) :
  prepend "" (split_unquoted sep inq s) = split_unquoted sep inq s.
Proof. by destruct (split_unquoted_cons sep inq s) as (p & ps & ->). Qed.

Lemma split_char (sep c : ascii) (inq : bool) (s : string) :
  Str.ascii_eqb c sep && negb inq = false →
  split_unquoted sep inq (String c s) =
  prepend (String c "")
    (split_unquoted sep (if Str.ascii_eqb c Str.DQ then negb inq else inq) s).
Proof. intros H. cbn [split_unquoted]. by rewrite H. Qed.

Lemma split_double (sep : ascii) (s t : string) :
  sep ≠ Str.DQ →
  split_unquoted sep true (double_quotes s +:+ t) =
  prepend (double_quotes s) (split_unquoted sep true t).
Proof.
  intros Hsep. induction s as [|c s IH].
  - cbn [double_quotes]. by rewrite sapp_nil_l, prepend_nil_split.
  - cbn [double_quotes]. destruct (Str.ascii_eqb c Str.DQ) eqn:Hc.
    + rewrite !sapp_cons.
      rewrite split_char by (by rewrite andb_false_r).
      rewrite ascii_eqb_refl. cbn [negb].
      rewrite split_char by (by rewrite ascii_eqb_ne).
      rewrite ascii_eqb_refl. cbn [negb].
      by rewrite IH, !prepend_prepend.
    + rewrite sapp_cons.
      rewrite split_char by (by rewrite andb_false_r).
      by rewrite Hc, IH, prepend_prepend.
Qed.

Lemma split_quote (sep : ascii) (s t : string) :
  sep ≠ Str.DQ →
  split_unquoted sep false (csv_quote s +:+ t) =
  prepend (csv_quote s) (split_unquoted sep false t).
Proof.
  intros Hsep. rewrite csv_quote_double.
  unfold Str.dq. rewrite !sapp_cons, !sapp_nil_l, !sapp_assoc.
  rewrite split_char by (by rewrite ascii_eqb_ne).
  rewrite ascii_eqb_refl. cbn [negb].
  rewrite split_double by done.
  rewrite sapp_cons, sapp_nil_l.
  rewrite split_char by (by rewrite andb_false_r).
  rewrite ascii_eqb_refl. cbn [negb].
  by rewrite !prepend_prepend.
Qed.

Lemma split_row_text (sep : ascii) (values : list string) (t : string) :
  sep ≠ Str.DQ → sep ≠ ","%char →
  split_unquoted sep false (row_text values +:+ t) =
  prepend (row_text values) (split_unquoted sep false t).
Proof.
  intros Hdq Hcomma. unfold row_text.
  induction values as [|v [|v' values] IH].
  - cbn. by rewrite sapp_nil_l, prepend_nil_split.
  - cbn. by apply split_quote.
  - change (Str.join "," (csv_quote <$> v :: v' :: values))
      with (csv_quote v +:+ "," +:+ Str.join "," (csv_quote <$> v' :: values)).
    rewrite !sapp_assoc, split_quote by done.
    change ("," +:+ ?x) with (String ","%char x).
    rewrite split_char by (by rewrite ascii_eqb_ne).
    rewrite (ascii_eqb_ne ","%char Str.DQ) by done.
    rewrite IH, !prepend_prepend, !sapp_assoc. reflexivity.
Qed.

Lemma split_commas_row_text (values : list string) :
  values ≠ [] →
  split_unquoted ","%char false (row_text values) = csv_quote <$> values.
Proof.
  unfold row_text. induction values as [|v [|v' values] IH]; intros Hne; [done| |].
  - cbn [fmap list_fmap Str.join].
    rewrite <-(sapp_nil_r (csv_quote v)) at 1.
    rewrite split_quote by done. cbn. by rewrite sapp_nil_r.
  - change (Str.join "," (csv_quote <$> v :: v' :: values))
      with (csv_quote v +:+ "," +:+ Str.join "," (csv_quote <$> v' :: values)).
    rewrite split_quote by done.
    change ("," +:+ ?x) with (String ","%char x).
    cbn [split_unquoted]. rewrite ascii_eqb_refl. cbn [andb negb].
    rewrite IH by done. cbn. by rewrite sapp_nil_r.
Qed.

Lemma row_text_nonempty (values : list string) :
  values ≠ [] → row_text values ≠ "".
Proof.
  unfold row_text. destruct values as [|v [|v' values]]; [done| |]; intros _.
  - cbn. by rewrite csv_quote_double.
  - change (Str.join "," (csv_quote <$> v :: v' :: values))
      with (csv_quote v +:+ "," +:+ Str.join "," (csv_quote <$> v' :: values)).
    by rewrite csv_quote_double.
Qed.

Lemma parse_row_text (values : list string) :
  parse_row (row_text values) = Some values.
Proof.
  unfold parse_row. destruct (decide (values = [])) as [->|Hne]; [done|].
  rewrite bool_decide_eq_false_2 by by apply row_text_nonempty.
  rewrite split_commas_row_text by done.
  apply mapM_Some. apply Forall2_fmap_l, Forall_Forall2_diag, Forall_forall.
  intros v _. apply parse_cell_quote.
Qed.

Lemma body_text_cons (r : list string) (rows : list (list string)) :
  body_text (r :: rows) = row_text r +:+ Str.lf +:+ body_text rows.
Proof. reflexivity. Qed.

Lemma split_lines_body_text (rows : list (list string)) :
  split_unquoted Str.LF false (body_text rows) = (row_text <$> rows) ++ [""].
Proof.
  induction rows as [|r rows IH]; [done|].
  rewrite body_text_cons, split_row_text by done.
  change (Str.lf +:+ body_text rows) with (String Str.LF (body_text rows)).
  cbn [split_unquoted]. rewrite ascii_eqb_refl. cbn [andb negb prepend].
  by rewrite IH, sapp_nil_r.
Qed.

Lemma parse_csv_body_text (rows : list (list string)) :
  parse_csv (body_text rows) = Some rows.
Proof.
  unfold parse_csv, unquoted_lines.
  rewrite split_lines_body_text, reverse_snoc, reverse_involutive. cbn.
  apply mapM_Some, Forall2_fmap_l, Forall_Forall2_diag, Forall_forall.
  intros r _. apply parse_row_text.
Qed.

End Split.

(** ** Results *)

Lemma bind_Ok {A B : Type} (m : res A) (f : A → res B) (b : B) :
  m ≫= f = Ok b ↔ ∃ a, m = Ok a ∧ f a = Ok b.
Proof.
  destruct m as [a|e]; cbn; split.
  - eauto.
  - by intros (a' & [= ->] & ?).
  - done.
  - by intros (a' & ? & ?).
Qed.

Lemma fmap_Ok {A B : Type} (m : res A) (f : A → B) (b : B) :
  f <$> m = Ok b ↔ ∃ a, m = Ok a ∧ b = f a.
Proof.
  destruct m as [a|e]; cbn; split.
  - intros [= <-]. eauto.
  - by intros (a' & [= ->] & ->).
  - done.
  - by intros (a' & ? & ?).
Qed.

(** Take apart a hypothesis that says a sequence of calls returned. *)
Ltac ok_inv H :=
  repeat match type of H with
  | _ ≫= _ = Ok _ =>
      let a := fresh "a" in let Ha := fresh "H" a in
      apply bind_Ok in H as (a & Ha & H)
  | _ <$> _ = Ok _ =>
      let a := fresh "a" in let Ha := fresh "H" a in
      apply fmap_Ok in H as (a & Ha & H)
  | Ok _ = Ok _ => injection H as H
  | Raise _ = Ok _ => discriminate H
  end.

Lemma for_each_Ok {A B : Type} (f : A → res B) (l : list A) (ys : list B) :
  for_each f l = Ok ys ↔ Forall2 (λ x y, f x = Ok y) l ys.
Proof.
  revert ys. induction l as [|x l IH]; intros ys; cbn.
  - split; [intros [= <-]; constructor | by inversion 1].
  - split.
    + intros H. ok_inv H. subst. constructor; [done|]. by apply IH.
    + inversion 1 as [|? y ? ys' Hy Hys]; subst.
      rewrite Hy. cbn. apply IH in Hys. by rewrite Hys.
Qed.

Lemma for_each_length {A B : Type} (f : A → res B) (l : list A) (ys : list B) :
  for_each f l = Ok ys → length ys = length l.
Proof. intros H%for_each_Ok. symmetry. by eapply Forall2_length. Qed.

Lemma for_each_Raise {A B : Type} (f : A → res B) (l : list A) :
  (∃ x e, x ∈ l ∧ f x = Raise e) → ∃ e, for_each f l = Raise e.
Proof.
  intros (x & e & Hx & Hf). induction l as [|y l IH]; [by apply elem_of_nil in Hx|].
  cbn. destruct (f y) as [b|e'] eqn:Hy; [|by eauto]. cbn.
  apply elem_of_cons in Hx as [->|Hx]; [congruence|].
  destruct (IH Hx) as [e'' ->]. cbn. eauto.
Qed.

(** ** The CSV writer: rows and cells *)

Section CsvFacts.
Context (X : Env).
Implicit Types (fm : gmap string FieldMeta) (entry : record).

Lemma csv_quote_empty : csv_quote "" = Str.dq +:+ Str.dq.
Proof. reflexivity. Qed.

(** Every cell is a quoted value. *)
Lemma csv_cell_quoted fm lib entry field cell :
  csv_cell X fm lib entry field = Ok cell → ∃ value, cell = csv_quote value.
Proof.
  unfold csv_cell. intros H. ok_inv H.
  destruct a; ok_inv H; subst; eauto using csv_quote_empty.
Qed.

Lemma csv_row_quoted fm lib fields entry outstr :
  csv_row X fm lib fields entry = Ok outstr →
  ∃ values, outstr = csv_quote <$> values ∧ length values = length fields.
Proof.
  unfold csv_row. revert outstr.
  induction fields as [|field fields IH]; intros outstr H; cbn in H.
  - injection H as <-. by exists [].
  - ok_inv H. subst.
    destruct (csv_cell_quoted _ _ _ _ _ Ha) as [v ->].
    destruct (IH _ Ha0) as (vs & -> & Hlen).
    exists (v :: vs). cbn. by rewrite Hlen.
Qed.

(** What the loop has written when it stops: the rows of the records it
    went through, all of them when it returns, fewer when it raises. *)
Lemma csv_entries_written fm lib fields data outfile out o :
  csv_entries X fm lib fields data outfile = (out, o) →
  ∃ rows,
    out = outfile +:+ CsvParse.body_text rows
    ∧ Forall2 (λ entry values,
                 csv_row X fm lib fields entry = Ok (csv_quote <$> values))
              (take (length rows) data) rows
    ∧ (o = Returned → length rows = length data)
    ∧ (∀ e, o = Raised e → (length rows < length data)%nat).
Proof.
  revert outfile. induction data as [|entry data IH]; intros outfile H;
    cbn [csv_entries] in H.
  - injection H as <- <-. exists []. split; [by rewrite sapp_nil_r|].
    split; [constructor|]. split; [done|]. by intros e.
  - destruct (csv_row X fm lib fields entry) as [outstr|e] eqn:Hrow.
    + destruct (csv_row_quoted _ _ _ _ _ Hrow) as (values & -> & _).
      destruct (IH _ H) as (rows & -> & Hrows & Hret & Hraise).
      exists (values :: rows). split.
      { rewrite body_text_cons. unfold CsvParse.row_text.
        by rewrite !sapp_assoc. }
      split; [by constructor|]. split.
      * intros Ho. cbn. by rewrite Hret.
      * intros e Ho. specialize (Hraise e Ho). cbn. lia.
    + injection H as <- <-. exists []. split; [by rewrite sapp_nil_r|].
      split; [constructor|]. split; [done|]. intros e' _. cbn. lia.
Qed.

End CsvFacts.

(** C5.  For every string [s], the cell the CSV writer makes of it is [s]
    between two double quotes with each double quote of [s] written twice,
    and the inverse parse (split the row on the commas outside quotes,
    strip the outer quotes, undouble the quotes) gives [s] back: for the
    cell alone, for a row of one cell and for a row of any cells.  Every
    cell the writer emits is such a quoted value. *)
Theorem csv_quote_roundtrip (s : string) (values : list string) :
  csv_quote s = Str.dq +:+ CsvParse.double_quotes s +:+ Str.dq
  ∧ CsvParse.parse_cell (csv_quote s) = Some s
  ∧ CsvParse.parse_row (csv_quote s) = Some [s]
  ∧ CsvParse.parse_row (Str.join "," (csv_quote <$> values)) = Some values
  ∧ ∀ (X : Env) fm lib (entry : record) field cell,
      csv_cell X fm lib entry field = Ok cell →
      ∃ value, cell = csv_quote value ∧ CsvParse.parse_cell cell = Some value.
Proof.
  split; [apply csv_quote_double|].
  split; [apply parse_cell_quote|].
  split; [apply (parse_row_text [s])|].
  split; [apply parse_row_text|].
  intros X fm lib entry field cell H.
  destruct (csv_cell_quoted _ _ _ _ _ _ H) as [value ->].
  exists value. split; [done|apply parse_cell_quote].
Qed.

(** *** Counting the newlines of the output *)

Lemma count_app (c : ascii) (s t : string) :
  Str.count c (s +:+ t) = (Str.count c s + Str.count c t)%nat.
Proof.
  induction s as [|a s IH]; [done|].
  rewrite sapp_cons. cbn [Str.count]. rewrite IH. lia.
Qed.

Lemma count_absent (c : ascii) (s : string) :
  Str.contains_char c s = false → Str.count c s = O.
Proof.
  induction s as [|a s IH]; [done|]. cbn.
  intros [-> Hs]%orb_false_iff. by rewrite IH.
Qed.

(** Doubling the quotes adds no newline. *)
Lemma count_double_quotes (c : ascii) (s : string) :
  c ≠ Str.DQ → Str.count c (CsvParse.double_quotes s) = Str.count c s.
Proof.
  intros Hc. induction s as [|a s IH]; [done|]. cbn [CsvParse.double_quotes].
  destruct (Str.ascii_eqb a Str.DQ) eqn:Ha; cbn [Str.count]; rewrite IH; [|done].
  apply ascii_eqb_eq in Ha as ->.
  rewrite (ascii_eqb_ne Str.DQ c) by congruence. lia.
Qed.

Lemma count_csv_quote (v : string) :
  Str.count Str.LF (csv_quote v) = Str.count Str.LF v.
Proof.
  rewrite csv_quote_double, !count_app, count_double_quotes by done.
  change (Str.count Str.LF Str.dq) with O. lia.
Qed.

Lemma count_join_comma (l : list string) :
  Str.count Str.LF (Str.join "," l) = sum_list (Str.count Str.LF <$> l).
Proof.
  induction l as [|x l IH]; [done|].
  destruct l as [|y l]; [cbn; lia|].
  change (Str.join "," (x :: y :: l)) with (x +:+ "," +:+ Str.join "," (y :: l)).
  rewrite !count_app, IH. change (Str.count Str.LF ",") with O. cbn. lia.
Qed.

Lemma count_row_text (values : list string) :
  Str.count Str.LF (CsvParse.row_text values)
  = sum_list (Str.count Str.LF <$> values).
Proof.
  unfold CsvParse.row_text. rewrite count_join_comma. f_equal.
  rewrite <-list_fmap_compose. apply list_fmap_ext.
  intros _ v _. apply count_csv_quote.
Qed.

Lemma count_body_text (rows : list (list string)) :
  Str.count Str.LF (CsvParse.body_text rows)
  = (length rows
     + sum_list ((λ values, sum_list (Str.count Str.LF <$> values)) <$> rows))%nat.
Proof.
  induction rows as [|values rows IH]; [done|].
  rewrite body_text_cons, !count_app, count_row_text, IH.
  change (Str.count Str.LF Str.lf) with 1%nat. cbn. lia.
Qed.

Lemma sum_list_zero (l : list nat) : Forall (λ n, n = O) l → sum_list l = O.
Proof. induction 1 as [|n l -> _ IH]; [done|]. by cbn. Qed.

(** C4 as stated fails: a newline inside a value is written as it is,
    between the quotes of its cell, so the output of one record can have
    more than two lines that end with a newline.  Here the title holds a
    newline and the output, a header and one row, holds three. *)
Lemma newline_in_value_adds_line :
  let r : record := {["title" := PStr ("a" +:+ Str.lf +:+ "b")]} in
  let out := write_csv Sample.env (fm_of Sample.env ["title"]) Sample.library
               ["title"] [r] in
  out = (Str.BOM +:+ "title" +:+ Str.lf
         +:+ Str.dq +:+ "a" +:+ Str.lf +:+ "b" +:+ Str.dq +:+ Str.lf,
         Returned)
  ∧ Str.count Str.LF out.1 = 3%nat
  ∧ (length [r] + 1 = 2)%nat.
Proof. intros r out. repeat split; vm_compute; reflexivity. Qed.

(** C4, amended.  What the CSV writer has written is the byte-order
    mark, the header (the field names joined by commas) and one row per
    record it went through, each ended by a newline.  Each row is the row
    of its record, [length fields] quoted cells joined by commas, and
    reading the text back outside quotes gives these rows cell for cell,
    whatever commas, quotes or newlines the values hold.  When the writer
    returns there is a row for every record; when a record raises, the
    rows of the records before it.  The newlines of the output are one
    per row and one for the header, and those that the field names and
    the values hold: the output has [length data + 1] lines ended by a
    newline exactly when no name and no value holds one. *)
Theorem csv_lines_and_cells (X : Env) fm lib (fields : list string)
    (data : list record) (out : string) (o : outcome) :
  write_csv X fm lib fields data = (out, o) →
  ∃ (rows : list (list string)) (body : string),
    out = Str.BOM +:+ Str.join "," fields +:+ Str.lf +:+ body
    ∧ body = CsvParse.body_text rows
    ∧ Forall2 (λ entry values,
                 csv_row X fm lib fields entry = Ok (csv_quote <$> values))
              (take (length rows) data) rows
    ∧ Forall (λ values, length values = length fields) rows
    ∧ CsvParse.parse_csv body = Some rows
    ∧ (o = Returned → length rows = length data)
    ∧ (∀ e, o = Raised e → (length rows < length data)%nat)
    ∧ Str.count Str.LF out
      = (length rows + 1
         + Str.count Str.LF (Str.join "," fields)
         + sum_list ((λ values, sum_list (Str.count Str.LF <$> values)) <$> rows))%nat
    ∧ (Str.contains_char Str.LF (Str.join "," fields) = false →
       Forall (Forall (λ v, Str.contains_char Str.LF v = false)) rows →
       Str.count Str.LF out = (length rows + 1)%nat).
Proof.
  unfold write_csv. intros H.
  destruct (csv_entries_written _ _ _ _ _ _ _ _ H)
    as (rows & -> & Hrows & Hret & Hraise).
  exists rows, (CsvParse.body_text rows).
  assert (Str.count Str.LF
            ((Str.BOM +:+ Str.join "," fields +:+ Str.lf) +:+ CsvParse.body_text rows)
          = (length rows + 1 + Str.count Str.LF (Str.join "," fields)
             + sum_list ((λ values, sum_list (Str.count Str.LF <$> values)) <$> rows))%nat)
    as Hcount.
  { rewrite !count_app, count_body_text.
    change (Str.count Str.LF Str.BOM) with O.
    change (Str.count Str.LF Str.lf) with 1%nat. lia. }
  split; [by rewrite !sapp_assoc|]. split; [done|].
  split; [done|]. split; [|split; [apply parse_csv_body_text|]].
  { clear H Hret Hraise Hcount. revert Hrows. generalize (take (length rows) data).
    intros l Hrows.
    induction Hrows as [|entry values l rows Hrow _ IH]; constructor; [|done].
    apply for_each_length in Hrow. by rewrite length_fmap in Hrow. }
  split; [done|]. split; [done|]. split; [done|].
  intros Hfields Hvalues. rewrite Hcount, (count_absent _ _ Hfields).
  rewrite sum_list_zero; [lia|].
  apply Forall_fmap. eapply Forall_impl; [done|].
  intros values Hv. cbn. apply sum_list_zero, Forall_fmap.
  eapply Forall_impl; [done|]. intros v. cbn. apply count_absent.
Qed.

(** The two sample books in five fields: the writer returns, with a
    header and two rows, on three lines. *)
Lemma csv_lines_and_cells_witness :
  let fields := ["title"; "authors"; "publisher"; "comments"; "#genre"] in
  let fm := fm_of Sample.env fields in
  let data := [Sample.book1; Sample.book2] in
  ∃ (rows : list (list string)) (body : string),
    (write_csv Sample.env fm Sample.library fields data).1
    = Str.BOM +:+ Str.join "," fields +:+ Str.lf +:+ body
    ∧ length rows = length data
    ∧ Forall (λ values, length values = length fields) rows
    ∧ CsvParse.parse_csv body = Some rows
    ∧ Str.count Str.LF (write_csv Sample.env fm Sample.library fields data).1
      = 3%nat.
Proof.
  intros fields fm data.
  destruct (csv_lines_and_cells Sample.env fm Sample.library fields data
              (write_csv Sample.env fm Sample.library fields data).1 Returned
              ltac:(vm_compute; reflexivity))
    as (rows & body & Hout & Hbody & Hrows & Hlen & Hparse & Hret & _ & Hcount & _).
  exists rows, body. split; [done|]. split; [by apply Hret|].
  split; [done|]. split; [done|]. by vm_compute.
Defined.

(** ** The extension of a path *)


Lemma rsplit1_None (sep : ascii) (s : string) :
  Str.contains_char sep s = false → Str.rsplit1 sep s = None.
Proof.
  induction s as [|c s IH]; [done|]. cbn.
  intros [Hc Hs]%orb_false_iff. by rewrite IH, Hc.
Qed.

Lemma rsplit1_app (sep : ascii) (h t : string) :
  Str.contains_char sep t = false →
  Str.rsplit1 sep (h +:+ String sep t) = Some (h, t).
Proof.
  intros Ht. induction h as [|c h IH].
  - rewrite sapp_nil_l. cbn. by rewrite rsplit1_None, ascii_eqb_refl.
  - rewrite sapp_cons. cbn. by rewrite IH.
Qed.


Lemma rpartition_2_app (sep : ascii) (h t : string) :
  Str.contains_char sep t = false →
  Str.rpartition_2 sep (h +:+ String sep t) = t.
Proof.
  intros Ht. unfold Str.rpartition_2, Str.rpartition.
  by rewrite rsplit1_app.
Qed.

(** ** [run]: the choice of the writer *)



(** ** [run]: an exception in the XML writer *)

Section XmlFailure.
Context (X : Env).

Lemma xml_record_try_Raise fm lib fields (r : record) e0 :
  xml_record X fm lib fields r = Raise e0 →
  ∃ e, xml_record_try X fm lib fields r = Raise e
       ∧ ∀ t, r !! "title" = Some t → e = FailedToConvert (Py.str t) e0.
Proof.
  intros H. unfold xml_record_try, getitem. rewrite H.
  destruct (r !! "title") as [t|]; cbn.
  - eexists. split; [done|]. by intros ? [= <-].
  - eexists. split; [done|]. by intros ? [=].
Qed.

Lemma xml_tree_Raise fm lib title fields data (r : record) e0 :
  r ∈ data →
  xml_record X fm lib fields r = Raise e0 →
  ∃ e, xml_tree X fm lib title fields data = Raise e.
Proof.
  intros Hr H. unfold xml_tree.
  destruct (if Py.truthy title then _ else _) as [root|e]; cbn; [|by eauto].
  destruct (xml_record_try_Raise _ lib _ _ _ H) as (e & He & _).
  destruct (for_each_Raise (xml_record_try X fm lib fields) data) as [e' ->];
    [by eauto|]. cbn. eauto.
Qed.

Lemma for_each_first_Raise {A B : Type} (f : A → res B) (before after : list A)
    (x : A) (e : exn) :
  Forall (λ b, ∃ y, f b = Ok y) before →
  f x = Raise e →
  for_each f (before ++ x :: after) = Raise e.
Proof.
  intros Hb Hx. induction Hb as [|b before [y Hy] _ IH]; cbn.
  - by rewrite Hx.
  - by rewrite Hy, IH.
Qed.

End XmlFailure.

(** C9.  With an [xml] destination the file is written only once the
    whole tree exists.  If building the element of any record raises,
    [run] raises and every file is as it was before the call; when the
    root was made and the first failing record has a title, the exception
    is the one that names this title and wraps the original one.  When
    the tree is built, the file holds its serialization.  The CSV writer
    differs: on the sample library a failure at the second record leaves
    a file, not closed, to which the header and the first row were
    written.  The records are those that come out of the device step of
    [run]: [data] itself when no device is connected. *)
Theorem xml_failure_writes_nothing (X : Env) (path : string) (lib title : pyval)
    (fields : list string) (connected : bool) (mapping : pyval → option record)
    (data data' : list record) (files : gmap string file)
    (r : record) (e0 : exn) :
  Str.rpartition_2 "."%char path = "xml" →
  add_ondevice connected mapping fields data = Ok data' →
  r ∈ data' →
  xml_record X (fm_of X fields) lib fields r = Raise e0 →
  (∃ e, run X path lib title fields connected mapping data files = (files, Raised e))
  ∧ (∀ before after t,
       data' = before ++ r :: after →
       Forall (λ b, ∃ y, xml_record X (fm_of X fields) lib fields b = Ok y) before →
       r !! "title" = Some t →
       (∃ root, (if Py.truthy title
                 then E X "calibredb" None [("title", title)]
                 else E X "calibredb" None []) = Ok root) →
       run X path lib title fields connected mapping data files
       = (files, Raised (FailedToConvert (Py.str t) e0)))
  ∧ (∀ d d' root,
       add_ondevice connected mapping fields d = Ok d' →
       xml_tree X (fm_of X fields) lib title fields d' = Ok root →
       run X path lib title fields connected mapping d files
       = (<[path := Closed (tostring X root)]> files, Returned))
  ∧ (∃ row1,
       csv_row Sample.env (fm_of Sample.env ["title"; "isbn"]) Sample.library
         ["title"; "isbn"] Sample.book1 = Ok row1
       ∧ run Sample.env "catalog.csv" Sample.library PNone ["title"; "isbn"]
           false sample_mapping [Sample.book1; Sample.book3; Sample.book2] ∅
         = ({["catalog.csv" := LeftOpen (Str.BOM +:+ "title,isbn" +:+ Str.lf
                                         +:+ Str.join "," row1 +:+ Str.lf)]},
            Raised TypeError)).
Proof.
  intros Hfmt Hdev Hr He0.
  assert (∀ d d', add_ondevice connected mapping fields d = Ok d' →
    run X path lib title fields connected mapping d files =
    match xml_tree X (fm_of X fields) lib title fields d' with
    | Ok root => (<[path := Closed (tostring X root)]> files, Returned)
    | Raise e => (files, Raised e)
    end) as Hrun.
  { intros d d' Hd. unfold run, write_catalog. rewrite Hd, Hfmt. done. }
  split; [|split; [|split]].
  - destruct (xml_tree_Raise X _ lib title _ _ _ _ Hr He0) as [e He].
    exists e. by rewrite (Hrun _ _ Hdev), He.
  - intros before after t -> Hbefore Ht [root Hroot].
    rewrite (Hrun _ _ Hdev). unfold xml_tree. rewrite Hroot. cbn.
    destruct (xml_record_try_Raise X _ lib _ _ _ He0) as (e & He & Het).
    rewrite (Het _ Ht) in He.
    erewrite for_each_first_Raise; [done| |done].
    eapply Forall_impl; [done|]. intros b [y Hy]. exists y.
    unfold xml_record_try. by rewrite Hy.
  - intros d d' root Hd Hroot. by rewrite (Hrun _ _ Hd), Hroot.
  - eexists. split; [vm_compute; reflexivity|]. vm_compute. reflexivity.
Qed.

(** A record without a timestamp makes [isoformat] raise: the file that
    was there keeps its content. *)
Lemma xml_failure_writes_nothing_witness :
  let fields := ["title"; "timestamp"] in
  let r := <["timestamp" := PNone]> Sample.book2 in
  let data := [Sample.book1; r] in
  ∃ e, run Sample.env "out/catalog.xml" Sample.library PNone fields
         false sample_mapping data {["out/catalog.xml" := Closed "old"]}
       = ({["out/catalog.xml" := Closed "old"]}, Raised e).
Proof.
  intros fields r data.
  apply (xml_failure_writes_nothing Sample.env "out/catalog.xml" Sample.library
           PNone fields false sample_mapping data data
           {["out/catalog.xml" := Closed "old"]} r AttributeError).
  - vm_compute. reflexivity.
  - done.
  - unfold data. apply elem_of_cons. right. apply elem_of_cons. by left.
  - vm_compute. reflexivity.
Defined.

(** ** The XML writer: the children of a record element *)

Section XmlFacts.
Context (X : Env).
Implicit Types (fm : gmap string FieldMeta) (r : record) (cs : list xml).

Lemma E_tag tag text attrib e : E X tag text attrib = Ok e → xml_tag e = tag.
Proof. unfold E. intros H. ok_inv H. by subst e. Qed.

Lemma E_text_Ok tag v e :
  E X tag (Some v) [] = Ok e ↔
  ∃ s, v = PStr s ∧ xml_text_ok X s = true ∧ e = Element tag [] (Some s) [].
Proof.
  unfold E, xml_str. cbn. split.
  - intros H. destruct v; try done.
    destruct (xml_text_ok X s) eqn:Hs; [|done]. cbn in H.
    injection H as <-. eauto.
  - intros (s & -> & Hs & ->). by rewrite Hs.
Qed.

Lemma E_empty tag : E X tag None [] = Ok (Element tag [] None []).
Proof. reflexivity. Qed.

Lemma replace_marker field :
  Str.startswith field "#" = true →
  Str.startswith (Str.replace "#" "_" field) "_" = true.
Proof. destruct field as [|c field]; [done|]. cbn. by intros ->. Qed.

(** A list of elements, all with a tag that cannot be [name]. *)
Lemma filter_other_tags (name : string) cs (names : list string) :
  tags_of cs ⊆ names → name ∉ names →
  filter (λ c, xml_tag c = name) cs = [].
Proof.
  intros Hsub Hname. induction cs as [|c cs IH]; [done|].
  rewrite filter_cons. destruct (decide (xml_tag c = name)) as [Hc|Hc].
  - exfalso. apply Hname. rewrite <-Hc. apply Hsub. cbn. apply elem_of_cons. by left.
  - apply IH. intros x Hx. apply Hsub. cbn. apply elem_of_cons. by right.
Qed.

Lemma filter_same_tag (name : string) cs :
  tags_of cs ⊆ [name] → filter (λ c, xml_tag c = name) cs = cs.
Proof.
  intros Hsub. induction cs as [|c cs IH]; [done|].
  rewrite filter_cons. destruct (decide (xml_tag c = name)) as [Hc|Hc].
  - f_equal. apply IH. intros x Hx. apply Hsub. cbn. apply elem_of_cons. by right.
  - exfalso. apply Hc. assert (xml_tag c ∈ [name]) as Hin.
    { apply Hsub. cbn. apply elem_of_cons. by left. }
    by apply list_elem_of_singleton in Hin.
Qed.

Lemma at_most_one_tags name cs : at_most_one name cs → tags_of cs ⊆ [name].
Proof.
  intros [->|(e & -> & <-)]; cbn; [|done].
  intros x Hx. by apply elem_of_nil in Hx.
Qed.

Lemma at_most_one_sublist name cs :
  at_most_one name cs → tags_of cs `sublist_of` [name].
Proof.
  intros [->|(e & -> & <-)]; cbn; [apply sublist_nil_l|done].
Qed.

Lemma xml_tag_append_all e cs : xml_tag (append_all e cs) = xml_tag e.
Proof. by destruct e. Qed.

Ltac one_section H :=
  repeat (case_match; try done); ok_inv H; subst;
  try (left; done);
  right; eexists; split; [done|];
  rewrite ?xml_tag_append_all; eauto using E_tag.

Lemma xml_scalar_one fm fields r field cs :
  xml_scalar X fm fields r field = Ok cs → at_most_one field cs.
Proof.
  unfold xml_scalar. intros H.
  destruct (field_in field fields); [|injection H as <-; by left].
  ok_inv H. destruct (negb (Py.truthy a)); [injection H as <-; by left|].
  ok_inv H. subst. right. eauto using E_tag.
Qed.

Lemma xml_title_one fields r cs :
  xml_title X fields r = Ok cs → at_most_one "title" cs.
Proof. unfold xml_title. intros H. one_section H. Qed.

Lemma xml_authors_one fields r cs :
  xml_authors X fields r = Ok cs → at_most_one "authors" cs.
Proof. unfold xml_authors. intros H. one_section H. Qed.

Lemma xml_date_one fields r field cs :
  xml_date X fields r field = Ok cs → at_most_one field cs.
Proof. unfold xml_date. intros H. one_section H. Qed.

Lemma xml_tags_one fields r cs :
  xml_tags X fields r = Ok cs → at_most_one "tags" cs.
Proof.
  unfold xml_tags. intros H.
  destruct (field_in "tags" fields); [|injection H as <-; by left].
  ok_inv H. destruct (Py.truthy a); [|injection H as <-; by left].
  ok_inv H. subst. right. eexists. split; [done|].
  rewrite xml_tag_append_all. eauto using E_tag.
Qed.

Lemma xml_text_field_one fields r field cs :
  xml_text_field X fields r field = Ok cs → at_most_one field cs.
Proof.
  unfold xml_text_field. intros H.
  destruct (field_in field fields); [|injection H as <-; by left].
  ok_inv H. destruct (Py.truthy a); [|injection H as <-; by left].
  ok_inv H. subst. right. eauto using E_tag.
Qed.

Lemma xml_series_one fields r cs :
  xml_series X fields r = Ok cs → at_most_one "series" cs.
Proof.
  unfold xml_series. intros H.
  destruct (field_in "series" fields); [|injection H as <-; by left].
  ok_inv H. destruct (Py.truthy a); [|injection H as <-; by left].
  ok_inv H. subst. right. eauto using E_tag.
Qed.

Lemma xml_cover_one fields r cs :
  xml_cover X fields r = Ok cs → at_most_one "cover" cs.
Proof.
  unfold xml_cover. intros H.
  destruct (field_in "cover" fields); [|injection H as <-; by left].
  ok_inv H. destruct (Py.truthy a); [|injection H as <-; by left].
  ok_inv H. subst. right. eauto using E_tag.
Qed.

Lemma xml_formats_one fields r cs :
  xml_formats X fields r = Ok cs → at_most_one "formats" cs.
Proof.
  unfold xml_formats. intros H.
  destruct (field_in "formats" fields); [|injection H as <-; by left].
  ok_inv H. destruct (Py.truthy a); [|injection H as <-; by left].
  ok_inv H. subst. right. eexists. split; [done|].
  rewrite xml_tag_append_all. eauto using E_tag.
Qed.

Lemma xml_library_name_one lib fields cs :
  xml_library_name X lib fields = Ok cs → at_most_one "library_name" cs.
Proof.
  unfold xml_library_name. intros H.
  destruct (field_in "library_name" fields); [|injection H as <-; by left].
  ok_inv H. subst. right. eauto using E_tag.
Qed.

Lemma xml_custom_Ok fields r cs :
  xml_custom X fields r = Ok cs →
  tags_of cs = Str.replace "#" "_" <$> filter (λ f, Str.startswith f "#" = true) fields
  ∧ Forall (λ c, Str.startswith (xml_tag c) "_" = true) cs.
Proof.
  revert cs. induction fields as [|field fields IH]; intros cs H;
    cbn [xml_custom] in H.
  - by injection H as <-.
  - rewrite filter_cons. destruct (Str.startswith field "#") eqn:Hf.
    + ok_inv H. subst cs. destruct (IH _ Ha2) as [IH1 IH2].
      unfold E_named in Ha1. destruct (xml_tag_ok X _); [|done].
      apply E_tag in Ha1.
      rewrite decide_True by done. unfold tags_of in *.
      rewrite !fmap_cons, IH1, Ha1. split; [done|].
      constructor; [|done]. rewrite Ha1. by apply replace_marker.
    + rewrite decide_False by done. by apply IH.
Qed.

Lemma filter_custom_tags (name : string) cs :
  Str.startswith name "_" = false →
  Forall (λ c, Str.startswith (xml_tag c) "_" = true) cs →
  filter (λ c, xml_tag c = name) cs = [].
Proof.
  intros Hname Hcs. induction Hcs as [|c cs Hc _ IH]; [done|].
  rewrite filter_cons, decide_False; [done|]. intros Heq. congruence.
Qed.

Lemma xml_scalars_Ok fm fields r names cs :
  xml_scalars X fm fields r names = Ok cs →
  tags_of cs `sublist_of` names.
Proof.
  revert cs. induction names as [|field names IH]; intros cs H; cbn in H.
  - by injection H as <-.
  - ok_inv H. subst cs. unfold tags_of. rewrite fmap_app.
    apply (sublist_app _ [field]); [|by apply IH].
    by eapply at_most_one_sublist, xml_scalar_one.
Qed.

(** Among the elements of the scalar fields, those of tag [field] are the
    ones its own turn of the loop appended. *)
Lemma xml_scalars_named fm fields r names field cs :
  NoDup names → field ∈ names →
  xml_scalars X fm fields r names = Ok cs →
  xml_scalar X fm fields r field = Ok (filter (λ c, xml_tag c = field) cs).
Proof.
  revert cs. induction names as [|f names IH]; intros cs Hnd Hin H; cbn in H.
  - by apply elem_of_nil in Hin.
  - apply NoDup_cons in Hnd as [Hf Hnd]. ok_inv H. subst cs.
    rewrite filter_app. apply elem_of_cons in Hin as [->|Hin].
    + rewrite (filter_same_tag f a)
        by (by eapply at_most_one_tags, xml_scalar_one).
      rewrite (filter_other_tags f a0 names); [by rewrite app_nil_r| |done].
      by eapply sublist_subseteq, xml_scalars_Ok.
    + rewrite (filter_other_tags field a [f]).
      * by apply IH.
      * by eapply at_most_one_tags, xml_scalar_one.
      * intros ->%list_elem_of_singleton. done.
Qed.

(** The children of a record element, section by section. *)
Lemma xml_record_Ok fm lib fields r rec :
  xml_record X fm lib fields r = Ok rec →
  ∃ c1 c2 c3 c4 c5 c6 c7 c8 c9 c10 c11 c12 c13,
    rec = Element "record" [] None
            (c1 ++ c2 ++ c3 ++ c4 ++ c5 ++ c6 ++ c7 ++ c8 ++ c9 ++ c10 ++ c11
             ++ c12 ++ c13)
    ∧ xml_custom X fields r = Ok c1
    ∧ xml_scalars X fm fields r scalar_fields = Ok c2
    ∧ xml_title X fields r = Ok c3
    ∧ xml_authors X fields r = Ok c4
    ∧ xml_date X fields r "timestamp" = Ok c5
    ∧ xml_date X fields r "pubdate" = Ok c6
    ∧ xml_tags X fields r = Ok c7
    ∧ xml_text_field X fields r "comments" = Ok c8
    ∧ xml_series X fields r = Ok c9
    ∧ xml_text_field X fields r "languages" = Ok c10
    ∧ xml_cover X fields r = Ok c11
    ∧ xml_formats X fields r = Ok c12
    ∧ xml_library_name X lib fields = Ok c13.
Proof.
  unfold xml_record. intros H. rewrite E_empty in H. cbn [mbind res_bind] in H.
  ok_inv H. subst rec. repeat eexists; eauto.
Qed.

(** The tags each section of a record element can hold. *)
Lemma xml_record_tags fm lib fields r rec :
  xml_record X fm lib fields r = Ok rec →
  ∃ c1 c2 c3 c4 c5 c6 c7 c8 c9 c10 c11 c12 c13,
    xml_children rec
    = c1 ++ c2 ++ c3 ++ c4 ++ c5 ++ c6 ++ c7 ++ c8 ++ c9 ++ c10 ++ c11 ++ c12 ++ c13
    ∧ Forall (λ c, Str.startswith (xml_tag c) "_" = true) c1
    ∧ (xml_scalars X fm fields r scalar_fields = Ok c2
       ∧ tags_of c2 ⊆ scalar_fields)
    ∧ (xml_title X fields r = Ok c3 ∧ tags_of c3 ⊆ ["title"])
    ∧ (xml_authors X fields r = Ok c4 ∧ tags_of c4 ⊆ ["authors"])
    ∧ (xml_date X fields r "timestamp" = Ok c5 ∧ tags_of c5 ⊆ ["timestamp"])
    ∧ (xml_date X fields r "pubdate" = Ok c6 ∧ tags_of c6 ⊆ ["pubdate"])
    ∧ (xml_tags X fields r = Ok c7 ∧ tags_of c7 ⊆ ["tags"])
    ∧ (xml_text_field X fields r "comments" = Ok c8 ∧ tags_of c8 ⊆ ["comments"])
    ∧ (xml_series X fields r = Ok c9 ∧ tags_of c9 ⊆ ["series"])
    ∧ (xml_text_field X fields r "languages" = Ok c10 ∧ tags_of c10 ⊆ ["languages"])
    ∧ (xml_cover X fields r = Ok c11 ∧ tags_of c11 ⊆ ["cover"])
    ∧ (xml_formats X fields r = Ok c12 ∧ tags_of c12 ⊆ ["formats"])
    ∧ (xml_library_name X lib fields = Ok c13 ∧ tags_of c13 ⊆ ["library_name"]).
Proof.
  intros H.
  destruct (xml_record_Ok _ _ _ _ _ H)
    as (c1 & c2 & c3 & c4 & c5 & c6 & c7 & c8 & c9 & c10 & c11 & c12 & c13
        & -> & H1 & H2 & H3 & H4 & H5 & H6 & H7 & H8 & H9 & H10 & H11 & H12 & H13).
  exists c1, c2, c3, c4, c5, c6, c7, c8, c9, c10, c11, c12, c13.
  split; [done|]. split; [by eapply xml_custom_Ok|].
  split; [split; [done|by eapply sublist_subseteq, xml_scalars_Ok]|].
  repeat split; try done; apply at_most_one_tags;
    eauto using xml_title_one, xml_authors_one, xml_date_one, xml_tags_one,
      xml_text_field_one, xml_series_one, xml_cover_one, xml_formats_one,
      xml_library_name_one.
Qed.

End XmlFacts.

(** A tag is not in a list of tags that does not hold it. *)
Ltac tag_not_in := apply (bool_decide_unpack _); vm_compute; exact I.

(** Keep, in a filter over the sections of a record, the one section that
    can hold the tag. *)
Ltac pick_section :=
  repeat match goal with
  | H : Forall (λ e, Str.startswith (xml_tag e) "_" = true) ?cs
    |- context [filter _ ?cs] =>
      rewrite (filter_custom_tags _ cs) by done
  | H : tags_of ?cs ⊆ ?names |- context [filter (λ e, xml_tag e = ?name) ?cs] =>
      first [ rewrite (filter_other_tags name cs names) by (done || tag_not_in)
            | rewrite (filter_same_tag name cs) by done ];
      clear H
  end;
  rewrite ?app_nil_l, ?app_nil_r.

Section XmlNamed.
Context (X : Env).
Implicit Types (fm : gmap string FieldMeta) (r : record).

Ltac by_sections H :=
  destruct (xml_record_tags X _ _ _ _ _ H)
    as (c1 & c2 & c3 & c4 & c5 & c6 & c7 & c8 & c9 & c10 & c11 & c12 & c13
        & Hc & H1 & [H2 T2] & [H3 T3] & [H4 T4] & [H5 T5] & [H6 T6] & [H7 T7]
        & [H8 T8] & [H9 T9] & [H10 T10] & [H11 T11] & [H12 T12] & [H13 T13]);
  unfold children_named; rewrite Hc, !filter_app.

Lemma record_formats_named fm lib fields r rec :
  xml_record X fm lib fields r = Ok rec →
  xml_formats X fields r = Ok (children_named "formats" rec).
Proof. intros H. by_sections H. by pick_section. Qed.

Lemma record_tags_named fm lib fields r rec :
  xml_record X fm lib fields r = Ok rec →
  xml_tags X fields r = Ok (children_named "tags" rec).
Proof. intros H. by_sections H. by pick_section. Qed.

Lemma record_comments_named fm lib fields r rec :
  xml_record X fm lib fields r = Ok rec →
  xml_text_field X fields r "comments" = Ok (children_named "comments" rec).
Proof. intros H. by_sections H. by pick_section. Qed.

Lemma record_languages_named fm lib fields r rec :
  xml_record X fm lib fields r = Ok rec →
  xml_text_field X fields r "languages" = Ok (children_named "languages" rec).
Proof. intros H. by_sections H. by pick_section. Qed.

Lemma record_series_named fm lib fields r rec :
  xml_record X fm lib fields r = Ok rec →
  xml_series X fields r = Ok (children_named "series" rec).
Proof. intros H. by_sections H. by pick_section. Qed.

Lemma record_cover_named fm lib fields r rec :
  xml_record X fm lib fields r = Ok rec →
  xml_cover X fields r = Ok (children_named "cover" rec).
Proof. intros H. by_sections H. by pick_section. Qed.

Lemma record_scalar_named fm lib fields r rec field :
  field ∈ scalar_fields →
  xml_record X fm lib fields r = Ok rec →
  xml_scalar X fm fields r field = Ok (children_named field rec).
Proof.
  intros Hin H. by_sections H.
  assert (Str.startswith field "_" = false) as Hu.
  { unfold scalar_fields in Hin. set_unfold in Hin.
    destruct Hin as [->|[->|[->|[->|[->|[->|[->|[->|[]]]]]]]]]; done. }
  rewrite (filter_custom_tags field c1) by done.
  assert (xml_scalar X fm fields r field
          = Ok (filter (λ c, xml_tag c = field) c2)) as ->.
  { eapply xml_scalars_named; [|done..]. tag_not_in. }
  clear T2 H1.
  unfold scalar_fields in Hin. set_unfold in Hin.
  destruct Hin as [->|[->|[->|[->|[->|[->|[->|[->|[]]]]]]]]];
    pick_section; done.
Qed.

End XmlNamed.

(** ** Ratings *)

Section Rating.
Context (X : Env).
Implicit Types (fm : gmap string FieldMeta) (r : record).

Lemma csv_cell_rating fm lib r v :
  datatype (fm_get fm "rating") = Some "rating" →
  r !! "rating" = Some v →
  csv_cell X fm lib r "rating" =
    match v with
    | PNone => Ok (Str.dq +:+ Str.dq)
    | _ =>
        item ← (if Py.truthy v then PStr <$> Py.format_half_2g v else Ok v);
        item ← csv_html X item;
        Ok (csv_quote (Py.str item))
    end.
Proof.
  intros Hdt Hr. unfold csv_cell, csv_item, getitem. cbn. rewrite Hr. cbn.
  unfold csv_normalize. rewrite Hdt. cbn. by destruct v.
Qed.

Lemma xml_scalar_rating fm fields r v :
  datatype (fm_get fm "rating") = Some "rating" →
  r !! "rating" = Some v →
  "rating" ∈ fields →
  xml_scalar X fm fields r "rating" =
    if Py.truthy v then
      val ← (if Py.is_str v then Ok v
             else PStr <$> (Py.str <$> (PStr <$> Py.format_half_2g v)));
      item ← E X "rating" (Some val) [];
      Ok [item]
    else Ok [].
Proof.
  intros Hdt Hr Hin. unfold xml_scalar, field_in, getitem.
  rewrite bool_decide_eq_true_2 by done. rewrite Hr, Hdt. cbn.
  destruct (Py.truthy v) eqn:Hv; [|done]. cbn.
  destruct (Py.is_str v); [done|]. cbn.
  by destruct (Py.format_half_2g v).
Qed.

(** A rating from 1 to 10, halved, without trailing zeros. *)
Lemma format_half_2g_stars (n : Z) :
  1 ≤ n ≤ 10 →
  Py.format_half_2g (PInt n)
  = Ok (if Z.even n then pretty (n / 2) else pretty (n / 2) +:+ ".5").
Proof.
  intros Hn.
  assert (n = 1 ∨ n = 2 ∨ n = 3 ∨ n = 4 ∨ n = 5 ∨ n = 6 ∨ n = 7 ∨ n = 8
          ∨ n = 9 ∨ n = 10) as Hcases by lia.
  repeat (destruct Hcases as [->|Hcases]; [by vm_compute|]). subst. by vm_compute.
Qed.

Lemma is_html_stars (n : Z) :
  1 ≤ n ≤ 10 →
  is_html X (if Z.even n then pretty (n / 2) else pretty (n / 2) +:+ ".5") = false.
Proof.
  intros Hn.
  assert (n = 1 ∨ n = 2 ∨ n = 3 ∨ n = 4 ∨ n = 5 ∨ n = 6 ∨ n = 7 ∨ n = 8
          ∨ n = 9 ∨ n = 10) as Hcases by lia.
  repeat (destruct Hcases as [->|Hcases]; [by vm_compute|]). subst. by vm_compute.
Qed.

End Rating.

(** C1 as stated fails on the sample library: the rating 10 of the first
    book is written ["5"], not ["5.0"], by both writers, and the rating 0
    of the second book gives the CSV cell ["0"], not the empty cell. *)
Lemma rating_ten_is_five :
  let fm := fm_of Sample.env ["rating"] in
  Sample.book1 !! "rating" = Some (PInt 10)
  ∧ csv_cell Sample.env fm Sample.library Sample.book1 "rating"
    = Ok (Str.dq +:+ "5" +:+ Str.dq)
  ∧ csv_cell Sample.env fm Sample.library Sample.book1 "rating"
    ≠ Ok (Str.dq +:+ "5.0" +:+ Str.dq)
  ∧ xml_scalar Sample.env fm ["rating"] Sample.book1 "rating"
    = Ok [Element "rating" [] (Some "5") []]
  ∧ Sample.book2 !! "rating" = Some (PInt 0)
  ∧ csv_cell Sample.env fm Sample.library Sample.book2 "rating"
    = Ok (Str.dq +:+ "0" +:+ Str.dq)
  ∧ csv_cell Sample.env fm Sample.library Sample.book2 "rating"
    ≠ Ok (Str.dq +:+ Str.dq).
Proof. vm_compute. repeat split; done. Qed.

(** C1, amended.  Where the metadata gives [rating] the datatype
    [rating]: a rating [n] from 1 to 10 is written as [n / 2] without
    trailing zeros, so 10 is written ["5"], in the CSV cell and in the
    text of the XML [rating] element; the rating [None] gives the empty
    CSV cell and no XML element; the rating 0 gives no XML element and
    the CSV cell ["0"]. *)
Theorem rating_rescale (X : Env) fm lib (fields : list string) (r : record)
    (v : pyval) :
  datatype (fm_get fm "rating") = Some "rating" →
  r !! "rating" = Some v →
  (∀ n, 1 ≤ n ≤ 10 → v = PInt n →
     let text := if Z.even n then pretty (n / 2) else pretty (n / 2) +:+ ".5" in
     csv_cell X fm lib r "rating" = Ok (Str.dq +:+ text +:+ Str.dq)
     ∧ ∀ rec, "rating" ∈ fields → xml_record X fm lib fields r = Ok rec →
         children_named "rating" rec = [Element "rating" [] (Some text) []])
  ∧ (v = PInt 10 →
     csv_cell X fm lib r "rating" = Ok (Str.dq +:+ "5" +:+ Str.dq)
     ∧ ∀ rec, "rating" ∈ fields → xml_record X fm lib fields r = Ok rec →
         children_named "rating" rec = [Element "rating" [] (Some "5") []])
  ∧ (v = PNone →
     csv_cell X fm lib r "rating" = Ok (Str.dq +:+ Str.dq)
     ∧ ∀ rec, xml_record X fm lib fields r = Ok rec →
         children_named "rating" rec = [])
  ∧ (v = PInt 0 →
     csv_cell X fm lib r "rating" = Ok (Str.dq +:+ "0" +:+ Str.dq)
     ∧ ∀ rec, xml_record X fm lib fields r = Ok rec →
         children_named "rating" rec = []).
Proof.
  intros Hdt Hr.
  assert (∀ n, 1 ≤ n ≤ 10 → v = PInt n →
     let text := if Z.even n then pretty (n / 2) else pretty (n / 2) +:+ ".5" in
     csv_cell X fm lib r "rating" = Ok (Str.dq +:+ text +:+ Str.dq)
     ∧ ∀ rec, "rating" ∈ fields → xml_record X fm lib fields r = Ok rec →
         children_named "rating" rec = [Element "rating" [] (Some text) []])
    as Hstars.
  { intros n Hn -> text. split.
    - rewrite (csv_cell_rating X fm lib r (PInt n)) by done.
      assert (n = 1 ∨ n = 2 ∨ n = 3 ∨ n = 4 ∨ n = 5 ∨ n = 6 ∨ n = 7 ∨ n = 8
              ∨ n = 9 ∨ n = 10) as Hcases by lia.
      subst text.
      repeat (destruct Hcases as [->|Hcases]; [by vm_compute|]).
      subst. by vm_compute.
    - intros rec Hin Hrec.
      pose proof (record_scalar_named X fm lib fields r rec "rating") as Hnamed.
      rewrite (xml_scalar_rating X fm fields r (PInt n)) in Hnamed by done.
      assert (Py.truthy (PInt n) = true) as Ht.
      { cbn. apply negb_true_iff, Z.eqb_neq. lia. }
      rewrite Ht in Hnamed. cbn [Py.is_str] in Hnamed.
      rewrite format_half_2g_stars in Hnamed by done. cbn in Hnamed.
      fold text in Hnamed.
      specialize (Hnamed ltac:(tag_not_in || (apply (bool_decide_unpack _); by vm_compute)) Hrec).
      ok_inv Hnamed. destruct (xml_text_ok X text); [|done].
      cbn in Ha. injection Ha as <-. by rewrite <-Hnamed. }
  split; [done|]. split; [|split].
  - intros ->. by apply (Hstars 10).
  - intros ->. split.
    + by rewrite (csv_cell_rating X fm lib r PNone).
    + intros rec Hrec.
      pose proof (record_scalar_named X fm lib fields r rec "rating"
                    ltac:(apply (bool_decide_unpack _); by vm_compute) Hrec) as Hnamed.
      unfold xml_scalar, getitem in Hnamed. rewrite Hr in Hnamed.
      destruct (field_in "rating" fields); cbn in Hnamed; by injection Hnamed as <-.
  - intros ->. split.
    + rewrite (csv_cell_rating X fm lib r (PInt 0)) by done. by vm_compute.
    + intros rec Hrec.
      pose proof (record_scalar_named X fm lib fields r rec "rating"
                    ltac:(apply (bool_decide_unpack _); by vm_compute) Hrec) as Hnamed.
      unfold xml_scalar, getitem in Hnamed. rewrite Hr in Hnamed.
      destruct (field_in "rating" fields); cbn in Hnamed; by injection Hnamed as <-.
Qed.

(** The first sample book, whose rating is 10. *)
Lemma rating_rescale_witness :
  let fm := fm_of Sample.env ["title"; "rating"] in
  csv_cell Sample.env fm Sample.library Sample.book1 "rating"
  = Ok (Str.dq +:+ "5" +:+ Str.dq)
  ∧ ∀ rec, "rating" ∈ ["title"; "rating"] →
      xml_record Sample.env fm Sample.library ["title"; "rating"] Sample.book1 = Ok rec →
      children_named "rating" rec = [Element "rating" [] (Some "5") []].
Proof.
  intros fm.
  refine (proj1 (proj2 (rating_rescale Sample.env fm Sample.library
                          ["title"; "rating"] Sample.book1 (PInt 10) _ _)) eq_refl);
    vm_compute; reflexivity.
Defined.

(** ** Values that are absent or falsy *)

Section Falsy.
Context (X : Env).
Implicit Types (fm : gmap string FieldMeta) (r : record).

Lemma for_each_lookup {A B : Type} (f : A → res B) (l : list A) (ys : list B)
    (i : nat) (x : A) :
  for_each f l = Ok ys → l !! i = Some x →
  ∃ y, ys !! i = Some y ∧ f x = Ok y.
Proof.
  intros H%for_each_Ok Hx.
  destruct (Forall2_lookup_l _ _ _ _ _ H Hx) as (y & Hy & Hf). eauto.
Qed.

Lemma csv_cell_None fm lib r field :
  csv_item X fm lib r field = Ok PNone →
  csv_cell X fm lib r field = Ok (Str.dq +:+ Str.dq).
Proof. intros H. unfold csv_cell. by rewrite H. Qed.

Lemma xml_scalar_falsy fm fields r field v :
  r !! field = Some v → Py.truthy v = false →
  xml_scalar X fm fields r field = Ok [].
Proof.
  intros Hr Hv. unfold xml_scalar, getitem. rewrite Hr. cbn. rewrite Hv.
  by destruct (field_in field fields).
Qed.

Lemma xml_tags_falsy fields r v :
  r !! "tags" = Some v → Py.truthy v = false → xml_tags X fields r = Ok [].
Proof.
  intros Hr Hv. unfold xml_tags, getitem. rewrite Hr. cbn. rewrite Hv.
  by destruct (field_in "tags" fields).
Qed.

Lemma xml_text_field_falsy fields r field v :
  r !! field = Some v → Py.truthy v = false →
  xml_text_field X fields r field = Ok [].
Proof.
  intros Hr Hv. unfold xml_text_field, getitem. rewrite Hr. cbn. rewrite Hv.
  by destruct (field_in field fields).
Qed.

Lemma xml_series_falsy fields r v :
  r !! "series" = Some v → Py.truthy v = false → xml_series X fields r = Ok [].
Proof.
  intros Hr Hv. unfold xml_series, getitem. rewrite Hr. cbn. rewrite Hv.
  by destruct (field_in "series" fields).
Qed.

Lemma xml_cover_falsy fields r v :
  r !! "cover" = Some v → Py.truthy v = false → xml_cover X fields r = Ok [].
Proof.
  intros Hr Hv. unfold xml_cover, getitem. rewrite Hr. cbn. rewrite Hv.
  by destruct (field_in "cover" fields).
Qed.

Lemma xml_formats_falsy fields r v :
  r !! "formats" = Some v → Py.truthy v = false → xml_formats X fields r = Ok [].
Proof.
  intros Hr Hv. unfold xml_formats, getitem. rewrite Hr. cbn. rewrite Hv.
  by destruct (field_in "formats" fields).
Qed.

Lemma truthy_only_cases field :
  field ∈ truthy_only →
  field ∈ scalar_fields ∨ field = "tags" ∨ field = "comments" ∨ field = "series"
  ∨ field = "languages" ∨ field = "cover" ∨ field = "formats".
Proof.
  unfold truthy_only. rewrite elem_of_app. intros [H|H]; [by left|right].
  rewrite !elem_of_cons, elem_of_nil in H.
  destruct H as [?|[?|[?|[?|[?|[?|[]]]]]]]; auto 10.
Qed.

Lemma record_falsy_absent fm lib fields r rec field v :
  field ∈ truthy_only →
  r !! field = Some v → Py.truthy v = false →
  xml_record X fm lib fields r = Ok rec →
  children_named field rec = [].
Proof.
  intros Hin Hr Hv Hrec.
  destruct (truthy_only_cases _ Hin) as [Hs|[->|[->|[->|[->|[->| ->]]]]]].
  - pose proof (record_scalar_named X _ _ _ _ _ _ Hs Hrec) as H.
    rewrite (xml_scalar_falsy _ _ _ _ _ Hr Hv) in H. by injection H as <-.
  - pose proof (record_tags_named X _ _ _ _ _ Hrec) as H.
    rewrite (xml_tags_falsy _ _ _ Hr Hv) in H. by injection H as <-.
  - pose proof (record_comments_named X _ _ _ _ _ Hrec) as H.
    rewrite (xml_text_field_falsy _ _ _ _ Hr Hv) in H. by injection H as <-.
  - pose proof (record_series_named X _ _ _ _ _ Hrec) as H.
    rewrite (xml_series_falsy _ _ _ Hr Hv) in H. by injection H as <-.
  - pose proof (record_languages_named X _ _ _ _ _ Hrec) as H.
    rewrite (xml_text_field_falsy _ _ _ _ Hr Hv) in H. by injection H as <-.
  - pose proof (record_cover_named X _ _ _ _ _ Hrec) as H.
    rewrite (xml_cover_falsy _ _ _ Hr Hv) in H. by injection H as <-.
  - pose proof (record_formats_named X _ _ _ _ _ Hrec) as H.
    rewrite (xml_formats_falsy _ _ _ Hr Hv) in H. by injection H as <-.
Qed.

End Falsy.

(** C2 as stated fails on the sample library.  In the XML record of the
    first book the custom field [#note], whose value is [None], has an
    element (with text [None]); in that of the second book the empty
    [#note] has an empty element and the empty list of authors has an
    [authors] element.  In the CSV row of the second book the falsy rating
    0 is the cell ["0"], not the empty cell. *)
Lemma falsy_values_written :
  let fields := ["#note"; "authors"; "rating"] in
  let fm := fm_of Sample.env fields in
  get_field Sample.env (PInt 1) "#note" = Ok PNone
  ∧ (children_named "_note" <$> xml_record Sample.env fm Sample.library fields Sample.book1)
    = Ok [Element "_note" [] (Some "None") []]
  ∧ get_field Sample.env (PInt 2) "#note" = Ok (PStr "")
  ∧ Sample.book2 !! "authors" = Some (PList [])
  ∧ Sample.book2 !! "rating" = Some (PInt 0)
  ∧ xml_record Sample.env fm Sample.library fields Sample.book2
    = Ok (Element "record" [] None
            [Element "_note" [] (Some "") [];
             Element "authors" [("sort", "")] None []])
  ∧ csv_row Sample.env fm Sample.library fields Sample.book2
    = Ok [Str.dq +:+ Str.dq; Str.dq +:+ Str.dq; Str.dq +:+ "0" +:+ Str.dq].
Proof. vm_compute. repeat split; reflexivity. Qed.

(** C2, amended.  For every field among the scalar fields and [tags],
    [comments], [series], [languages], [cover], [formats] whose value in
    the record is falsy, the record element has no child of that name.
    For every field of the field list whose value is [None] (through the
    accessor for a custom field), the CSV row has the empty quoted cell at
    the position of the field. *)
Theorem falsy_fields (X : Env) fm lib (fields : list string) (r : record) :
  (∀ field v rec,
     field ∈ truthy_only →
     r !! field = Some v → Py.truthy v = false →
     xml_record X fm lib fields r = Ok rec →
     children_named field rec = [])
  ∧ (∀ (i : nat) field outstr,
       fields !! i = Some field →
       csv_item X fm lib r field = Ok PNone →
       csv_row X fm lib fields r = Ok outstr →
       outstr !! i = Some (Str.dq +:+ Str.dq)).
Proof.
  split.
  - intros field v rec. apply record_falsy_absent.
  - intros i field outstr Hi Hitem Hrow. unfold csv_row in Hrow.
    destruct (for_each_lookup _ _ _ _ _ Hrow Hi) as (cell & Hcell & Hf).
    rewrite (csv_cell_None X _ _ _ _ Hitem) in Hf. by injection Hf as <-.
Qed.

(** ** Formats *)

Lemma contains_char_app (c : ascii) (s t : string) :
  Str.contains_char c (s +:+ t) = Str.contains_char c s || Str.contains_char c t.
Proof.
  induction s as [|a s IH]; [done|].
  rewrite sapp_cons. cbn. by rewrite IH, orb_assoc.
Qed.

Lemma contains_char_join (c : ascii) (sep : string) (l : list string) :
  Str.contains_char c sep = false →
  Forall (λ s, Str.contains_char c s = false) l →
  Str.contains_char c (Str.join sep l) = false.
Proof.
  intros Hsep Hl. induction Hl as [|s l Hs Hl IH]; [done|].
  destruct l as [|s' l]; [done|].
  change (Str.join sep (s :: s' :: l)) with (s +:+ sep +:+ Str.join sep (s' :: l)).
  by rewrite !contains_char_app, Hs, Hsep, IH.
Qed.

Lemma opening_tag_None (X : Env) (cs : list string) :
  "<" ∉ cs → opening_tag X cs = None.
Proof.
  induction cs as [|c cs IH]; [done|]. cbn [opening_tag].
  intros [Hc Hcs]%not_elem_of_cons.
  rewrite bool_decide_eq_false_2 by done. by apply IH.
Qed.

Lemma is_html_no_lt (X : Env) (s : string) :
  Str.contains_char "<"%char s = false → is_html X s = false.
Proof.
  intros H. unfold is_html. rewrite opening_tag_None; [done|].
  intros Hin%chars_byte. congruence.
Qed.

Section Formats.
Context (X : Env).
Implicit Types (fm : gmap string FieldMeta) (r : record).

Lemma for_each_E_text (tag : string) (g : string → string) (l : list string)
    (items : list xml) :
  for_each (λ x, E X tag (Some (PStr (g x))) []) l = Ok items →
  items = (λ x, Element tag [] (Some (g x)) []) <$> l.
Proof.
  revert items. induction l as [|x l IH]; intros items H; cbn [for_each] in H.
  - by injection H as <-.
  - ok_inv H. subst items. apply E_text_Ok in Ha as (s & [= <-] & _ & ->).
    cbn. f_equal. by apply IH.
Qed.

Lemma csv_item_direct fm lib r field :
  Str.startswith field "#" = false →
  field ≠ "library_name" → field ≠ "title_sort" →
  csv_item X fm lib r field = getitem r field.
Proof.
  intros Hm Hl Ht. unfold csv_item. rewrite Hm.
  by rewrite !bool_decide_eq_false_2.
Qed.

Lemma csv_cell_formats fm lib r (fs : list string) :
  r !! "formats" = Some (PList fs) →
  csv_cell X fm lib r "formats"
  = (λ v, csv_quote (Py.str v))
      <$> csv_html X
            (PStr (Str.join ", "
                     ((λ f, lower X (Str.rpartition_2 "."%char f)) <$> fs))).
Proof.
  intros Hr. unfold csv_cell.
  rewrite csv_item_direct by (done || by vm_compute).
  unfold getitem. rewrite Hr. cbn [mbind res_bind].
  unfold csv_normalize. rewrite bool_decide_eq_true_2 by done.
  cbn [Py.iter mbind res_bind].
  by destruct (csv_html X _).
Qed.

Lemma xml_formats_list fields r (fs : list string) cs :
  r !! "formats" = Some (PList fs) → fs ≠ [] → "formats" ∈ fields →
  xml_formats X fields r = Ok cs →
  cs = [Element "formats" [] None
          ((λ f, Element "format" [] (Some (Str.replace (os_sep X) "/" f)) []) <$> fs)].
Proof.
  intros Hr Hfs Hin. unfold xml_formats, field_in, getitem.
  rewrite bool_decide_eq_true_2 by done. rewrite Hr. cbn [mbind res_bind].
  assert (Py.truthy (PList fs) = true) as ->.
  { cbn. by rewrite bool_decide_eq_false_2. }
  rewrite E_empty. cbn [mbind res_bind Py.iter]. intros H. ok_inv H. subst cs.
  apply (for_each_E_text "format" (Str.replace (os_sep X) "/")) in Ha as ->.
  done.
Qed.

(** [str.lower] on ASCII: the letters [A] to [Z] go 32 places on, every
    other character stays. *)
Lemma lower_char_code (c : ascii) :
  Str.code (Str.lower_char c)
  = if (65 <=? Str.code c) && (Str.code c <=? 90) then Str.code c + 32
    else Str.code c.
Proof.
  unfold Str.lower_char, Str.is_upper.
  destruct ((65 <=? Str.code c) && (Str.code c <=? 90)) eqn:Hu; [|done].
  apply andb_true_iff in Hu as [_ Hu]. apply Z.leb_le in Hu.
  unfold Str.code in *. rewrite nat_ascii_embedding by lia. lia.
Qed.

Lemma ascii_lower_get (s : string) (i : nat) (c : ascii) :
  String.get i s = Some c →
  String.get i (Str.ascii_lower s) = Some (Str.lower_char c).
Proof.
  revert i. induction s as [|a s IH]; intros i; [done|].
  destruct i as [|i]; cbn.
  - by intros [= ->].
  - apply IH.
Qed.

Lemma ascii_lower_length (s : string) :
  String.length (Str.ascii_lower s) = String.length s.
Proof. induction s as [|a s IH]; [done|]. cbn. by rewrite IH. Qed.

End Formats.

(** C6.  For a record whose [formats] is a non-empty list [fs]: the CSV
    rule turns each entry into the lowercased text after its last dot and
    joins these with a comma and a space; the cell is that text, quoted
    (after the HTML rule, which leaves it alone when no extension holds
    a ['<']).  Lowercasing an ASCII extension keeps its length and moves
    each of its letters [A] to [Z] 32 places on, to [a] to [z], and
    nothing else; an extension with a character outside ASCII is
    lowercased as Unicode says.  The XML record has one [formats]
    element, with one [format] child per entry, in order, whose text is
    the whole path with the separator of the system replaced by a slash:
    the extension is neither cut off nor lowercased. *)
Theorem formats_csv_and_xml (X : Env) fm lib (fields : list string)
    (r : record) (fs : list string) :
  r !! "formats" = Some (PList fs) → fs ≠ [] →
  let exts := (λ f, lower X (Str.rpartition_2 "."%char f)) <$> fs in
  csv_normalize X fm "formats" (PList fs) = Ok (PStr (Str.join ", " exts))
  ∧ csv_cell X fm lib r "formats"
    = (λ v, csv_quote (Py.str v)) <$> csv_html X (PStr (Str.join ", " exts))
  ∧ (Forall (λ e, Str.contains_char "<"%char e = false) exts →
     csv_cell X fm lib r "formats" = Ok (csv_quote (Str.join ", " exts)))
  ∧ (∀ stem ext, Str.contains_char "."%char ext = false →
       lower X (Str.rpartition_2 "."%char (stem +:+ "." +:+ ext)) = lower X ext)
  ∧ (∀ ext, Str.is_ascii ext = true →
       String.length (lower X ext) = String.length ext
       ∧ ∀ i c, String.get i ext = Some c →
           ∃ c', String.get i (lower X ext) = Some c'
                 ∧ Str.code c'
                   = if (65 <=? Str.code c) && (Str.code c <=? 90)
                     then Str.code c + 32 else Str.code c)
  ∧ (∀ ext, Str.is_ascii ext = false → lower X ext = unicode_lower X ext)
  ∧ (∀ rec, "formats" ∈ fields → xml_record X fm lib fields r = Ok rec →
       children_named "formats" rec
       = [Element "formats" [] None
            ((λ f, Element "format" [] (Some (Str.replace (os_sep X) "/" f)) [])
               <$> fs)]).
Proof.
  intros Hr Hfs exts.
  split; [done|]. split; [by apply csv_cell_formats|].
  split; [|split; [|split; [|split]]].
  - intros Hexts. rewrite (csv_cell_formats X fm lib r fs Hr). fold exts.
    unfold csv_html. rewrite is_html_no_lt; [done|].
    by apply contains_char_join.
  - intros stem ext Hext. f_equal. by apply (rpartition_2_app "."%char).
  - intros ext Hext. unfold lower. rewrite Hext.
    split; [apply ascii_lower_length|].
    intros i c Hc. exists (Str.lower_char c).
    split; [by apply ascii_lower_get|apply lower_char_code].
  - intros ext Hext. unfold lower. by rewrite Hext.
  - intros rec Hin Hrec.
    by eapply xml_formats_list, record_formats_named.
Qed.

(** The two formats of the first sample book. *)
Lemma formats_csv_and_xml_witness :
  let fields := ["title"; "formats"] in
  let fm := fm_of Sample.env fields in
  csv_cell Sample.env fm Sample.library Sample.book1 "formats"
  = Ok (csv_quote "epub, mobi")
  ∧ ∀ rec, xml_record Sample.env fm Sample.library fields Sample.book1 = Ok rec →
      children_named "formats" rec
      = [Element "formats" [] None
           [Element "format" [] (Some "C:/lib/book.EPUB") [];
            Element "format" [] (Some "C:/lib/book.mobi") []]].
Proof.
  intros fields fm.
  pose proof (formats_csv_and_xml Sample.env fm Sample.library fields Sample.book1
                ["C:\lib\book.EPUB"; "C:\lib\book.mobi"] eq_refl
                ltac:(discriminate)) as (_ & _ & Hcsv & _ & _ & _ & Hxml).
  split.
  - apply Hcsv. by repeat constructor.
  - intros rec Hrec. apply Hxml; [|done].
    apply (bool_decide_unpack _). by vm_compute.
Defined.

(** ** Custom fields *)

Section Custom.
Context (X : Env).
Implicit Types (fm : gmap string FieldMeta) (r : record).

Lemma csv_item_custom fm lib r field i val :
  Str.startswith field "#" = true →
  r !! "id" = Some i →
  get_field X i field = Ok val →
  csv_item X fm lib r field =
    match val with
    | PList l | PTuple l =>
        Ok (PStr (Str.join (if is_names (fm_get fm field) then " & " else ", ") l))
    | _ => Ok val
    end.
Proof.
  intros Hm Hi Hval. unfold csv_item, getitem. rewrite Hm, Hi. cbn [mbind res_bind].
  rewrite Hval. cbn [mbind res_bind]. by destruct val.
Qed.



Lemma E_named_Ok tag v e :
  E_named X tag v = Ok e → ∃ s, v = PStr s ∧ e = Element tag [] (Some s) [].
Proof.
  unfold E_named. destruct (xml_tag_ok X tag); [|done].
  intros (s & -> & _ & ->)%E_text_Ok. eauto.
Qed.

Lemma xml_custom_element fields r field i val cs :
  Str.startswith field "#" = true →
  r !! "id" = Some i →
  get_field X i field = Ok val →
  field ∈ fields →
  xml_custom X fields r = Ok cs →
  Element (Str.replace "#" "_" field) [] (Some (Py.str val)) [] ∈ cs.
Proof.
  intros Hm Hi Hval Hin. revert cs.
  induction fields as [|f fields IH]; intros cs H; [by apply elem_of_nil in Hin|].
  cbn [xml_custom] in H. destruct (Str.startswith f "#") eqn:Hf.
  - ok_inv H. subst cs. apply elem_of_cons in Hin as [<-|Hin].
    + unfold getitem in Ha. rewrite Hi in Ha. injection Ha as <-.
      rewrite Hval in Ha0. injection Ha0 as <-.
      apply E_named_Ok in Ha1 as (s & Hs & ->).
      apply elem_of_cons. left. destruct val; cbn in Hs; by injection Hs as <-.
    + apply elem_of_cons. right. by apply IH.
  - apply elem_of_cons in Hin as [<-|Hin]; [congruence|]. by apply IH.
Qed.

End Custom.




(** ** The order of the children of a record element *)

Section Order.
Context (X : Env).
Implicit Types (fm : gmap string FieldMeta) (r : record).

Lemma fm_of_lookup (fields : list string) (f : string) :
  fm_of X fields !! f
  = if bool_decide (f ∈ fields)
    then Some (default no_meta (field_metadata X !! f)) else None.
Proof.
  unfold fm_of. induction fields as [|x fields IH]; cbn.
  - by rewrite lookup_empty.
  - destruct (decide (x = f)) as [->|Hne].
    + rewrite lookup_insert_eq. rewrite bool_decide_eq_true_2; [done|].
      apply elem_of_cons. by left.
    + rewrite lookup_insert_ne by done. rewrite IH.
      apply (f_equal (λ b : bool, if b then _ else _)).
      apply bool_decide_ext. rewrite elem_of_cons.
      split; [by right|]. by intros [->|?].
Qed.

Lemma fm_of_same (fields1 fields2 : list string) :
  (∀ x, x ∈ fields1 ↔ x ∈ fields2) → fm_of X fields1 = fm_of X fields2.
Proof.
  intros H. apply map_eq. intros f. rewrite !fm_of_lookup.
  by rewrite (bool_decide_ext _ _ (H f)).
Qed.

Lemma field_in_same (fields1 fields2 : list string) (x : string) :
  (∀ x, x ∈ fields1 ↔ x ∈ fields2) → field_in x fields1 = field_in x fields2.
Proof. intros H. unfold field_in. by apply bool_decide_ext. Qed.

Lemma xml_custom_filter (fields : list string) r :
  xml_custom X fields r
  = xml_custom X (filter (λ f, Str.startswith f "#" = true) fields) r.
Proof.
  induction fields as [|f fields IH]; [done|].
  rewrite filter_cons. cbn [xml_custom].
  destruct (Str.startswith f "#") eqn:Hf.
  - rewrite decide_True by done. cbn [xml_custom]. by rewrite Hf, IH.
  - by rewrite decide_False.
Qed.

Lemma xml_scalars_same fm (fields1 fields2 : list string) r names :
  (∀ x, x ∈ fields1 ↔ x ∈ fields2) →
  xml_scalars X fm fields1 r names = xml_scalars X fm fields2 r names.
Proof.
  intros H. induction names as [|f names IH]; [done|].
  cbn [xml_scalars]. unfold xml_scalar.
  by rewrite (field_in_same fields1 fields2 f H), IH.
Qed.

(** The record element depends on the field list through the names it
    holds and through the order of its custom fields only. *)
Lemma xml_record_same lib (fields1 fields2 : list string) r :
  (∀ x, x ∈ fields1 ↔ x ∈ fields2) →
  filter (λ f, Str.startswith f "#" = true) fields1
  = filter (λ f, Str.startswith f "#" = true) fields2 →
  xml_record X (fm_of X fields1) lib fields1 r
  = xml_record X (fm_of X fields2) lib fields2 r.
Proof.
  intros H Hc. unfold xml_record.
  rewrite (fm_of_same fields1 fields2 H).
  rewrite (xml_custom_filter fields1), (xml_custom_filter fields2), Hc.
  rewrite (xml_scalars_same _ fields1 fields2 _ _ H).
  unfold xml_title, xml_authors, xml_date, xml_tags, xml_text_field, xml_series,
    xml_cover, xml_formats, xml_library_name.
  by rewrite !(field_in_same fields1 fields2 _ H).
Qed.

Lemma tags_of_app (cs1 cs2 : list xml) :
  tags_of (cs1 ++ cs2) = tags_of cs1 ++ tags_of cs2.
Proof. apply fmap_app. Qed.

Lemma xml_record_order fm lib (fields : list string) r rec :
  xml_record X fm lib fields r = Ok rec →
  ∃ fixed,
    tags_of (xml_children rec)
    = (Str.replace "#" "_" <$> filter (λ f, Str.startswith f "#" = true) fields)
      ++ fixed
    ∧ fixed `sublist_of` fixed_order.
Proof.
  intros H.
  destruct (xml_record_Ok X _ _ _ _ _ H)
    as (c1 & c2 & c3 & c4 & c5 & c6 & c7 & c8 & c9 & c10 & c11 & c12 & c13
        & -> & H1 & H2 & H3 & H4 & H5 & H6 & H7 & H8 & H9 & H10 & H11 & H12 & H13).
  exists (tags_of (c2 ++ c3 ++ c4 ++ c5 ++ c6 ++ c7 ++ c8 ++ c9 ++ c10 ++ c11
                   ++ c12 ++ c13)).
  cbn [xml_children]. rewrite tags_of_app.
  destruct (xml_custom_Ok X _ _ _ H1) as [-> _]. split; [done|].
  rewrite !tags_of_app.
  change fixed_order with
    (scalar_fields ++ ["title"] ++ ["authors"] ++ ["timestamp"] ++ ["pubdate"]
     ++ ["tags"] ++ ["comments"] ++ ["series"] ++ ["languages"] ++ ["cover"]
     ++ ["formats"] ++ ["library_name"]).
  repeat (apply sublist_app;
          [first [ by eapply xml_scalars_Ok
                 | apply at_most_one_sublist;
                   eauto using xml_title_one, xml_authors_one, xml_date_one,
                     xml_tags_one, xml_text_field_one, xml_series_one,
                     xml_cover_one, xml_formats_one, xml_library_name_one ]|]).
  apply at_most_one_sublist. eauto using xml_library_name_one.
Qed.

End Order.

(** C8 as stated fails on the sample library: the two orders of the field
    list [#genre], [#note] give record elements whose children stand in
    different orders. *)
Lemma custom_order_follows_field_list :
  let fields1 := ["#genre"; "#note"] in
  let fields2 := ["#note"; "#genre"] in
  fields1 ≡ₚ fields2
  ∧ xml_record Sample.env (fm_of Sample.env fields1) Sample.library fields1 Sample.book1
    = Ok (Element "record" [] None
            [Element "_genre" [] (Some "('Fantasy', 'Epic')") [];
             Element "_note" [] (Some "None") []])
  ∧ xml_record Sample.env (fm_of Sample.env fields2) Sample.library fields2 Sample.book1
    = Ok (Element "record" [] None
            [Element "_note" [] (Some "None") [];
             Element "_genre" [] (Some "('Fantasy', 'Epic')") []])
  ∧ xml_record Sample.env (fm_of Sample.env fields1) Sample.library fields1 Sample.book1
    ≠ xml_record Sample.env (fm_of Sample.env fields2) Sample.library fields2 Sample.book1.
Proof.
  intros fields1 fields2. split; [apply perm_swap|].
  vm_compute. repeat split; done.
Qed.

(** C8, amended.  The children of a record element are the elements of
    the custom fields, in the order these fields have in the field list,
    followed by elements whose tags follow the fixed order of the writer
    (the scalar fields, title, authors, timestamp, pubdate, tags,
    comments, series, languages, cover, formats, library_name).  A
    permutation of the field list that keeps the custom fields in their
    order leaves the record element unchanged. *)
Theorem record_order_fixed (X : Env) lib (fields1 fields2 : list string)
    (r : record) :
  fields1 ≡ₚ fields2 →
  filter (λ f, Str.startswith f "#" = true) fields1
  = filter (λ f, Str.startswith f "#" = true) fields2 →
  xml_record X (fm_of X fields1) lib fields1 r
  = xml_record X (fm_of X fields2) lib fields2 r
  ∧ ∀ rec, xml_record X (fm_of X fields1) lib fields1 r = Ok rec →
      ∃ fixed,
        tags_of (xml_children rec)
        = (Str.replace "#" "_" <$> filter (λ f, Str.startswith f "#" = true) fields1)
          ++ fixed
        ∧ fixed `sublist_of` fixed_order.
Proof.
  intros Hperm Hcustom. split.
  - apply xml_record_same; [|done]. intros x. by rewrite Hperm.
  - intros rec. apply xml_record_order.
Qed.

(** Two orders of five fields with [#genre] before [#note] in both. *)
Lemma record_order_fixed_witness :
  let fields1 := ["title"; "#genre"; "formats"; "#note"; "rating"] in
  let fields2 := ["rating"; "#genre"; "#note"; "formats"; "title"] in
  xml_record Sample.env (fm_of Sample.env fields1) Sample.library fields1 Sample.book1
  = xml_record Sample.env (fm_of Sample.env fields2) Sample.library fields2 Sample.book1.
Proof.
  intros fields1 fields2.
  refine (proj1 (record_order_fixed Sample.env Sample.library fields1 fields2
                   Sample.book1 _ eq_refl)).
  unfold fields1, fields2.
  apply (Permutation_trans (l' := ["rating"; "title"; "#genre"; "formats"; "#note"])).
  - symmetry. apply (Permutation_cons_append ["title"; "#genre"; "formats"; "#note"]).
  - apply perm_skip.
    apply (Permutation_trans (l' := ["#genre"; "formats"; "#note"; "title"])).
    + apply (Permutation_cons_append ["#genre"; "formats"; "#note"]).
    + apply perm_skip. apply (Permutation_app_tail ["title"] (perm_swap _ _ [])).
Defined.

(** ** The HTML rule of the CSV writer *)

Lemma endswith_spec (s p : string) :
  Str.endswith s p = true ↔ ∃ pre, s = pre +:+ p.
Proof.
  induction s as [|c s IH]; cbn.
  - rewrite bool_decide_eq_true. split.
    + intros ->. by exists "".
    + intros (pre & H). destruct pre; [by rewrite sapp_nil_l in H|done].
  - rewrite orb_true_iff, bool_decide_eq_true, IH. split.
    + intros [<-|(pre & ->)]; [by exists ""|]. by exists (String c pre).
    + intros ([|a pre] & H).
      * left. by rewrite sapp_nil_l in H.
      * right. rewrite sapp_cons in H. injection H as _ ->. by exists pre.
Qed.

Section Html.
Context (X : Env).
Implicit Types (c d : string) (cs pre name rest : list string).

Lemma re_word_not_delimiter d : d = " " ∨ d = ">" → re_word X d = false.
Proof. by intros [-> | ->]. Qed.

(** [\w] on a character of ASCII: the letters, the digits and the
    underscore; on any other character, what Unicode says. *)
Lemma re_word_ascii (a : ascii) :
  Str.is_ascii_char a = true →
  re_word X (String a "")
  = ((48 <=? Str.code a) && (Str.code a <=? 57)
     || (65 <=? Str.code a) && (Str.code a <=? 90)
     || (97 <=? Str.code a) && (Str.code a <=? 122)
     || bool_decide (a = "_"%char)).
Proof. intros Ha. unfold re_word. by rewrite Ha. Qed.

Lemma re_word_unicode c :
  (∀ a, c = String a "" → Str.is_ascii_char a = false) →
  re_word X c = unicode_word X c.
Proof.
  intros Hc. unfold re_word. destruct c as [|a [|b c]]; [done| |done].
  by rewrite (Hc a eq_refl).
Qed.

Lemma word_run_spec cs :
  cs = (word_run X cs).1 ++ (word_run X cs).2
  ∧ Forall (λ c, re_word X c = true) (word_run X cs).1.
Proof.
  induction cs as [|c cs [IH1 IH2]]; [done|]. cbn [word_run].
  destruct (re_word X c) eqn:Hc; [|done].
  destruct (word_run X cs) as [w rest]. cbn [fst snd] in *.
  split; [by rewrite <-app_comm_cons, <-IH1|by constructor].
Qed.

Lemma word_run_app name d rest :
  Forall (λ c, re_word X c = true) name → re_word X d = false →
  word_run X (name ++ d :: rest) = (name, d :: rest).
Proof.
  intros Hname Hd. induction Hname as [|c name Hc _ IH].
  - cbn [app word_run]. by rewrite Hd.
  - rewrite <-app_comm_cons. cbn [word_run]. by rewrite Hc, IH.
Qed.

(** What [opening_tag] does at a ['<']. *)
Lemma opening_tag_lt cs :
  opening_tag X ("<" :: cs)
  = match word_run X cs with
    | (a :: w, d :: _) =>
        if bool_decide (d = " ") || bool_decide (d = ">")
        then Some (a :: w) else opening_tag X cs
    | _ => opening_tag X cs
    end.
Proof. reflexivity. Qed.

Lemma opening_tag_other c cs :
  c ≠ "<" → opening_tag X (c :: cs) = opening_tag X cs.
Proof. intros Hc. cbn [opening_tag]. by rewrite bool_decide_eq_false_2. Qed.

(** A token at the very start of [cs] is the one [opening_tag] returns. *)
Lemma opening_tag_here cs name :
  token_at X cs [] name → opening_tag X cs = Some name.
Proof.
  intros (d & rest & -> & Hne & Hw & Hd). cbn [app].
  rewrite opening_tag_lt, word_run_app by (done || by apply re_word_not_delimiter).
  destruct name as [|a w]; [done|].
  by destruct Hd as [-> | ->].
Qed.

Lemma token_at_cons c cs pre name :
  token_at X (c :: cs) (c :: pre) name ↔ token_at X cs pre name.
Proof.
  unfold token_at. split; intros (d & rest & H & ?); exists d, rest;
    (split; [|done]).
  - rewrite <-app_comm_cons in H. by injection H.
  - by rewrite <-app_comm_cons, <-H.
Qed.

Lemma token_at_cons_inv c cs pre name :
  token_at X (c :: cs) pre name →
  (pre = [] ∧ c = "<") ∨ ∃ pre', pre = c :: pre' ∧ token_at X cs pre' name.
Proof.
  intros Htok. destruct pre as [|c' pre'].
  - left. split; [done|]. destruct Htok as (d & rest & H & _).
    cbn [app] in H. by injection H.
  - right. exists pre'.
    assert (c' = c) as ->.
    { destruct Htok as (d & rest & H & _). rewrite <-app_comm_cons in H.
      by injection H. }
    split; [done|]. by apply token_at_cons in Htok.
Qed.

Lemma token_at_empty pre name : ¬ token_at X [] pre name.
Proof. intros (d & rest & H & _). by destruct pre. Qed.

(** Where no token starts at the first character, [opening_tag] goes on
    with the rest. *)
Lemma opening_tag_skip c cs :
  (∀ name, ¬ token_at X (c :: cs) [] name) →
  opening_tag X (c :: cs) = opening_tag X cs.
Proof.
  intros Hno. destruct (decide (c = "<")) as [->|Hc];
    [|by apply opening_tag_other].
  rewrite opening_tag_lt.
  pose proof (word_run_spec cs) as [Hs Hw].
  destruct (word_run X cs) as [[|a w] [|d rest]]; try done.
  destruct (bool_decide (d = " ") || bool_decide (d = ">")) eqn:Hd; [|done].
  exfalso. apply (Hno (a :: w)). exists d, rest. cbn [fst snd] in Hs, Hw.
  split; [by rewrite Hs|]. split; [done|]. split; [done|].
  apply orb_true_iff in Hd as [Hd|Hd]; apply bool_decide_eq_true in Hd; auto.
Qed.

Lemma token_here_word_run cs name :
  token_at X ("<" :: cs) [] name →
  ∃ d rest, word_run X cs = (name, d :: rest)
            ∧ name ≠ [] ∧ (d = " " ∨ d = ">").
Proof.
  intros (d & rest & H & Hne & Hw & Hd). cbn [app] in H. injection H as ->.
  exists d, rest. split; [|done].
  apply word_run_app; [done|]. by apply re_word_not_delimiter.
Qed.

(** Whether a token starts at the first character can be told. *)
Lemma token_here_dec cs :
  (∃ name, token_at X cs [] name) ∨ (∀ name, ¬ token_at X cs [] name).
Proof.
  destruct cs as [|c cs]; [right; intros name; apply token_at_empty|].
  destruct (decide (c = "<")) as [->|Hc].
  2: { right. intros name Htok.
       apply token_at_cons_inv in Htok as [[_ ?]|(? & ? & _)]; done. }
  pose proof (word_run_spec cs) as [Hs Hw].
  destruct (word_run X cs) as [w rest] eqn:Hrun. cbn [fst snd] in Hs, Hw.
  destruct w as [|a w].
  { right. intros name (d & r & Hr & Hne & _)%token_here_word_run. congruence. }
  destruct rest as [|d rest].
  { right. intros name (d & r & Hr & _)%token_here_word_run. congruence. }
  destruct (bool_decide (d = " ") || bool_decide (d = ">")) eqn:Hd.
  - left. exists (a :: w), d, rest.
    split; [by rewrite Hs|]. split; [done|]. split; [done|].
    apply orb_true_iff in Hd as [Hd|Hd]; apply bool_decide_eq_true in Hd; auto.
  - right. intros name (d' & r & Hr & _ & Hd')%token_here_word_run.
    assert (d' = d) as -> by congruence.
    by destruct Hd' as [-> | ->].
Qed.

(** [opening_tag] returns the name of the leftmost token. *)
Lemma opening_tag_leftmost cs name :
  opening_tag X cs = Some name ↔ leftmost_token X cs name.
Proof.
  revert name. induction cs as [|c cs IH]; intros name.
  { split; [done|]. intros (pre & Htok & _). by apply token_at_empty in Htok. }
  destruct (token_here_dec (c :: cs)) as [[name0 Hhere]|Hno].
  - rewrite (opening_tag_here _ _ Hhere). split.
    + intros [= <-]. exists []. split; [done|]. intros pre' name' _. cbn. lia.
    + intros (pre & Htok & Hmin).
      specialize (Hmin [] name0 Hhere). destruct pre; [|cbn in Hmin; lia].
      by rewrite <-(opening_tag_here _ _ Htok), (opening_tag_here _ _ Hhere).
  - rewrite (opening_tag_skip _ _ Hno), IH. split.
    + intros (pre & Htok & Hmin). exists (c :: pre).
      split; [by apply token_at_cons|].
      intros pre' name' Htok'.
      destruct (token_at_cons_inv _ _ _ _ Htok') as [[-> _]|(p & -> & Htok'')].
      * exfalso. by eapply Hno.
      * specialize (Hmin _ _ Htok''). cbn. lia.
    + intros (pre & Htok & Hmin).
      destruct (token_at_cons_inv _ _ _ _ Htok) as [[-> _]|(p & -> & Htok'')].
      * exfalso. by eapply Hno.
      * exists p. split; [done|]. intros pre' name' Htok'.
        apply (token_at_cons c) in Htok'. specialize (Hmin _ _ Htok').
        cbn in Hmin. lia.
Qed.

End Html.

(** C7 as stated fails.  The text [<b>x</b><p>y</p>] holds the opening
    tag token [<p>] and ends with the closing tag [</p>] of the same name,
    yet the CSV writer does not convert it, since only the first token,
    [<b>], is looked at.  And [<p>x</p>] followed by a newline is
    converted although it does not end with the closing tag.  The same
    with names outside ASCII, whose letters are word characters: a text
    that is one element of such a name is converted, and one that starts
    with such an element and ends with another is not. *)
Lemma later_tag_pair_not_converted :
  let s := "<b>x</b><p>y</p>" in
  let s2 := "<p>x</p>" +:+ Str.lf in
  token_at Sample.env (Str.chars s) (Str.chars "<b>x</b>") ["p"]
  ∧ Str.endswith s "</p>" = true
  ∧ is_html Sample.env s = false
  ∧ csv_html Sample.env (PStr s) = Ok (PStr s)
  ∧ html2text Sample.env s = Ok "xy"
  ∧ is_html Sample.env s2 = true
  ∧ Str.endswith s2 "</p>" = false
  ∧ is_html Sample.env "<é>x</é>" = true
  ∧ is_html Sample.env "<été>a</été><b>c</b>" = false.
Proof.
  intros s s2. split.
  - exists ">", (Str.chars "y</p>"). split; [by vm_compute|].
    split; [done|]. split; [by repeat constructor|by right].
  - by vm_compute.
Qed.

(** C7, amended.  In the CSV writer a string value goes through the
    HTML-to-text converter if and only if the leftmost opening tag token
    among its characters (a ['<'], a word, then a space or ['>']) has a
    closing tag of the same name at the end of the string or just before
    a newline that ends the string; every other value is left as it is,
    the text [a < b] among them, and so is every value that is not a
    string.  A word is made of word characters: of ASCII the letters,
    the digits and the underscore, and outside ASCII the characters that
    Unicode counts as such. *)
Theorem html_rule (X : Env) (s : string) :
  csv_html X (PStr s)
  = (if is_html X s then PStr <$> html2text X s else Ok (PStr s))
  ∧ (is_html X s = true ↔
     ∃ name,
       leftmost_token X (Str.chars s) name
       ∧ ((∃ pre, s = pre +:+ "</" +:+ Str.concat name +:+ ">")
          ∨ (∃ pre, s = pre +:+ "</" +:+ Str.concat name +:+ ">" +:+ Str.lf)))
  ∧ (is_html X s = false → csv_html X (PStr s) = Ok (PStr s))
  ∧ is_html X "a < b" = false
  ∧ (∀ v, Py.is_str v = false → csv_html X v = Ok v)
  ∧ Str.concat (Str.chars s) = s
  ∧ Forall (λ c, (∃ a, c = String a "") ∨ non_ascii c) (Str.chars s)
  ∧ (∀ a, Str.is_ascii_char a = true →
       re_word X (String a "")
       = ((48 <=? Str.code a) && (Str.code a <=? 57)
          || (65 <=? Str.code a) && (Str.code a <=? 90)
          || (97 <=? Str.code a) && (Str.code a <=? 122)
          || bool_decide (a = "_"%char)))
  ∧ (∀ c, (∀ a, c = String a "" → Str.is_ascii_char a = false) →
       re_word X c = unicode_word X c).
Proof.
  split; [done|]. split; [|split; [|split; [|split; [|split; [|split; [|split]]]]]].
  - unfold is_html, closing_tag. split.
    + destruct (opening_tag X (Str.chars s)) as [name|] eqn:Hopen; [|done].
      intros H. exists name. split; [by apply opening_tag_leftmost|].
      apply orb_true_iff in H as [H|H]; apply endswith_spec in H; auto.
    + intros (name & Hleft & Hend).
      apply opening_tag_leftmost in Hleft as ->.
      apply orb_true_iff.
      destruct Hend as [H|H]; apply endswith_spec in H; auto.
  - intros H. cbn. by rewrite H.
  - by vm_compute.
  - intros v Hv. by destruct v.
  - apply concat_chars.
  - apply chars_shape.
  - apply re_word_ascii.
  - apply re_word_unicode.
Qed.

(** * Further properties of the writers *)

(** ** Replacing in a string *)

Lemma replace_char_cons (c a : ascii) (new s : string) :
  Str.replace (String c "") new (String a s)
  = if Str.ascii_eqb c a then new +:+ Str.replace (String c "") new s
    else String a (Str.replace (String c "") new s).
Proof.
  unfold Str.replace. cbn [Str.replace_from Str.startswith].
  by rewrite andb_true_r.
Qed.

(** After [s.replace(c, new)] no [c] is left, when [new] holds none. *)
Lemma replace_char_gone (c : ascii) (new s : string) :
  Str.contains_char c new = false →
  Str.contains_char c (Str.replace (String c "") new s) = false.
Proof.
  intros Hnew. induction s as [|a s IH]; [done|].
  rewrite replace_char_cons. destruct (Str.ascii_eqb c a) eqn:Hc.
  - by rewrite contains_char_app, Hnew, IH.
  - cbn. by rewrite (ascii_eqb_sym a c), Hc, IH.
Qed.

(** [s.replace(c, new)] is [s] when [s] holds no [c]. *)
Lemma replace_char_absent (c : ascii) (new s : string) :
  Str.contains_char c s = false → Str.replace (String c "") new s = s.
Proof.
  induction s as [|a s IH]; [done|]. cbn [Str.contains_char].
  intros [Ha Hs]%orb_false_iff. rewrite replace_char_cons.
  by rewrite (ascii_eqb_sym c a), Ha, IH.
Qed.

(** Replacing a character by itself changes nothing. *)
Lemma replace_char_self (c : ascii) (s : string) :
  Str.replace (String c "") (String c "") s = s.
Proof.
  induction s as [|a s IH]; [done|]. rewrite replace_char_cons, IH.
  destruct (Str.ascii_eqb c a) eqn:Hc; [|done].
  apply ascii_eqb_eq in Hc as ->. by rewrite sapp_cons, sapp_nil_l.
Qed.

Lemma startswith_lf_absent (s : string) :
  Str.contains_char Str.LF s = false → Str.startswith s Str.lf = false.
Proof.
  destruct s as [|a s]; [done|]. cbn.
  intros [Ha _]%orb_false_iff. by rewrite (ascii_eqb_sym Str.LF a), Ha.
Qed.

(** A text without a newline holds no carriage return and newline pair. *)
Lemma replace_crlf_absent (new s : string) :
  Str.contains_char Str.LF s = false → Str.replace Str.crlf new s = s.
Proof.
  unfold Str.replace. induction s as [|a s IH]; [done|]. cbn [Str.contains_char].
  intros [Ha Hs]%orb_false_iff.
  assert (Str.startswith (String a s) Str.crlf = false) as Hst.
  { change (Str.startswith (String a s) Str.crlf)
      with (Str.ascii_eqb Str.CR a && Str.startswith s Str.lf).
    by rewrite (startswith_lf_absent s Hs), andb_false_r. }
  cbn [Str.replace_from]. by rewrite Hst, IH.
Qed.

Lemma filter_all {A : Type} (P : A → Prop) `{!∀ x, Decision (P x)} (l : list A) :
  Forall P l → filter P l = l.
Proof.
  induction 1 as [|x l Hx _ IH]; [done|].
  by rewrite filter_cons, decide_True, IH by done.
Qed.

Lemma contains_char_concat (x : ascii) (l : list string) :
  Forall (λ c, Str.contains_char x c = false) l →
  Str.contains_char x (Str.concat l) = false.
Proof.
  induction 1 as [|c l Hc _ IH]; [done|].
  by rewrite concat_cons, contains_char_app, Hc, IH.
Qed.

(** What the two [replace] calls of the comments rule do, read from the
    left of the text. *)
Lemma flatten_crlf (t : string) :
  Str.replace Str.lf " " (Str.replace Str.crlf " " (Str.crlf +:+ t))
  = " " +:+ Str.replace Str.lf " " (Str.replace Str.crlf " " t).
Proof.
  assert (Str.replace Str.crlf " " (Str.crlf +:+ t)
          = String " "%char (Str.replace Str.crlf " " t)) as -> by reflexivity.
  unfold Str.lf. by rewrite replace_char_cons.
Qed.

Lemma flatten_lf (t : string) :
  Str.replace Str.lf " " (Str.replace Str.crlf " " (Str.lf +:+ t))
  = " " +:+ Str.replace Str.lf " " (Str.replace Str.crlf " " t).
Proof.
  assert (Str.replace Str.crlf " " (Str.lf +:+ t)
          = String Str.LF (Str.replace Str.crlf " " t)) as -> by reflexivity.
  unfold Str.lf. by rewrite replace_char_cons.
Qed.

Lemma flatten_other (c : ascii) (t : string) :
  c ≠ Str.LF → Str.startswith (String c t) Str.crlf = false →
  Str.replace Str.lf " " (Str.replace Str.crlf " " (String c t))
  = String c (Str.replace Str.lf " " (Str.replace Str.crlf " " t)).
Proof.
  intros Hc Hst.
  assert (Str.replace Str.crlf " " (String c t)
          = String c (Str.replace Str.crlf " " t)) as ->.
  { unfold Str.replace. cbn [Str.replace_from]. by rewrite Hst. }
  unfold Str.lf. rewrite replace_char_cons. rewrite ascii_eqb_ne; [done|]. congruence.
Qed.

(** ** ISBN and comments *)

Section IsbnComments.
Context (X : Env).
Implicit Types (fm : gmap string FieldMeta) (r : record).

Lemma csv_cell_item fm lib r field v :
  csv_item X fm lib r field = Ok v → v ≠ PNone →
  csv_cell X fm lib r field
  = item ← csv_normalize X fm field v;
    item ← csv_html X item;
    Ok (csv_quote (Py.str item)).
Proof. intros H Hv. unfold csv_cell. rewrite H. by destruct v. Qed.

Lemma csv_html_plain (s : string) :
  Str.contains_char "<"%char s = false → csv_html X (PStr s) = Ok (PStr s).
Proof. intros H. unfold csv_html. by rewrite is_html_no_lt. Qed.

Lemma xml_scalar_str fm fields r field (s : string) :
  field ∈ fields → r !! field = Some (PStr s) → s ≠ "" →
  xml_scalar X fm fields r field
  = item ← E X field (Some (PStr s)) []; Ok [item].
Proof.
  intros Hin Hr Hs. unfold xml_scalar, field_in, getitem.
  rewrite bool_decide_eq_true_2 by done. rewrite Hr. cbn [mbind res_bind].
  assert (Py.truthy (PStr s) = true) as ->.
  { cbn. by rewrite bool_decide_eq_false_2. }
  done.
Qed.

Lemma csv_normalize_isbn fm (v : pyval) :
  csv_normalize X fm "isbn" v
  = match v with
    | PStr s =>
        Ok (PStr (Str.concat (filter (λ c, isbn_char X c = true) (Str.chars s))))
    | _ => Raise TypeError
    end.
Proof. reflexivity. Qed.

(** [\d] on a character of ASCII: the ten digits; on any other
    character, what Unicode says. *)
Lemma re_digit_ascii (a : ascii) :
  Str.is_ascii_char a = true →
  re_digit X (String a "") = ((48 <=? Str.code a) && (Str.code a <=? 57)).
Proof. intros Ha. unfold re_digit. by rewrite Ha. Qed.

Lemma re_digit_unicode (c : string) :
  (∀ a, c = String a "" → Str.is_ascii_char a = false) →
  re_digit X c = unicode_digit X c.
Proof.
  intros Hc. unfold re_digit. destruct c as [|a [|b c]]; [done| |done].
  by rewrite (Hc a eq_refl).
Qed.

(** The characters the ISBN rule keeps. *)
Lemma isbn_char_spec (c : string) :
  isbn_char X c = true ↔
  c = "X" ∨ c = "-"
  ∨ (∃ a, c = String a "" ∧ 48 ≤ Str.code a ≤ 57)
  ∨ ((∀ a, c = String a "" → Str.is_ascii_char a = false)
     ∧ unicode_digit X c = true).
Proof.
  unfold isbn_char. rewrite !orb_true_iff, !bool_decide_eq_true. split.
  - intros [[Hd | ->] | ->]; [|by auto..].
    destruct c as [|a [|b c]].
    + right; right; right. by split.
    + destruct (Str.is_ascii_char a) eqn:Ha.
      * rewrite re_digit_ascii in Hd by done.
        apply andb_true_iff in Hd as [H1 H2].
        apply Z.leb_le in H1, H2. right; right; left. by exists a.
      * rewrite re_digit_unicode in Hd by (by intros ? [= <-]).
        right; right; right. split; [|done]. by intros ? [= <-].
    + right; right; right. by split.
  - intros [-> | [-> | [(a & -> & Ha) | [Hc Hd]]]]; [by left; right|by right|..].
    + left; left. rewrite re_digit_ascii.
      * apply andb_true_iff. split; apply Z.leb_le; lia.
      * unfold Str.is_ascii_char. apply Z.ltb_lt. lia.
    + left; left. by rewrite re_digit_unicode.
Qed.

(** No character that the ISBN rule keeps holds a ['<']. *)
Lemma isbn_char_no_lt (s c : string) :
  c ∈ Str.chars s → isbn_char X c = true →
  Str.contains_char "<"%char c = false.
Proof.
  intros Hin Hc.
  pose proof (chars_shape s) as Hshape.
  rewrite Forall_forall in Hshape. destruct (Hshape c Hin) as [[a ->]|Hna].
  - cbn. rewrite orb_false_r. apply ascii_eqb_ne. intros ->. by vm_compute in Hc.
  - destruct (Str.contains_char "<"%char c) eqn:Hlt; [|done].
    by apply Hna in Hlt.
Qed.

Lemma csv_normalize_comments fm (v : pyval) :
  datatype (fm_get fm "comments") ≠ Some "datetime" →
  csv_normalize X fm "comments" v
  = match v with
    | PStr s => Ok (PStr (Str.replace Str.lf " " (Str.replace Str.crlf " " s)))
    | _ => Raise AttributeError
    end.
Proof.
  intros Hdt. unfold csv_normalize.
  rewrite (bool_decide_eq_false_2 (datatype _ = _)) by done. reflexivity.
Qed.

End IsbnComments.

(** X1.  With an ISBN that is a string, the CSV cell holds the characters
    of the ISBN that are digits, [X] or hyphens, in their order, and
    nothing else; an ISBN made of such characters only is written
    unchanged.  The digits are the ten of ASCII and, outside ASCII, the
    characters that Unicode counts as decimal digits.  An ISBN that is
    neither a string nor [None] makes the cell raise [TypeError].  The
    XML writer strips nothing: the text of its [isbn] element is the ISBN
    as stored. *)
Theorem isbn_csv_and_xml (X : Env) fm lib (fields : list string) (r : record)
    (s : string) :
  r !! "isbn" = Some (PStr s) →
  let kept := filter (λ c, isbn_char X c = true) (Str.chars s) in
  csv_cell X fm lib r "isbn" = Ok (csv_quote (Str.concat kept))
  ∧ Str.concat (Str.chars s) = s
  ∧ (∀ c, isbn_char X c = true ↔
       c = "X" ∨ c = "-"
       ∨ (∃ a, c = String a "" ∧ 48 ≤ Str.code a ≤ 57)
       ∨ ((∀ a, c = String a "" → Str.is_ascii_char a = false)
          ∧ unicode_digit X c = true))
  ∧ (Forall (λ c, isbn_char X c = true) (Str.chars s) →
     csv_cell X fm lib r "isbn" = Ok (csv_quote s))
  ∧ (∀ rec, "isbn" ∈ fields → s ≠ "" → xml_record X fm lib fields r = Ok rec →
       children_named "isbn" rec = [Element "isbn" [] (Some s) []])
  ∧ (∀ (r' : record) v, r' !! "isbn" = Some v → v ≠ PNone → Py.is_str v = false →
       csv_cell X fm lib r' "isbn" = Raise TypeError).
Proof.
  intros Hr kept.
  assert (csv_cell X fm lib r "isbn" = Ok (csv_quote (Str.concat kept))) as Hcell.
  { rewrite (csv_cell_item X fm lib r "isbn" (PStr s)); [|by unfold csv_item, getitem; cbn; rewrite Hr|done].
    rewrite csv_normalize_isbn. cbn [mbind res_bind]. fold kept.
    rewrite csv_html_plain; [done|]. apply contains_char_concat.
    apply Forall_forall. intros c [Hc Hin]%list_elem_of_filter.
    by apply (isbn_char_no_lt X s). }
  split; [done|]. split; [apply concat_chars|]. split; [apply isbn_char_spec|].
  split; [|split].
  - intros Hs. rewrite Hcell. unfold kept.
    by rewrite (filter_all _ _ Hs), concat_chars.
  - intros rec Hin Hs Hrec.
    pose proof (record_scalar_named X fm lib fields r rec "isbn"
                  ltac:(tag_not_in) Hrec) as Hnamed.
    rewrite (xml_scalar_str X fm fields r "isbn" s) in Hnamed by done.
    ok_inv Hnamed. apply E_text_Ok in Ha as (s' & [= <-] & _ & ->).
    by rewrite <-Hnamed.
  - intros r' v Hr' Hv Hstr.
    rewrite (csv_cell_item X fm lib r' "isbn" v); [|by unfold csv_item, getitem; cbn; rewrite Hr'|done].
    rewrite csv_normalize_isbn. by destruct v.
Qed.

(** The ISBN of the first sample book, with a prefix that is stripped. *)
Lemma isbn_csv_and_xml_witness :
  csv_cell Sample.env (fm_of Sample.env ["isbn"]) Sample.library Sample.book1 "isbn"
  = Ok (csv_quote "978-0-13-468599-1X").
Proof.
  exact (proj1 (isbn_csv_and_xml Sample.env (fm_of Sample.env ["isbn"])
                  Sample.library ["isbn"] Sample.book1
                  "ISBN:978-0-13-468599-1X" eq_refl)).
Defined.

(** Two Arabic-Indic digits are kept as the ASCII digits are, the letter
    after them is not. *)
Lemma isbn_unicode_digits_kept :
  csv_cell Sample.env ∅ Sample.library {["isbn" := PStr "٣٤X-a"]} "isbn"
  = Ok (csv_quote "٣٤X-").
Proof. vm_compute. reflexivity. Qed.

(** X2.  Where the metadata does not make [comments] a datetime, the
    CSV writer flattens a comment that is a string.  Read from the left,
    a carriage return and newline pair becomes one space, a single
    newline becomes one space, and every other character stays, a
    carriage return that no newline follows among them; so the flattened
    text holds no newline, and a comment without a newline is left as it
    is.  The cell is the flattened text after the HTML rule, quoted.  The
    XML writer keeps the comment as stored, newlines included. *)
Theorem comments_csv_and_xml (X : Env) fm lib (fields : list string)
    (r : record) (s : string) :
  datatype (fm_get fm "comments") ≠ Some "datetime" →
  r !! "comments" = Some (PStr s) →
  let flatten := λ t, Str.replace Str.lf " " (Str.replace Str.crlf " " t) in
    (∀ t, csv_normalize X fm "comments" (PStr t) = Ok (PStr (flatten t)))
    ∧ flatten "" = ""
    ∧ (∀ t, flatten (Str.crlf +:+ t) = " " +:+ flatten t)
    ∧ (∀ t, flatten (Str.lf +:+ t) = " " +:+ flatten t)
    ∧ (∀ c t, c ≠ Str.LF → Str.startswith (String c t) Str.crlf = false →
         flatten (String c t) = String c (flatten t))
    ∧ Str.contains_char Str.LF (flatten s) = false
    ∧ (Str.contains_char Str.LF s = false → flatten s = s)
    ∧ csv_cell X fm lib r "comments"
      = (λ v, csv_quote (Py.str v)) <$> csv_html X (PStr (flatten s))
    ∧ (∀ rec, "comments" ∈ fields → s ≠ "" →
         xml_record X fm lib fields r = Ok rec →
         children_named "comments" rec = [Element "comments" [] (Some s) []]).
Proof.
  intros Hdt Hr flatten. unfold flatten. clear flatten.
  split; [by intros t; rewrite csv_normalize_comments|].
  split; [done|]. split; [apply flatten_crlf|]. split; [apply flatten_lf|].
  split; [apply flatten_other|].
  split; [by apply replace_char_gone|]. split; [|split].
  - intros Hs. rewrite replace_crlf_absent by done.
    by apply replace_char_absent.
  - rewrite (csv_cell_item X fm lib r "comments" (PStr s)); [|by unfold csv_item, getitem; cbn; rewrite Hr|done].
    rewrite csv_normalize_comments by done. cbn [mbind res_bind].
    by destruct (csv_html X _).
  - intros rec Hin Hs Hrec.
    pose proof (record_comments_named X fm lib fields r rec Hrec) as Hnamed.
    unfold xml_text_field, field_in, getitem in Hnamed.
    rewrite bool_decide_eq_true_2 in Hnamed by done.
    rewrite Hr in Hnamed. cbn [mbind res_bind] in Hnamed.
    assert (Py.truthy (PStr s) = true) as Ht.
    { cbn. by rewrite bool_decide_eq_false_2. }
    rewrite Ht in Hnamed. ok_inv Hnamed.
    apply E_text_Ok in Ha as (s' & [= <-] & _ & ->). by rewrite <-Hnamed.
Qed.

(** A comment of three lines, in the record of the second sample book. *)
Lemma comments_csv_and_xml_witness :
  let s := "one" +:+ Str.crlf +:+ "two" +:+ Str.lf +:+ "three" in
  let r := <["comments" := PStr s]> Sample.book2 in
  csv_cell Sample.env (fm_of Sample.env ["comments"]) Sample.library r "comments"
  = Ok (csv_quote "one two three").
Proof.
  intros s r.
  destruct (comments_csv_and_xml Sample.env (fm_of Sample.env ["comments"])
              Sample.library ["comments"] r s ltac:(by vm_compute) eq_refl)
    as (_ & _ & _ & _ & _ & _ & _ & Hcell & _).
  rewrite Hcell. by vm_compute.
Defined.

(** ** Title, authors, series and tags *)

(** The sections of a record element that holds the tag [name]. *)
Ltac sections_of X H :=
  destruct (xml_record_tags X _ _ _ _ _ H)
    as (c1 & c2 & c3 & c4 & c5 & c6 & c7 & c8 & c9 & c10 & c11 & c12 & c13
        & Hc & H1 & [H2 T2] & [H3 T3] & [H4 T4] & [H5 T5] & [H6 T6] & [H7 T7]
        & [H8 T8] & [H9 T9] & [H10 T10] & [H11 T11] & [H12 T12] & [H13 T13]);
  unfold children_named; rewrite Hc, !filter_app.

Section Elements.
Context (X : Env).
Implicit Types (fm : gmap string FieldMeta) (r : record).

Lemma getitem_Ok r key v : getitem r key = Ok v ↔ r !! key = Some v.
Proof.
  unfold getitem. destruct (r !! key); split; intros H; by simplify_eq.
Qed.

Lemma xml_str_Ok v s : xml_str X v = Ok s → v = PStr s ∧ xml_text_ok X s = true.
Proof.
  unfold xml_str. destruct v; try done.
  destruct (xml_text_ok X s0) eqn:Hs; [|done]. by intros [= <-].
Qed.

(** An element made with one attribute. *)
Lemma E_attr_Ok tag text key v e :
  E X tag text [(key, v)] = Ok e →
  ∃ sv, v = PStr sv
        ∧ match text with
          | None => e = Element tag [(key, sv)] None []
          | Some t => ∃ st, t = PStr st ∧ e = Element tag [(key, sv)] (Some st) []
          end.
Proof.
  unfold E. cbn [for_each fst snd].
  destruct (xml_str X v) as [sv|err] eqn:Hv; [|done].
  apply xml_str_Ok in Hv as [-> _]. cbn [mbind res_bind].
  destruct text as [t|].
  - destruct (xml_str X t) as [st|err] eqn:Ht; [|done].
    apply xml_str_Ok in Ht as [-> _]. cbn. intros [= <-]. eauto.
  - cbn. intros [= <-]. eauto.
Qed.

Lemma record_title_named fm lib fields r rec :
  xml_record X fm lib fields r = Ok rec →
  xml_title X fields r = Ok (children_named "title" rec).
Proof. intros H. sections_of X H. by pick_section. Qed.

Lemma record_authors_named fm lib fields r rec :
  xml_record X fm lib fields r = Ok rec →
  xml_authors X fields r = Ok (children_named "authors" rec).
Proof. intros H. sections_of X H. by pick_section. Qed.

Lemma record_timestamp_named fm lib fields r rec :
  xml_record X fm lib fields r = Ok rec →
  xml_date X fields r "timestamp" = Ok (children_named "timestamp" rec).
Proof. intros H. sections_of X H. by pick_section. Qed.

Lemma record_pubdate_named fm lib fields r rec :
  xml_record X fm lib fields r = Ok rec →
  xml_date X fields r "pubdate" = Ok (children_named "pubdate" rec).
Proof. intros H. sections_of X H. by pick_section. Qed.

End Elements.

(** X3.  In a record element that was built: when [title] is a field,
    the title and its sort key are strings and there is one [title]
    element, with the title as text and the sort key as [sort] attribute,
    also for an empty title; when [authors] is a field, there is one
    [authors] element with the author sort string as [sort] attribute and
    one [author] child per author, in the order of the record; when
    [series] is a field and the series is not falsy, there is one
    [series] element with the series as text and the [str] of the series
    index as [index] attribute. *)
Theorem title_authors_series (X : Env) fm lib (fields : list string)
    (r : record) (rec : xml) :
  xml_record X fm lib fields r = Ok rec →
  ("title" ∈ fields →
     ∃ t s, r !! "title" = Some (PStr t) ∧ r !! "sort" = Some (PStr s)
            ∧ children_named "title" rec = [Element "title" [("sort", s)] (Some t) []])
  ∧ ("authors" ∈ fields →
       ∃ s v l, r !! "author_sort" = Some (PStr s)
                ∧ r !! "authors" = Some v ∧ Py.iter v = Ok l
                ∧ children_named "authors" rec
                  = [Element "authors" [("sort", s)] None
                       ((λ au, Element "author" [] (Some au) []) <$> l)])
  ∧ ("series" ∈ fields →
       ∀ v, r !! "series" = Some v → Py.truthy v = true →
         ∃ s i, v = PStr s ∧ r !! "series_index" = Some i
                ∧ children_named "series" rec
                  = [Element "series" [("index", Py.str i)] (Some s) []]).
Proof.
  intros Hrec. split; [|split].
  - intros Hin. pose proof (record_title_named X _ _ _ _ _ Hrec) as H.
    unfold xml_title, field_in in H. rewrite bool_decide_eq_true_2 in H by done.
    ok_inv H. apply getitem_Ok in Ha, Ha0.
    apply E_attr_Ok in Ha1 as (s & -> & t & -> & ->).
    exists t, s. by rewrite <-H.
  - intros Hin. pose proof (record_authors_named X _ _ _ _ _ Hrec) as H.
    unfold xml_authors, field_in in H. rewrite bool_decide_eq_true_2 in H by done.
    ok_inv H. apply getitem_Ok in Ha, Ha1.
    apply E_attr_Ok in Ha0 as (s & -> & ->).
    apply (for_each_E_text X "author" (λ au, au)) in Ha3 as ->.
    exists s, a1, a2. by rewrite <-H.
  - intros Hin v Hv Ht. pose proof (record_series_named X _ _ _ _ _ Hrec) as H.
    unfold xml_series, field_in, getitem in H.
    rewrite bool_decide_eq_true_2 in H by done.
    rewrite Hv in H. cbn [mbind res_bind] in H. rewrite Ht in H.
    ok_inv H. apply (getitem_Ok r "series_index") in Ha.
    apply E_attr_Ok in Ha0 as (si & [= <-] & s & -> & ->).
    exists s, a. by rewrite <-H.
Qed.

(** The first sample book, with its two authors and its series. *)
Lemma title_authors_series_witness :
  let fields := ["authors"; "title"; "series"] in
  ∃ rec,
    xml_record Sample.env (fm_of Sample.env fields) Sample.library fields Sample.book1
    = Ok rec
    ∧ ∃ s v l, Sample.book1 !! "author_sort" = Some (PStr s)
               ∧ Sample.book1 !! "authors" = Some v ∧ Py.iter v = Ok l
               ∧ children_named "authors" rec
                 = [Element "authors" [("sort", s)] None
                      ((λ au, Element "author" [] (Some au) []) <$> l)].
Proof.
  intros fields. eexists. split; [by vm_compute|].
  refine (proj1 (proj2 (title_authors_series Sample.env (fm_of Sample.env fields)
                          Sample.library fields Sample.book1 _ _)) _).
  - by vm_compute.
  - apply (bool_decide_unpack _). by vm_compute.
Defined.

Section Tags.
Context (X : Env).
Implicit Types (fm : gmap string FieldMeta) (r : record).

Lemma csv_cell_tags fm lib r (ts : list string) :
  r !! "tags" = Some (PList ts) →
  csv_cell X fm lib r "tags"
  = (λ v, csv_quote (Py.str v)) <$> csv_html X (PStr (Str.join ", " ts)).
Proof.
  intros Hr.
  rewrite (csv_cell_item X fm lib r "tags" (PList ts));
    [|by unfold csv_item, getitem; cbn; rewrite Hr|done].
  change (csv_normalize X fm "tags" (PList ts)) with (Ok (PStr (Str.join ", " ts)) : res pyval).
  cbn [mbind res_bind]. by destruct (csv_html X _).
Qed.

End Tags.

(** X4.  With a list of tags: the CSV cell is the tags joined by a comma
    and a space (after the HTML rule), quoted, and the XML record, when
    [tags] is a field, has one [tags] element with one [tag] child per
    tag, in order.  For the empty list the CSV cell is the empty cell and
    the record has no [tags] element. *)
Theorem tags_csv_and_xml (X : Env) fm lib (fields : list string) (r : record)
    (ts : list string) :
  r !! "tags" = Some (PList ts) →
  csv_cell X fm lib r "tags"
  = (λ v, csv_quote (Py.str v)) <$> csv_html X (PStr (Str.join ", " ts))
  ∧ (ts = [] →
     csv_cell X fm lib r "tags" = Ok (Str.dq +:+ Str.dq)
     ∧ ∀ rec, xml_record X fm lib fields r = Ok rec → children_named "tags" rec = [])
  ∧ (∀ rec, ts ≠ [] → "tags" ∈ fields → xml_record X fm lib fields r = Ok rec →
       children_named "tags" rec
       = [Element "tags" [] None ((λ t, Element "tag" [] (Some t) []) <$> ts)]).
Proof.
  intros Hr. split; [by apply csv_cell_tags|]. split.
  - intros ->. split; [by rewrite (csv_cell_tags X fm lib r [])|].
    intros rec Hrec. by eapply record_falsy_absent; [tag_not_in|done..].
  - intros rec Hts Hin Hrec.
    pose proof (record_tags_named X _ _ _ _ _ Hrec) as H.
    unfold xml_tags, field_in, getitem in H.
    rewrite bool_decide_eq_true_2 in H by done.
    rewrite Hr in H. cbn [mbind res_bind] in H.
    assert (Py.truthy (PList ts) = true) as Ht.
    { cbn. by rewrite bool_decide_eq_false_2. }
    rewrite Ht, E_empty in H. cbn [mbind res_bind Py.iter] in H. ok_inv H.
    apply (for_each_E_text X "tag" (λ t, t)) in Ha as ->. by rewrite <-H.
Qed.

(** The two tags of the first sample book. *)
Lemma tags_csv_and_xml_witness :
  csv_cell Sample.env (fm_of Sample.env ["tags"]) Sample.library Sample.book1 "tags"
  = (λ v, csv_quote (Py.str v)) <$> csv_html Sample.env (PStr "sf, classic").
Proof.
  exact (proj1 (tags_csv_and_xml Sample.env (fm_of Sample.env ["tags"])
                  Sample.library ["tags"] Sample.book1 ["sf"; "classic"] eq_refl)).
Defined.

(** ** Paths in the XML record *)

(** [path.replace(c, '/')] for a character [c]: the same length, a slash
    where the path has [c], and the character of the path elsewhere. *)
Lemma replace_char_slash_cons (c a : ascii) (p : string) :
  Str.replace (String c "") "/" (String a p)
  = String (if bool_decide (a = c) then "/"%char else a)
      (Str.replace (String c "") "/" p).
Proof.
  rewrite replace_char_cons. unfold Str.ascii_eqb.
  destruct (decide (c = a)) as [->|Hc].
  - by rewrite !bool_decide_eq_true_2.
  - rewrite !bool_decide_eq_false_2; [done|congruence|done].
Qed.

Lemma replace_char_slash_length (c : ascii) (p : string) :
  String.length (Str.replace (String c "") "/" p) = String.length p.
Proof.
  induction p as [|a p IH]; [done|].
  rewrite replace_char_slash_cons. cbn. by rewrite IH.
Qed.

Lemma replace_char_slash_get (c : ascii) (p : string) (i : nat) (a : ascii) :
  String.get i p = Some a →
  String.get i (Str.replace (String c "") "/" p)
  = Some (if bool_decide (a = c) then "/"%char else a).
Proof.
  revert i. induction p as [|b p IH]; intros i; [done|].
  rewrite replace_char_slash_cons. destruct i as [|i]; cbn.
  - by intros [= ->].
  - apply IH.
Qed.

(** X5.  With [c] the separator of the system, the text of the [cover]
    element is the stored path in which each [c] has become a slash and
    every other character is as it was, and the [formats] element has
    one [format] child per stored path, in order, with the path changed
    in the same way.  So where [c] is not the slash no such text holds
    [c], and where it is the slash the paths are written as stored. *)
Theorem separators_normalized (X : Env) fm lib (fields : list string)
    (r : record) (rec : xml) (c : ascii) :
  os_sep X = String c "" →
  xml_record X fm lib fields r = Ok rec →
  let slashed := Str.replace (os_sep X) "/" in
    (∀ p, String.length (slashed p) = String.length p
          ∧ ∀ i a, String.get i p = Some a →
              String.get i (slashed p)
              = Some (if bool_decide (a = c) then "/"%char else a))
    ∧ (∀ p, "cover" ∈ fields → r !! "cover" = Some (PStr p) → p ≠ "" →
         children_named "cover" rec = [Element "cover" [] (Some (slashed p)) []])
    ∧ (∀ fs, "formats" ∈ fields → r !! "formats" = Some (PList fs) → fs ≠ [] →
         children_named "formats" rec
         = [Element "formats" [] None
              ((λ f, Element "format" [] (Some (slashed f)) []) <$> fs)])
    ∧ (c ≠ "/"%char →
         (∀ p, Str.contains_char c (slashed p) = false)
         ∧ (∀ e, e ∈ children_named "cover" rec →
              ∃ t, xml_text e = Some t ∧ Str.contains_char c t = false)
         ∧ (∀ e f, e ∈ children_named "formats" rec → f ∈ xml_children e →
              ∃ t, xml_tag f = "format" ∧ xml_text f = Some t
                   ∧ Str.contains_char c t = false))
    ∧ (c = "/"%char → ∀ p, slashed p = p).
Proof.
  intros Hsep Hrec slashed. unfold slashed. rewrite Hsep. clear slashed.
  pose proof (record_cover_named X _ _ _ _ _ Hrec) as Hcover.
  pose proof (record_formats_named X _ _ _ _ _ Hrec) as Hformats.
  split; [|split; [|split; [|split]]].
  - intros p. split; [apply replace_char_slash_length|].
    intros i a. apply replace_char_slash_get.
  - intros p Hin Hp Hne.
    unfold xml_cover, normalize_sep, field_in, getitem in Hcover.
    rewrite Hsep in Hcover.
    rewrite bool_decide_eq_true_2 in Hcover by done.
    rewrite Hp in Hcover. cbn [mbind res_bind] in Hcover.
    assert (Py.truthy (PStr p) = true) as Ht.
    { cbn. by rewrite bool_decide_eq_false_2. }
    rewrite Ht in Hcover. cbn [mbind res_bind] in Hcover.
    destruct (E X "cover" _ []) as [item|] eqn:Hitem; [|done].
    injection Hcover as <-.
    by apply E_text_Ok in Hitem as (t & [= <-] & _ & ->).
  - intros fs Hin Hfs Hne. rewrite <-Hsep.
    by apply (xml_formats_list X fields r fs).
  - intros Hc. unfold xml_cover, normalize_sep in Hcover.
    unfold xml_formats in Hformats. rewrite Hsep in Hcover, Hformats.
    assert (Str.contains_char c "/" = false) as Hslash.
    { cbn. rewrite orb_false_r. apply ascii_eqb_ne. congruence. }
    split; [by intros p; apply replace_char_gone|]. split.
    + intros e. destruct (field_in "cover" fields);
        [|injection Hcover as <-; by intros ?%elem_of_nil].
      destruct (getitem r "cover") as [v|] eqn:Hv; [|done]. cbn [mbind res_bind] in Hcover.
      destruct (Py.truthy v); [|injection Hcover as <-; by intros ?%elem_of_nil].
      destruct v; try done. cbn [mbind res_bind] in Hcover.
      destruct (E X "cover" _ []) as [item|] eqn:Hitem; [|done].
      injection Hcover as <-. intros ->%list_elem_of_singleton.
      apply E_text_Ok in Hitem as (t & [= <-] & _ & ->).
      eexists. split; [done|]. by apply replace_char_gone.
    + intros e f. destruct (field_in "formats" fields);
        [|injection Hformats as <-; by intros ?%elem_of_nil].
      destruct (getitem r "formats") as [v|] eqn:Hv; [|done].
      cbn [mbind res_bind] in Hformats.
      destruct (Py.truthy v); [|injection Hformats as <-; by intros ?%elem_of_nil].
      rewrite E_empty in Hformats. cbn [mbind res_bind] in Hformats.
      destruct (Py.iter v) as [l|]; [|done]. cbn [mbind res_bind] in Hformats.
      destruct (for_each _ l) as [items|] eqn:Hitems; [|done].
      injection Hformats as <-. intros ->%list_elem_of_singleton Hf.
      apply (for_each_E_text X "format" (Str.replace (String c "") "/")) in Hitems as ->.
      cbn in Hf. apply list_elem_of_fmap in Hf as (x & -> & _).
      eexists. split; [done|]. split; [done|]. by apply replace_char_gone.
  - intros -> p. change "/" with (String "/"%char "") at 1.
    apply replace_char_self.
Qed.

(** The first sample book, whose paths use backslashes. *)
Lemma separators_normalized_witness :
  let fields := ["cover"; "formats"] in
  ∃ rec,
    xml_record Sample.env (fm_of Sample.env fields) Sample.library fields Sample.book1
    = Ok rec
    ∧ children_named "cover" rec = [Element "cover" [] (Some "C:/lib/cover.jpg") []]
    ∧ children_named "formats" rec
      = [Element "formats" [] None
           [Element "format" [] (Some "C:/lib/book.EPUB") [];
            Element "format" [] (Some "C:/lib/book.mobi") []]].
Proof.
  intros fields. eexists. split; [by vm_compute|].
  destruct (separators_normalized Sample.env (fm_of Sample.env fields)
              Sample.library fields Sample.book1 _ "\"%char
              eq_refl ltac:(by vm_compute))
    as (_ & Hcover & Hformats & _).
  split.
  - apply (Hcover "C:\lib\cover.jpg"); [|done|done].
    apply (bool_decide_unpack _). by vm_compute.
  - apply (Hformats ["C:\lib\book.EPUB"; "C:\lib\book.mobi"]); [|done|done].
    apply (bool_decide_unpack _). by vm_compute.
Defined.

(** ** The whole tree *)

Section Tree.
Context (X : Env).

Lemma xml_record_tag fm lib fields (r : record) rec :
  xml_record X fm lib fields r = Ok rec →
  xml_tag rec = "record" ∧ xml_text rec = None ∧ xml_attrib rec = [].
Proof.
  intros H.
  destruct (xml_record_Ok X _ _ _ _ _ H)
    as (c1 & c2 & c3 & c4 & c5 & c6 & c7 & c8 & c9 & c10 & c11 & c12 & c13
        & -> & _). done.
Qed.

Lemma xml_record_try_Ok fm lib fields (r : record) rec :
  xml_record_try X fm lib fields r = Ok rec ↔ xml_record X fm lib fields r = Ok rec.
Proof.
  unfold xml_record_try. destruct (xml_record X fm lib fields r) as [rec'|e].
  - done.
  - split; [|done]. by destruct (getitem r "title").
Qed.

End Tree.

(** X6.  The tree the XML writer builds has the root [calibredb], without
    text, whose only attribute is [title], present exactly when the
    catalog title is truthy (it is then a string); its children are the
    record elements of the records of [data], one per record and in the
    order of [data], each with the tag [record] and no attribute. *)
Theorem tree_records (X : Env) fm lib (title : pyval) (fields : list string)
    (data : list record) (root : xml) :
  xml_tree X fm lib title fields data = Ok root →
  xml_tag root = "calibredb"
  ∧ xml_text root = None
  ∧ xml_attrib root = (if Py.truthy title then [("title", Py.str title)] else [])
  ∧ (Py.truthy title = true → Py.is_str title = true)
  ∧ Forall2 (λ r rec, xml_record X fm lib fields r = Ok rec) data (xml_children root)
  ∧ length (xml_children root) = length data
  ∧ Forall (λ rec, xml_tag rec = "record" ∧ xml_attrib rec = []) (xml_children root).
Proof.
  unfold xml_tree. intros H.
  destruct (Py.truthy title) eqn:Ht.
  - destruct (E X "calibredb" None [("title", title)]) as [root0|] eqn:Hroot; [|done].
    apply E_attr_Ok in Hroot as (s & -> & ->). cbn [mbind res_bind] in H.
    destruct (for_each _ data) as [records|] eqn:Hrecords; [|done].
    injection H as <-. apply for_each_Ok in Hrecords.
    assert (Forall2 (λ r rec, xml_record X fm lib fields r = Ok rec) data records)
      as Hall.
    { eapply Forall2_impl; [done|]. intros r rec. apply xml_record_try_Ok. }
    repeat split; try done.
    + symmetry. by eapply Forall2_length.
    + clear Hrecords. induction Hall as [|r rec ?? Hr _ IH]; constructor; [|done].
      by destruct (xml_record_tag X _ _ _ _ _ Hr) as (? & _ & ?).
  - rewrite E_empty in H. cbn [mbind res_bind] in H.
    destruct (for_each _ data) as [records|] eqn:Hrecords; [|done].
    injection H as <-. apply for_each_Ok in Hrecords.
    assert (Forall2 (λ r rec, xml_record X fm lib fields r = Ok rec) data records)
      as Hall.
    { eapply Forall2_impl; [done|]. intros r rec. apply xml_record_try_Ok. }
    repeat split; try done.
    + symmetry. by eapply Forall2_length.
    + clear Hrecords. induction Hall as [|r rec ?? Hr _ IH]; constructor; [|done].
      by destruct (xml_record_tag X _ _ _ _ _ Hr) as (? & _ & ?).
Qed.

(** The two sample books under a catalog title. *)
Lemma tree_records_witness :
  let fields := ["title"; "tags"] in
  ∃ root,
    xml_tree Sample.env (fm_of Sample.env fields) Sample.library (PStr "Mine")
      fields [Sample.book1; Sample.book2] = Ok root
    ∧ xml_attrib root = [("title", "Mine")]
    ∧ length (xml_children root) = 2%nat.
Proof.
  intros fields. eexists. split; [by vm_compute|].
  pose proof (tree_records Sample.env (fm_of Sample.env fields) Sample.library
                (PStr "Mine") fields [Sample.book1; Sample.book2] _
                ltac:(by vm_compute)) as (_ & _ & Ha & _ & _ & Hl & _).
  by split.
Defined.

(** ** A field the record does not hold *)

Section Missing.
Context (X : Env).
Implicit Types (fm : gmap string FieldMeta) (r : record).

Lemma getitem_missing r key : r !! key = None → getitem r key = Raise (KeyError key).
Proof. intros H. unfold getitem. by rewrite H. Qed.

Lemma csv_cell_missing fm lib r field :
  r !! field = None →
  Str.startswith field "#" = false →
  field ≠ "library_name" → field ≠ "title_sort" →
  csv_cell X fm lib r field = Raise (KeyError field).
Proof.
  intros Hr Hm Hl Ht. unfold csv_cell.
  by rewrite csv_item_direct, getitem_missing.
Qed.

Lemma xml_scalars_each fm fields r names field cs :
  field ∈ names →
  xml_scalars X fm fields r names = Ok cs →
  ∃ c, xml_scalar X fm fields r field = Ok c.
Proof.
  revert cs. induction names as [|f names IH]; intros cs Hin H;
    [by apply elem_of_nil in Hin|].
  cbn [xml_scalars] in H. ok_inv H.
  apply elem_of_cons in Hin as [->|Hin]; eauto.
Qed.

(** A field of the fixed order, other than the library name, that the
    field list names and the record lacks stops the record element. *)
Lemma xml_record_missing fm lib fields r field :
  r !! field = None → field ∈ fields →
  field ∈ fixed_order → field ≠ "library_name" →
  ∃ e, xml_record X fm lib fields r = Raise e.
Proof.
  intros Hr Hin Hfixed Hlib.
  destruct (xml_record X fm lib fields r) as [rec|e] eqn:Hrec; [|by eauto].
  exfalso.
  destruct (xml_record_Ok X _ _ _ _ _ Hrec)
    as (c1 & c2 & c3 & c4 & c5 & c6 & c7 & c8 & c9 & c10 & c11 & c12 & c13
        & _ & H1 & H2 & H3 & H4 & H5 & H6 & H7 & H8 & H9 & H10 & H11 & H12 & H13).
  unfold fixed_order in Hfixed. apply elem_of_app in Hfixed as [Hs|Hrest].
  - destruct (xml_scalars_each _ _ _ _ _ _ Hs H2) as [c Hc].
    unfold xml_scalar, field_in in Hc.
    rewrite bool_decide_eq_true_2, getitem_missing in Hc by done. done.
  - rewrite !elem_of_cons, elem_of_nil in Hrest.
    assert (∀ key, field = key → getitem r key = Raise (KeyError key)) as Hget.
    { intros key <-. by apply getitem_missing. }
    assert (∀ key, field = key → field_in key fields = true) as Hfin.
    { intros key <-. unfold field_in. by rewrite bool_decide_eq_true_2. }
    destruct Hrest as [Hf|[Hf|[Hf|[Hf|[Hf|[Hf|[Hf|[Hf|[Hf|[Hf|[Hf|[]]]]]]]]]]]].
    + unfold xml_title in H3. by rewrite (Hfin _ Hf), (Hget _ Hf) in H3.
    + unfold xml_authors in H4. rewrite (Hfin _ Hf) in H4.
      ok_inv H4. by rewrite (Hget _ Hf) in Ha1.
    + unfold xml_date in H5. by rewrite (Hfin _ Hf), (Hget _ Hf) in H5.
    + unfold xml_date in H6. by rewrite (Hfin _ Hf), (Hget _ Hf) in H6.
    + unfold xml_tags in H7. by rewrite (Hfin _ Hf), (Hget _ Hf) in H7.
    + unfold xml_text_field in H8. by rewrite (Hfin _ Hf), (Hget _ Hf) in H8.
    + unfold xml_series in H9. by rewrite (Hfin _ Hf), (Hget _ Hf) in H9.
    + unfold xml_text_field in H10. by rewrite (Hfin _ Hf), (Hget _ Hf) in H10.
    + unfold xml_cover in H11. by rewrite (Hfin _ Hf), (Hget _ Hf) in H11.
    + unfold xml_formats in H12. by rewrite (Hfin _ Hf), (Hget _ Hf) in H12.
    + done.
Qed.

End Missing.

(** X7.  A field of the field list that is neither custom nor
    [library_name] nor [title_sort] and that the record does not hold
    makes its CSV cell raise [KeyError] with the field name; the row
    raises (that very exception when the cells before it succeed), and a
    CSV export whose first record is such a record stops after writing
    the byte-order mark and the header line.  When the field is one the XML writer knows,
    the record element raises as well. *)
Theorem missing_field_raises (X : Env) fm lib (fields : list string) (r : record)
    (field : string) :
  r !! field = None → field ∈ fields →
  Str.startswith field "#" = false →
  field ≠ "library_name" → field ≠ "title_sort" →
  csv_cell X fm lib r field = Raise (KeyError field)
  ∧ (∃ e, csv_row X fm lib fields r = Raise e)
  ∧ (∀ before after,
       fields = before ++ field :: after →
       Forall (λ f, ∃ cell, csv_cell X fm lib r f = Ok cell) before →
       csv_row X fm lib fields r = Raise (KeyError field))
  ∧ (∀ data, ∃ e,
       write_csv X fm lib fields (r :: data)
       = (Str.BOM +:+ Str.join "," fields +:+ Str.lf, Raised e))
  ∧ (field ∈ fixed_order → ∃ e, xml_record X fm lib fields r = Raise e).
Proof.
  intros Hr Hin Hm Hl Ht.
  pose proof (csv_cell_missing X fm lib r field Hr Hm Hl Ht) as Hcell.
  assert (∃ e, csv_row X fm lib fields r = Raise e) as [e Hrow].
  { unfold csv_row. apply for_each_Raise. by exists field, (KeyError field). }
  split; [done|]. split; [by eauto|]. split; [|split].
  - intros before after -> Hbefore. unfold csv_row.
    by apply for_each_first_Raise.
  - intros data. exists e. unfold write_csv. cbn [csv_entries]. by rewrite Hrow.
  - intros Hfixed. by apply (xml_record_missing X fm lib fields r field).
Qed.

(** The second sample book without its publisher. *)
Lemma missing_field_raises_witness :
  let r := delete "publisher" Sample.book2 in
  csv_cell Sample.env (fm_of Sample.env ["title"; "publisher"]) Sample.library r
    "publisher"
  = Raise (KeyError "publisher").
Proof.
  intros r.
  refine (proj1 (missing_field_raises Sample.env _ Sample.library
                   ["title"; "publisher"] r "publisher" _ _ _ _ _)).
  - by vm_compute.
  - apply (bool_decide_unpack _). by vm_compute.
  - done.
  - done.
  - done.
Defined.

(** ** Dates *)

Section Dates.
Context (X : Env).
Implicit Types (fm : gmap string FieldMeta) (r : record).

Lemma csv_normalize_date fm field v :
  field = "timestamp" ∨ field = "pubdate" →
  datatype (fm_get fm field) = Some "datetime" →
  csv_normalize X fm field v = PStr <$> isoformat X v.
Proof.
  intros Hf Hdt. unfold csv_normalize. rewrite Hdt.
  by destruct Hf as [-> | ->].
Qed.

Lemma record_date_named fm lib fields r rec field :
  field = "timestamp" ∨ field = "pubdate" →
  xml_record X fm lib fields r = Ok rec →
  xml_date X fields r field = Ok (children_named field rec).
Proof.
  intros [-> | ->] H;
    [by eapply record_timestamp_named|by eapply record_pubdate_named].
Qed.

End Dates.

(** X8.  For [timestamp] and [pubdate], where the metadata gives the
    field the datatype [datetime]: the CSV cell of a date that is [None]
    is the empty cell, without a call of [isoformat]; the cell of any
    other date is its [isoformat] text (after the HTML rule), quoted.
    The XML writer has no test on the value: when the field is in the
    field list the record element holds an element with the [isoformat]
    text, and when [isoformat] raises on the value, as on a date that is
    missing, no record element is built. *)
Theorem dates_csv_and_xml (X : Env) fm lib (fields : list string) (r : record)
    (field : string) (v : pyval) :
  field = "timestamp" ∨ field = "pubdate" →
  datatype (fm_get fm field) = Some "datetime" →
  r !! field = Some v →
  (v = PNone → csv_cell X fm lib r field = Ok (Str.dq +:+ Str.dq))
  ∧ (v ≠ PNone →
     csv_cell X fm lib r field
     = s ← isoformat X v; item ← csv_html X (PStr s); Ok (csv_quote (Py.str item)))
  ∧ (∀ s rec, field ∈ fields → isoformat X v = Ok s →
       xml_record X fm lib fields r = Ok rec →
       children_named field rec = [Element field [] (Some s) []])
  ∧ (∀ e, field ∈ fields → isoformat X v = Raise e →
       ∃ e', xml_record X fm lib fields r = Raise e').
Proof.
  intros Hf Hdt Hr.
  assert (csv_item X fm lib r field = Ok v) as Hitem.
  { rewrite csv_item_direct, getitem_Ok; by destruct Hf as [-> | ->]. }
  assert (∀ rec, field ∈ fields → xml_record X fm lib fields r = Ok rec →
            (s ← isoformat X v; item ← E X field (Some (PStr s)) []; Ok [item])
            = Ok (children_named field rec)) as Hxml.
  { intros rec Hin Hrec.
    pose proof (record_date_named X fm lib fields r rec field Hf Hrec) as H.
    unfold xml_date, field_in, getitem in H.
    by rewrite bool_decide_eq_true_2, Hr in H by done. }
  split; [|split; [|split]].
  - intros ->. by apply csv_cell_None.
  - intros Hv. rewrite (csv_cell_item X fm lib r field v) by done.
    rewrite csv_normalize_date by done. by destruct (isoformat X v).
  - intros s rec Hin Hs Hrec. specialize (Hxml rec Hin Hrec).
    rewrite Hs in Hxml. cbn [mbind res_bind] in Hxml. ok_inv Hxml.
    apply E_text_Ok in Ha as (s' & [= <-] & _ & ->). by rewrite <-Hxml.
  - intros e Hin He.
    destruct (xml_record X fm lib fields r) as [rec|e'] eqn:Hrec; [|by eauto].
    specialize (Hxml rec Hin eq_refl). by rewrite He in Hxml.
Qed.

(** The second sample book with its timestamp set to [None]: the CSV cell
    is empty and, since the sample [isoformat] rejects [None], the record
    element cannot be built. *)
Lemma dates_csv_and_xml_witness :
  let fields := ["title"; "timestamp"] in
  let r := <["timestamp" := PNone]> Sample.book2 in
  csv_cell Sample.env (fm_of Sample.env fields) Sample.library r "timestamp"
  = Ok (Str.dq +:+ Str.dq)
  ∧ ∃ e', xml_record Sample.env (fm_of Sample.env fields) Sample.library fields r
          = Raise e'.
Proof.
  intros fields r.
  pose proof (dates_csv_and_xml Sample.env (fm_of Sample.env fields) Sample.library
                fields r "timestamp" PNone (or_introl eq_refl)
                ltac:(by vm_compute) ltac:(by vm_compute))
    as (Hcsv & _ & _ & Hxml).
  split; [by apply Hcsv|].
  apply (Hxml AttributeError); [|done].
  apply (bool_decide_unpack _). by vm_compute.
Defined.

(** ** The device column *)

Section Device.
Implicit Types (r entry : record).

Lemma set_ondevice_Ok mapping entry entry' :
  set_ondevice mapping entry = Ok entry' ↔
  ∃ i m v, entry !! "id" = Some i ∧ mapping i = Some m
           ∧ m !! "ondevice" = Some v ∧ entry' = <["ondevice" := v]> entry.
Proof.
  unfold set_ondevice, getitem. split.
  - destruct (entry !! "id") as [i|]; [|done]. cbn [mbind res_bind].
    destruct (mapping i) as [m|] eqn:Hm; [|done]. cbn [mbind res_bind].
    destruct (m !! "ondevice") as [v|] eqn:Hv; [|done]. cbn. intros [= <-].
    by exists i, m, v.
  - intros (i & m & v & -> & Hm & Hv & ->). cbn [mbind res_bind].
    rewrite Hm. cbn [mbind res_bind]. by rewrite Hv.
Qed.

(** Setting [ondevice] changes no other column of the CSV row. *)
Lemma csv_cell_ondevice_frame (X : Env) fm lib entry (v : pyval) field :
  field ≠ "ondevice" →
  csv_cell X fm lib (<["ondevice" := v]> entry) field = csv_cell X fm lib entry field.
Proof.
  intros Hf. unfold csv_cell.
  assert (csv_item X fm lib (<["ondevice" := v]> entry) field
          = csv_item X fm lib entry field) as ->; [|done].
  unfold csv_item, getitem.
  rewrite (lookup_insert_ne entry "ondevice" "id" v) by done.
  rewrite (lookup_insert_ne entry "ondevice" "sort" v) by done.
  by rewrite (lookup_insert_ne entry "ondevice" field v) by done.
Qed.

End Device.

(** X9.  When a device is connected and [ondevice] is a field of the
    field list, and every id is known to the device mapping, the entries
    that reach the writers are those of [data], in the same number and
    order, each with its [ondevice] key set to the value the mapping
    holds for the id of the entry.  The key [ondevice] apart every entry
    is as before, so every other CSV cell is the same.  Without a
    connected device, or without the field, [data] is used as it is. *)
Theorem ondevice_column (mapping : pyval → option record) (fields : list string)
    (data data' : list record) :
  "ondevice" ∈ fields →
  add_ondevice true mapping fields data = Ok data' →
  Forall2 (λ entry entry',
             ∃ i m v, entry !! "id" = Some i ∧ mapping i = Some m
                      ∧ m !! "ondevice" = Some v
                      ∧ entry' = <["ondevice" := v]> entry
                      ∧ entry' !! "ondevice" = Some v
                      ∧ (∀ key, key ≠ "ondevice" → entry' !! key = entry !! key)
                      ∧ ∀ (X : Env) fm lib field, field ≠ "ondevice" →
                          csv_cell X fm lib entry' field = csv_cell X fm lib entry field)
          data data'
  ∧ length data' = length data
  ∧ (∀ (X : Env) path lib title files,
       run X path lib title fields true mapping data files
       = write_catalog X path lib title fields data' files)
  ∧ (∀ (X : Env) path lib title files connected other,
       connected = false ∨ "ondevice" ∉ other →
       run X path lib title other connected mapping data files
       = write_catalog X path lib title other data files).
Proof.
  intros Hin Hadd. unfold add_ondevice, field_in in Hadd.
  rewrite bool_decide_eq_true_2 in Hadd by done. cbn [andb] in Hadd.
  pose proof Hadd as Hall. apply for_each_Ok in Hall.
  split; [|split; [|split]].
  - eapply Forall2_impl; [done|]. intros entry entry' H.
    apply set_ondevice_Ok in H as (i & m & v & Hi & Hm & Hv & ->).
    exists i, m, v. repeat split; try done.
    + apply lookup_insert_eq.
    + intros key Hkey. by apply lookup_insert_ne.
    + intros X fm lib field Hfield. by apply csv_cell_ondevice_frame.
  - symmetry. by eapply Forall2_length.
  - intros X path lib title files. unfold run, add_ondevice, field_in.
    rewrite bool_decide_eq_true_2 by done. cbn [andb]. by rewrite Hadd.
  - intros X path lib title files connected other Hno.
    unfold run, add_ondevice, field_in.
    destruct Hno as [-> | Hno]; [done|].
    by rewrite bool_decide_eq_false_2, andb_false_r.
Qed.

(** The two sample books on a device that holds the first in its main
    memory and does not hold the second. *)
Lemma ondevice_column_witness :
  let fields := ["title"; "ondevice"] in
  let data := [Sample.book1; Sample.book2] in
  let data' := [<["ondevice" := PStr "Main"]> Sample.book1;
                <["ondevice" := PNone]> Sample.book2] in
  length data' = length data
  ∧ ∀ files, run Sample.env "catalog.csv" Sample.library (PStr "My Books")
               fields true sample_mapping data files
             = write_catalog Sample.env "catalog.csv" Sample.library (PStr "My Books")
                 fields data' files.
Proof.
  intros fields data data'.
  pose proof (ondevice_column sample_mapping fields data data') as H.
  destruct H as (_ & Hlen & Hrun & _).
  - apply (bool_decide_unpack _). by vm_compute.
  - by vm_compute.
  - split; [done|]. intros files. apply Hrun.
Defined.

(** X10.  With a device connected and [ondevice] in the field list, an
    entry without an id, with an id the device mapping does not know, or
    whose mapping entry has no [ondevice] key stops [run] with an
    exception before the output file is opened: no file is created or
    changed, whatever the format. *)
Theorem ondevice_unknown_raises (X : Env) (path : string) (lib title : pyval)
    (mapping : pyval → option record) (fields : list string)
    (data : list record) (entry : record) (files : gmap string file) :
  "ondevice" ∈ fields →
  entry ∈ data →
  (entry !! "id" = None
   ∨ (∃ i, entry !! "id" = Some i ∧ mapping i = None)
   ∨ (∃ i m, entry !! "id" = Some i ∧ mapping i = Some m ∧ m !! "ondevice" = None)) →
  ∃ e, run X path lib title fields true mapping data files
       = (files, Raised e).
Proof.
  intros Hin Hentry Hbad.
  assert (∃ e, set_ondevice mapping entry = Raise e) as [e He].
  { unfold set_ondevice, getitem.
    destruct Hbad as [-> | [(i & -> & Hm) | (i & m & -> & Hm & Hv)]];
      cbn [mbind res_bind]; [by eauto| |].
    - rewrite Hm. cbn [mbind res_bind]. by eauto.
    - rewrite Hm. cbn [mbind res_bind]. rewrite Hv. cbn [mbind res_bind]. by eauto. }
  destruct (for_each_Raise (set_ondevice mapping) data) as [e' He'];
    [by exists entry, e|].
  exists e'. unfold run, add_ondevice, field_in.
  rewrite bool_decide_eq_true_2 by done. cbn [andb]. by rewrite He'.
Qed.

(** A third book, with an id the sample device mapping does not hold. *)
Lemma ondevice_unknown_raises_witness :
  let r := <["id" := PInt 7]> Sample.book1 in
  ∃ e, run Sample.env "catalog.csv" Sample.library (PStr "My Books")
         ["title"; "ondevice"] true sample_mapping [Sample.book1; r]
         (∅ : gmap string file)
       = (∅, Raised e).
Proof.
  intros r.
  apply (ondevice_unknown_raises Sample.env "catalog.csv" Sample.library
           (PStr "My Books") sample_mapping ["title"; "ondevice"]
           [Sample.book1; r] r ∅).
  - apply (bool_decide_unpack _). by vm_compute.
  - apply elem_of_cons. right. apply elem_of_cons. by left.
  - right; left. exists (PInt 7). split; [by vm_compute|done].
Defined.

(** ** Custom columns with a datatype *)

Section TypedColumns.
Context (X : Env).
Implicit Types (fm : gmap string FieldMeta) (r : record).

(** The rules of the CSV writer that go by the name of the field leave
    custom fields alone; the two that go by the datatype apply. *)
Lemma csv_normalize_custom fm field v :
  Str.startswith field "#" = true →
  csv_normalize X fm field v
  = if bool_decide (datatype (fm_get fm field) = Some "datetime") then
      PStr <$> isoformat X v
    else if bool_decide (datatype (fm_get fm field) = Some "rating") && Py.truthy v
    then PStr <$> Py.format_half_2g v
    else Ok v.
Proof.
  intros Hm. unfold csv_normalize.
  rewrite (bool_decide_eq_false_2 (field = "formats")) by (by intros ->).
  rewrite (bool_decide_eq_false_2 (field = "authors")) by (by intros ->).
  rewrite (bool_decide_eq_false_2 (field = "tags")) by (by intros ->).
  rewrite (bool_decide_eq_false_2 (field = "isbn")) by (by intros ->).
  by rewrite (bool_decide_eq_false_2 (field = "comments")) by (by intros ->).
Qed.

Lemma truthy_stars (n : Z) : 1 ≤ n ≤ 10 → Py.truthy (PInt n) = true.
Proof. intros Hn. destruct n; by try lia. Qed.

Lemma record_custom_element fm lib fields r field i val rec :
  Str.startswith field "#" = true →
  r !! "id" = Some i →
  get_field X i field = Ok val →
  field ∈ fields →
  xml_record X fm lib fields r = Ok rec →
  Element (Str.replace "#" "_" field) [] (Some (Py.str val)) [] ∈ xml_children rec.
Proof.
  intros Hm Hi Hval Hin Hrec.
  destruct (xml_record_Ok X _ _ _ _ _ Hrec)
    as (c1 & c2 & c3 & c4 & c5 & c6 & c7 & c8 & c9 & c10 & c11 & c12 & c13
        & -> & H1 & _).
  cbn [xml_children]. apply elem_of_app. left.
  by eapply xml_custom_element.
Qed.

End TypedColumns.

(** X11.  The CSV rules for ratings and dates go by the datatype of the
    field, so they hold for custom columns too, while the XML writer
    writes [str] of the value of every custom column.  A custom rating
    from 1 to 10 is halved in the CSV cell and written as it is in the
    XML element; a custom date is written through [isoformat] in the CSV
    cell and through [str] in the XML element. *)
Theorem custom_typed_columns (X : Env) fm lib (fields : list string) (r : record)
    (field : string) (i val : pyval) :
  Str.startswith field "#" = true →
  r !! "id" = Some i →
  get_field X i field = Ok val →
  (∀ n, val = PInt n → 1 ≤ n ≤ 10 →
     datatype (fm_get fm field) = Some "rating" →
     csv_cell X fm lib r field
     = Ok (csv_quote (if Z.even n then pretty (n / 2) else pretty (n / 2) +:+ ".5")))
  ∧ (∀ n rec, val = PInt n → field ∈ fields →
       xml_record X fm lib fields r = Ok rec →
       Element (Str.replace "#" "_" field) [] (Some (pretty n)) [] ∈ xml_children rec)
  ∧ (∀ text s, val = PObj text → isoformat X val = Ok s →
       datatype (fm_get fm field) = Some "datetime" →
       csv_cell X fm lib r field
       = item ← csv_html X (PStr s); Ok (csv_quote (Py.str item)))
  ∧ (∀ text rec, val = PObj text → field ∈ fields →
       xml_record X fm lib fields r = Ok rec →
       Element (Str.replace "#" "_" field) [] (Some text) [] ∈ xml_children rec).
Proof.
  intros Hm Hi Hval.
  pose proof (csv_item_custom X fm lib r field i val Hm Hi Hval) as Hitem.
  split; [|split; [|split]].
  - intros n -> Hn Hdt.
    rewrite (csv_cell_item X fm lib r field (PInt n)) by done.
    rewrite csv_normalize_custom, Hdt by done.
    rewrite bool_decide_eq_false_2, bool_decide_eq_true_2 by done.
    rewrite truthy_stars by done. cbn [andb].
    rewrite format_half_2g_stars by done. cbn [fmap res_fmap mbind res_bind].
    unfold csv_html. by rewrite is_html_stars.
  - intros n rec -> Hin Hrec.
    by apply (record_custom_element X fm lib fields r field i (PInt n) rec).
  - intros text s -> Hs Hdt.
    rewrite (csv_cell_item X fm lib r field (PObj text)) by done.
    rewrite csv_normalize_custom, Hdt by done.
    rewrite bool_decide_eq_true_2 by done. by rewrite Hs.
  - intros text rec -> Hin Hrec.
    by apply (record_custom_element X fm lib fields r field i (PObj text) rec).
Qed.

(** The rating 7 in the custom column [#stars] of the first sample book:
    3.5 in the CSV cell, 7 in the XML element. *)
Lemma custom_typed_columns_witness :
  let fields := ["title"; "#stars"] in
  let fm := fm_of typed_columns_env fields in
  csv_cell typed_columns_env fm Sample.library Sample.book1 "#stars"
  = Ok (csv_quote "3.5")
  ∧ ∀ rec, xml_record typed_columns_env fm Sample.library fields Sample.book1 = Ok rec →
      Element "_stars" [] (Some "7") [] ∈ xml_children rec.
Proof.
  intros fields fm.
  pose proof (custom_typed_columns typed_columns_env fm Sample.library fields
                Sample.book1 "#stars" (PInt 1) (PInt 7) eq_refl eq_refl eq_refl)
    as (Hcsv & Hxml & _).
  split.
  - apply (Hcsv 7); [done|lia|by vm_compute].
  - intros rec Hrec. apply (Hxml 7 rec); [done| |done].
    apply (bool_decide_unpack _). by vm_compute.
Defined.

(** ** A CSV export that fails part way *)

Section CsvFailure.
Context (X : Env).
Implicit Types (fm : gmap string FieldMeta) (r : record).

Lemma csv_entries_first_Raise fm lib fields (before after : list record) r
    (rows : list (list string)) (outfile : string) (e : exn) :
  Forall2 (λ entry values, csv_row X fm lib fields entry = Ok (csv_quote <$> values))
          before rows →
  csv_row X fm lib fields r = Raise e →
  csv_entries X fm lib fields (before ++ r :: after) outfile
  = (outfile +:+ CsvParse.body_text rows, Raised e).
Proof.
  intros Hb Hr. revert outfile.
  induction Hb as [|entry values before rows Hrow _ IH]; intros outfile.
  - cbn [app csv_entries]. rewrite Hr. cbn [CsvParse.body_text fold_right].
    by rewrite sapp_nil_r.
  - rewrite <-app_comm_cons. cbn [csv_entries]. rewrite Hrow, IH.
    rewrite body_text_cons. unfold CsvParse.row_text.
    by rewrite !sapp_assoc.
Qed.

Lemma csv_entries_all_Ok fm lib fields (data : list record)
    (rows : list (list string)) (outfile : string) :
  Forall2 (λ entry values, csv_row X fm lib fields entry = Ok (csv_quote <$> values))
          data rows →
  csv_entries X fm lib fields data outfile
  = (outfile +:+ CsvParse.body_text rows, Returned).
Proof.
  intros Hd. revert outfile.
  induction Hd as [|entry values data rows Hrow _ IH]; intros outfile.
  - cbn [csv_entries CsvParse.body_text fold_right]. by rewrite sapp_nil_r.
  - cbn [csv_entries]. rewrite Hrow, IH.
    rewrite body_text_cons. unfold CsvParse.row_text.
    by rewrite !sapp_assoc.
Qed.

End CsvFailure.

(** X13.  With a [csv] destination, when the rows of the records before
    some record are built and the row of that record raises, [run] ends
    with that very exception, not wrapped.  The output file was opened,
    and the byte-order mark, the header line and the lines of the
    records before the failing one were written to the file object,
    which [run] leaves as it is: the file is not closed, and nothing says
    how much of the text is on the disk.  When every row is built the
    file is closed and holds the lines of all the records. *)
Theorem csv_failure_keeps_rows (X : Env) (path : string) (lib title : pyval)
    (fields : list string) (connected : bool) (mapping : pyval → option record)
    (data before after : list record) (r : record)
    (rows : list (list string)) (files : gmap string file) (e : exn) :
  Str.rpartition_2 "."%char path = "csv" →
  add_ondevice connected mapping fields data = Ok (before ++ r :: after) →
  Forall2 (λ entry values,
             csv_row X (fm_of X fields) lib fields entry = Ok (csv_quote <$> values))
          before rows →
  csv_row X (fm_of X fields) lib fields r = Raise e →
  run X path lib title fields connected mapping data files
  = (<[path := LeftOpen (Str.BOM +:+ Str.join "," fields +:+ Str.lf
                         +:+ CsvParse.body_text rows)]> files,
     Raised e)
  ∧ (∀ d d' all_rows,
       add_ondevice connected mapping fields d = Ok d' →
       Forall2 (λ entry values,
                  csv_row X (fm_of X fields) lib fields entry
                  = Ok (csv_quote <$> values))
               d' all_rows →
       run X path lib title fields connected mapping d files
       = (<[path := Closed (Str.BOM +:+ Str.join "," fields +:+ Str.lf
                            +:+ CsvParse.body_text all_rows)]> files,
          Returned)).
Proof.
  intros Hfmt Hdev Hb Hr. split.
  - unfold run, write_catalog, write_csv. rewrite Hdev, Hfmt.
    rewrite bool_decide_eq_true_2 by done.
    rewrite (csv_entries_first_Raise X _ lib fields before after r rows _ e Hb Hr).
    by rewrite !sapp_assoc.
  - intros d d' all_rows Hd Hrows.
    unfold run, write_catalog, write_csv. rewrite Hd, Hfmt.
    rewrite bool_decide_eq_true_2 by done.
    rewrite (csv_entries_all_Ok X _ lib fields d' all_rows _ Hrows).
    by rewrite !sapp_assoc.
Qed.

(** The first sample book, then a book whose ISBN is a number: the
    header and the row of the first book were written to the file, which
    is left open. *)
Lemma csv_failure_keeps_rows_witness :
  run Sample.env "catalog.csv" Sample.library PNone ["title"; "isbn"]
    false sample_mapping
    ([Sample.book1] ++ Sample.book3 :: [Sample.book2])
    {["catalog.csv" := Closed "old"]}
  = (<["catalog.csv" := LeftOpen
         (Str.BOM +:+ Str.join "," ["title"; "isbn"] +:+ Str.lf
          +:+ CsvParse.body_text [["Dune, part one"; "978-0-13-468599-1X"]])]>
       {["catalog.csv" := Closed "old"]},
     Raised TypeError).
Proof.
  refine (proj1 (csv_failure_keeps_rows Sample.env "catalog.csv" Sample.library PNone
                   ["title"; "isbn"] false sample_mapping
                   ([Sample.book1] ++ Sample.book3 :: [Sample.book2])
                   [Sample.book1] [Sample.book2] Sample.book3
                   [["Dune, part one"; "978-0-13-468599-1X"]]
                   {["catalog.csv" := Closed "old"]}
                   TypeError eq_refl eq_refl _ _)).
  - constructor; [by vm_compute|constructor].
  - by vm_compute.
Defined.

(** ** The exception handler of the XML writer *)

(** X14.  The handler of the XML writer reads the title of the record
    that failed.  When that record has no [title] key, the handler itself
    raises: [run] ends with the [KeyError] of the title, the exception of
    the record is not reported, and no file is touched.  The records are
    those that come out of the device step of [run]. *)
Theorem xml_handler_without_title (X : Env) (path : string) (lib title : pyval)
    (fields : list string) (connected : bool) (mapping : pyval → option record)
    (data before after : list record) (r : record)
    (files : gmap string file) (e0 : exn) (root : xml) :
  Str.rpartition_2 "."%char path = "xml" →
  add_ondevice connected mapping fields data = Ok (before ++ r :: after) →
  (if Py.truthy title
   then E X "calibredb" None [("title", title)]
   else E X "calibredb" None []) = Ok root →
  Forall (λ b, ∃ y, xml_record X (fm_of X fields) lib fields b = Ok y) before →
  xml_record X (fm_of X fields) lib fields r = Raise e0 →
  r !! "title" = None →
  xml_record_try X (fm_of X fields) lib fields r = Raise (KeyError "title")
  ∧ run X path lib title fields connected mapping data files
    = (files, Raised (KeyError "title")).
Proof.
  intros Hfmt Hdev Hroot Hbefore He0 Ht.
  assert (xml_record_try X (fm_of X fields) lib fields r = Raise (KeyError "title"))
    as Htry.
  { unfold xml_record_try. by rewrite He0, getitem_missing. }
  split; [done|].
  unfold run, write_catalog. rewrite Hdev, Hfmt.
  rewrite bool_decide_eq_false_2, bool_decide_eq_true_2 by done.
  unfold xml_tree. rewrite Hroot. cbn [mbind res_bind].
  erewrite for_each_first_Raise; [done| |done].
  eapply Forall_impl; [done|]. intros b [y Hy]. exists y.
  unfold xml_record_try. by rewrite Hy.
Qed.

(** The first sample book without its title, with [title] among the
    fields. *)
Lemma xml_handler_without_title_witness :
  let r := delete "title" Sample.book1 in
  run Sample.env "catalog.xml" Sample.library PNone ["title"; "isbn"]
    false sample_mapping ([Sample.book2] ++ r :: []) ∅
  = (∅, Raised (KeyError "title")).
Proof.
  intros r.
  refine (proj2 (xml_handler_without_title Sample.env "catalog.xml" Sample.library
                   PNone ["title"; "isbn"] false sample_mapping
                   ([Sample.book2] ++ r :: []) [Sample.book2] [] r ∅
                   (KeyError "title")
                   (Element "calibredb" [] None []) eq_refl eq_refl eq_refl _ _ _)).
  - constructor; [|constructor]. eexists. vm_compute. reflexivity.
  - by vm_compute.
  - by vm_compute.
Defined.

(** ** The fields written as they are *)

Section Plain.
Context (X : Env).
Implicit Types (fm : gmap string FieldMeta) (r : record).

Lemma plain_scalar_field field :
  field ∈ plain_scalar_fields →
  field ∈ scalar_fields
  ∧ Str.startswith field "#" = false
  ∧ field ≠ "library_name" ∧ field ≠ "title_sort"
  ∧ field ≠ "formats" ∧ field ≠ "authors" ∧ field ≠ "tags" ∧ field ≠ "isbn"
  ∧ field ≠ "comments".
Proof.
  unfold plain_scalar_fields, scalar_fields. intros Hin.
  repeat (apply elem_of_cons in Hin as [->|Hin];
          [split; [tag_not_in|by repeat split]|]).
  by apply elem_of_nil in Hin.
Qed.

Lemma csv_normalize_plain fm field v :
  field ≠ "formats" → field ≠ "authors" → field ≠ "tags" → field ≠ "isbn" →
  field ≠ "comments" →
  datatype (fm_get fm field) ≠ Some "datetime" →
  datatype (fm_get fm field) ≠ Some "rating" →
  csv_normalize X fm field v = Ok v.
Proof.
  intros H1 H2 H3 H4 H5 Hd Hr. unfold csv_normalize.
  rewrite (bool_decide_eq_false_2 (field = "formats")) by done.
  rewrite (bool_decide_eq_false_2 (field = "authors")) by done.
  rewrite (bool_decide_eq_false_2 (field = "tags")) by done.
  rewrite (bool_decide_eq_false_2 (field = "isbn")) by done.
  rewrite (bool_decide_eq_false_2 (field = "comments")) by done.
  by rewrite !bool_decide_eq_false_2 by done.
Qed.

End Plain.

(** X15.  For the fields [id], [uuid], [publisher], [size], [ondevice]
    and [identifiers], where the metadata makes the field neither a
    datetime nor a rating: the CSV cell of a value that is not [None] is
    [str] of the value after the HTML rule, quoted, and for a value that
    is no string [str] of the value as it is; when the field is in the
    field list, the value is truthy and the record element is built, the
    element of the field holds [str] of the value as its text, so numbers
    are converted.  The [languages] element has no such conversion: when
    it is written the value is a string. *)
Theorem plain_fields_csv_and_xml (X : Env) fm lib (fields : list string)
    (r : record) (field : string) (v : pyval) :
  field ∈ plain_scalar_fields →
  datatype (fm_get fm field) ≠ Some "datetime" →
  datatype (fm_get fm field) ≠ Some "rating" →
  r !! field = Some v →
  (v ≠ PNone →
   csv_cell X fm lib r field
   = item ← csv_html X v; Ok (csv_quote (Py.str item)))
  ∧ (v ≠ PNone → Py.is_str v = false →
     csv_cell X fm lib r field = Ok (csv_quote (Py.str v)))
  ∧ (∀ rec, field ∈ fields → Py.truthy v = true →
       xml_record X fm lib fields r = Ok rec →
       children_named field rec = [Element field [] (Some (Py.str v)) []])
  ∧ (∀ rec l, "languages" ∈ fields → r !! "languages" = Some l →
       Py.truthy l = true →
       xml_record X fm lib fields r = Ok rec →
       ∃ s, l = PStr s
            ∧ children_named "languages" rec = [Element "languages" [] (Some s) []]).
Proof.
  intros Hf Hd Hrt Hr.
  destruct (plain_scalar_field field Hf)
    as (Hs & Hm & Hl & Ht & H1 & H2 & H3 & H4 & H5).
  assert (v ≠ PNone →
          csv_cell X fm lib r field
          = item ← csv_html X v; Ok (csv_quote (Py.str item))) as Hcell.
  { intros Hv. rewrite (csv_cell_item X fm lib r field v); [|by rewrite csv_item_direct, getitem_Ok|done].
    by rewrite csv_normalize_plain. }
  split; [done|]. split; [|split].
  - intros Hv Hstr. rewrite Hcell by done. by destruct v.
  - intros rec Hin Htr Hrec.
    pose proof (record_scalar_named X fm lib fields r rec field Hs Hrec) as H.
    unfold xml_scalar, field_in, getitem in H.
    rewrite bool_decide_eq_true_2 in H by done.
    rewrite Hr in H. cbn [mbind res_bind] in H. rewrite Htr in H. cbn [negb] in H.
    rewrite (bool_decide_eq_false_2 (datatype (fm_get fm field) = Some "rating")) in H
      by done.
    cbn [andb] in H.
    destruct (Py.is_str v) eqn:Hstr; cbn [negb mbind res_bind] in H.
    + destruct v; try done. ok_inv H.
      apply E_text_Ok in Ha as (s' & [= <-] & _ & ->). by rewrite <-H.
    + ok_inv H. apply E_text_Ok in Ha as (s' & [= <-] & _ & ->). by rewrite <-H.
  - intros rec l Hin Hlang Htr Hrec.
    pose proof (record_languages_named X fm lib fields r rec Hrec) as H.
    unfold xml_text_field, field_in, getitem in H.
    rewrite bool_decide_eq_true_2 in H by done.
    rewrite Hlang in H. cbn [mbind res_bind] in H. rewrite Htr in H.
    ok_inv H. apply E_text_Ok in Ha as (s & -> & _ & ->).
    exists s. by rewrite <-H.
Qed.

(** The id of the first sample book, the number 1. *)
Lemma plain_fields_csv_and_xml_witness :
  let fields := ["id"; "title"] in
  let fm := fm_of Sample.env fields in
  csv_cell Sample.env fm Sample.library Sample.book1 "id" = Ok (csv_quote "1")
  ∧ ∀ rec, xml_record Sample.env fm Sample.library fields Sample.book1 = Ok rec →
      children_named "id" rec = [Element "id" [] (Some "1") []].
Proof.
  intros fields fm.
  pose proof (plain_fields_csv_and_xml Sample.env fm Sample.library fields
                Sample.book1 "id" (PInt 1)
                ltac:(apply (bool_decide_unpack _); by vm_compute)
                ltac:(by vm_compute) ltac:(by vm_compute) eq_refl)
    as (_ & Hcsv & Hxml & _).
  split.
  - by apply Hcsv.
  - intros rec Hrec. apply (Hxml rec); [|done|done].
    apply (bool_decide_unpack _). by vm_compute.
Defined.

(** ** The library name and the sort key of the title *)

Section LibraryName.
Context (X : Env).
Implicit Types (fm : gmap string FieldMeta) (r : record).

Lemma record_library_name_named fm lib fields r rec :
  xml_record X fm lib fields r = Ok rec →
  xml_library_name X lib fields = Ok (children_named "library_name" rec).
Proof. intros H. sections_of X H. by pick_section. Qed.

Lemma record_no_title_sort fm lib fields r rec :
  xml_record X fm lib fields r = Ok rec →
  children_named "title_sort" rec = [].
Proof. intros H. sections_of X H. by pick_section. Qed.

End LibraryName.

(** X16.  The CSV cell of [library_name] is made of the name of the
    current library alone: it is the same for every record.  The cell of
    [title_sort] is made of the [sort] key of the record.  In a record
    element that was built, [library_name] in the field list gives one
    [library_name] element, whose text is the library name, a string, and
    it is the last child of the record; no record element has a
    [title_sort] child, whatever the field list. *)
Theorem library_name_and_title_sort (X : Env) fm lib (fields : list string)
    (r : record) (rec : xml) :
  xml_record X fm lib fields r = Ok rec →
  (∀ r' : record,
     csv_cell X fm lib r' "library_name" = csv_cell X fm lib r "library_name")
  ∧ (∀ r' : record, r' !! "sort" = r !! "sort" →
       csv_cell X fm lib r' "title_sort" = csv_cell X fm lib r "title_sort")
  ∧ ("library_name" ∈ fields →
       ∃ s, lib = PStr s
            ∧ children_named "library_name" rec
              = [Element "library_name" [] (Some s) []]
            ∧ last (xml_children rec) = Some (Element "library_name" [] (Some s) []))
  ∧ children_named "title_sort" rec = [].
Proof.
  intros Hrec. split; [|split; [|split]].
  - intros r'. by unfold csv_cell, csv_item.
  - intros r' Hsort. unfold csv_cell, csv_item, getitem. cbn. by rewrite Hsort.
  - intros Hin.
    pose proof (record_library_name_named X fm lib fields r rec Hrec) as H.
    destruct (xml_record_Ok X _ _ _ _ _ Hrec)
      as (c1 & c2 & c3 & c4 & c5 & c6 & c7 & c8 & c9 & c10 & c11 & c12 & c13
          & Hc & _ & _ & _ & _ & _ & _ & _ & _ & _ & _ & _ & _ & H13).
    unfold xml_library_name, field_in in H, H13.
    rewrite bool_decide_eq_true_2 in H, H13 by done.
    ok_inv H. rewrite Ha in H13. cbn [mbind res_bind] in H13. injection H13 as <-.
    apply E_text_Ok in Ha as (s & -> & _ & ->).
    exists s. split; [done|]. split; [by rewrite <-H|].
    rewrite Hc. cbn [xml_children]. rewrite !app_assoc. apply last_snoc.
  - by eapply record_no_title_sort.
Qed.

(** The first sample book in the fields [title_sort], [title] and
    [library_name]. *)
Lemma library_name_and_title_sort_witness :
  let fields := ["title_sort"; "library_name"; "title"] in
  let fm := fm_of Sample.env fields in
  let rec := Element "record" [] None
               [Element "title" [("sort", "Dune, part one")] (Some "Dune, part one") [];
                Element "library_name" [] (Some "Calibre Library") []] in
  xml_record Sample.env fm Sample.library fields Sample.book1 = Ok rec
  ∧ csv_cell Sample.env fm Sample.library Sample.book2 "library_name"
    = csv_cell Sample.env fm Sample.library Sample.book1 "library_name"
  ∧ children_named "title_sort" rec = [].
Proof.
  intros fields fm rec.
  assert (xml_record Sample.env fm Sample.library fields Sample.book1 = Ok rec) as Hrec
    by (vm_compute; reflexivity).
  pose proof (library_name_and_title_sort Sample.env fm Sample.library fields
                Sample.book1 rec Hrec) as (Hlib & _ & _ & Hsort).
  split; [done|]. split; [apply Hlib|done].
Defined.
